(** * UNZA complaint and meeting system: the route handlers, embedded

    A shallow embedding of the Express route handlers of the backend
    ([routes/auth.js], [routes/users.js], [routes/meetings.js],
    [routes/complaints.js]) and of the middleware of [middleware/auth.js],
    together with the properties the specification states about them.

    The relational store is a record of tables, each table a list of rows
    in insertion order; a handler is a function from the store and the
    request to a response and the store it leaves behind. *)

From Stdlib Require Import ZArith QArith Qround List String Ascii Bool Lia.
From Stdlib Require Import DecimalString.
Import ListNotations.
Local Open Scope string_scope.
Local Open Scope Z_scope.

(** ** The JavaScript values the handlers compute with *)

Module JS.

(** A JavaScript number, as far as the handlers use one: a finite value
    (kept exact, as a rational), the two infinities and NaN.  The counts,
    pages and limits of the handlers are integers; the only division is
    the one under [Math.ceil], whose double result has the ceiling of the
    exact quotient as long as the operands stay below 2^53.  The sign of
    zero is not distinguished. *)
Inductive jsnum : Type :=
  | Fin (q : Q)
  | PInf
  | NInf
  | NaN.

Definition Int (z : Z) : jsnum := Fin (inject_Z z).

Definition Qsgn (q : Q) : Z := Z.sgn (Qnum q).

Definition inf_of_sign (s : Z) : jsnum :=
  match s with
  | Z0 => NaN
  | Zpos _ => PInf
  | Zneg _ => NInf
  end.

Definition jsneg (a : jsnum) : jsnum :=
  match a with
  | Fin q => Fin (Qopp q)
  | PInf => NInf
  | NInf => PInf
  | NaN => NaN
  end.

Definition jsadd (a b : jsnum) : jsnum :=
  match a, b with
  | NaN, _ | _, NaN => NaN
  | Fin x, Fin y => Fin (Qred (Qplus x y))
  | PInf, NInf | NInf, PInf => NaN
  | PInf, _ | _, PInf => PInf
  | NInf, _ | _, NInf => NInf
  end.

Definition jssub (a b : jsnum) : jsnum := jsadd a (jsneg b).

Definition jsmul (a b : jsnum) : jsnum :=
  match a, b with
  | NaN, _ | _, NaN => NaN
  | Fin x, Fin y => Fin (Qred (Qmult x y))
  | Fin x, PInf | PInf, Fin x => inf_of_sign (Qsgn x)
  | Fin x, NInf | NInf, Fin x => inf_of_sign (- Qsgn x)
  | PInf, PInf | NInf, NInf => PInf
  | PInf, NInf | NInf, PInf => NaN
  end.

Definition jsdiv (a b : jsnum) : jsnum :=
  match a, b with
  | NaN, _ | _, NaN => NaN
  | Fin x, Fin y =>
      if Qeq_bool y 0 then inf_of_sign (Qsgn x) else Fin (Qdiv x y)
  | Fin _, PInf | Fin _, NInf => Fin 0
  | PInf, Fin y => if Qle_bool 0 y then PInf else NInf
  | NInf, Fin y => if Qle_bool 0 y then NInf else PInf
  | _, _ => NaN
  end.

Definition Math_ceil (a : jsnum) : jsnum :=
  match a with
  | Fin q => Int (Qceiling q)
  | _ => a
  end.

(** [a < b]; every comparison with NaN is false. *)
Definition jslt (a b : jsnum) : bool :=
  match a, b with
  | NaN, _ | _, NaN => false
  | Fin x, Fin y => Qle_bool x y && negb (Qeq_bool x y)
  | _, NInf => false
  | NInf, _ => true
  | PInf, _ => false
  | _, PInf => true
  end.

Definition jsgt (a b : jsnum) : bool := jslt b a.

(** [a <= b] is "neither is NaN and not [b < a]". *)
Definition jsle (a b : jsnum) : bool :=
  match a, b with
  | NaN, _ | _, NaN => false
  | _, _ => negb (jslt b a)
  end.

Definition isNaN (a : jsnum) : bool :=
  match a with NaN => true | _ => false end.

(** The integer a number is, when it is one. *)
Definition as_integer (a : jsnum) : option Z :=
  match a with
  | Fin q => if Qeq_bool q (inject_Z (Qfloor q)) then Some (Qfloor q) else None
  | _ => None
  end.

(** *** [parseInt] on a string, no radix given *)

(** The white space skipped is that of ASCII. *)
Definition is_ws (c : ascii) : bool :=
  let n := nat_of_ascii c in
  (Nat.eqb n 32 || (Nat.leb 9 n && Nat.leb n 13))%bool.

Fixpoint skip_ws (s : string) : string :=
  match s with
  | String c s' => if is_ws c then skip_ws s' else s
  | EmptyString => s
  end.

Definition digit_of (radix : Z) (c : ascii) : option Z :=
  let n := Z.of_nat (nat_of_ascii c) in
  let v :=
    if (48 <=? n) && (n <=? 57) then Some (n - 48)
    else if (97 <=? n) && (n <=? 122) then Some (n - 87)
    else if (65 <=? n) && (n <=? 90) then Some (n - 55)
    else None in
  match v with
  | Some d => if d <? radix then Some d else None
  | None => None
  end.

(** The longest prefix of digits, read in the given radix; [acc] is [None]
    until a digit has been seen. *)
Fixpoint parse_digits (radix : Z) (s : string) (acc : option Z) : option Z :=
  match s with
  | EmptyString => acc
  | String c s' =>
      match digit_of radix c with
      | Some d =>
          parse_digits radix s'
            (Some (match acc with Some a => a * radix + d | None => d end))
      | None => acc
      end
  end.

Definition strip_sign (s : string) : Z * string :=
  match s with
  | String "-" s' => (-1, s')
  | String "+" s' => (1, s')
  | _ => (1, s)
  end.

Definition strip_hex_prefix (s : string) : Z * string :=
  match s with
  | String "0" (String "x" s') => (16, s')
  | String "0" (String "X" s') => (16, s')
  | _ => (10, s)
  end.

Definition parseInt (s : string) : jsnum :=
  let (sign, s1) := strip_sign (skip_ws s) in
  let (radix, s2) := strip_hex_prefix s1 in
  match parse_digits radix s2 None with
  | Some n => Int (sign * n)
  | None => NaN
  end.

(** *** Values of a parsed request body *)

(** The scalar values a JSON or URL-encoded body gives a field; a number
    is integer-valued.  [JUndef] is an absent field.  (A JSON body can
    also give a field an array or an object; these are left out.) *)
Inductive jsval : Type :=
  | JUndef
  | JNull
  | JBool (b : bool)
  | JNum (z : Z)
  | JStr (s : string).

Definition truthy (v : jsval) : bool :=
  match v with
  | JUndef | JNull => false
  | JBool b => b
  | JNum z => negb (z =? 0)
  | JStr s => negb (String.eqb s "")
  end.

(** A destructuring default applies to an absent field only. *)
Definition default (v d : jsval) : jsval :=
  match v with JUndef => d | _ => v end.

(** [a || null] *)
Definition or_null (v : jsval) : jsval := if truthy v then v else JNull.

Definition string_of_Z (z : Z) : string := NilZero.string_of_int (Z.to_int z).

(** [String(v)], for integers short of the exponent notation. *)
Definition ToString (v : jsval) : string :=
  match v with
  | JUndef => "undefined"
  | JNull => "null"
  | JBool true => "true"
  | JBool false => "false"
  | JNum z => string_of_Z z
  | JStr s => s
  end.

(** [arr.includes(v)] on an array of strings: strict equality. *)
Definition includes (arr : list string) (v : jsval) : bool :=
  match v with
  | JStr s => existsb (String.eqb s) arr
  | _ => false
  end.

(** [a === b] of a value against a string. *)
Definition strict_eq_str (v : jsval) (s : string) : bool :=
  match v with
  | JStr t => String.eqb t s
  | _ => false
  end.

Definition is_digit (c : ascii) : bool :=
  let n := nat_of_ascii c in (Nat.leb 48 n && Nat.leb n 57)%bool.

Fixpoint all_digits (s : string) : bool :=
  match s with
  | EmptyString => true
  | String c s' => is_digit c && all_digits s'
  end.

(** [/^\d{4}\d{6}$/.test(v)] and [/^\d{10}$/.test(v)]: ten digits, no more. *)
Definition ten_digits (s : string) : bool :=
  (Nat.eqb (String.length s) 10 && all_digits s)%bool.

Definition computerNumberRegex_test (v : jsval) : bool :=
  ten_digits (ToString v).

End JS.
Import JS.

(** [str.replace(pat, '')] with a string pattern: the first occurrence goes. *)
Fixpoint remove_first (pat s : string) : string :=
  if String.prefix pat s then
    String.substring (String.length pat) (String.length s - String.length pat) s
  else
    match s with
    | EmptyString => EmptyString
    | String c s' => String c (remove_first pat s')
    end.

Definition upper_char (c : ascii) : ascii :=
  let n := nat_of_ascii c in
  if (Nat.leb 97 n && Nat.leb n 122)%bool then ascii_of_nat (n - 32) else c.

Fixpoint toUpperCase (s : string) : string :=
  match s with
  | EmptyString => EmptyString
  | String c s' => String (upper_char c) (toUpperCase s')
  end.

(** ** JSON documents: response bodies and token payloads *)

#[warnings="-register-all"]
Inductive json : Type :=
  | JScalar (v : jsval)
  | JNumber (n : jsnum)
  | JArr (l : list json)
  | JObj (fields : list (string * json)).

Definition jstr (s : string) : json := JScalar (JStr s).
Definition jbool (b : bool) : json := JScalar (JBool b).
Definition jnull : json := JScalar JNull.
Definition jint (z : Z) : json := JScalar (JNum z).

Definition jopt (o : option string) : json :=
  match o with Some s => jstr s | None => jnull end.

Fixpoint assoc {A : Type} (k : string) (l : list (string * A)) : option A :=
  match l with
  | [] => None
  | (k', v) :: l' => if String.eqb k k' then Some v else assoc k l'
  end.

(** [o.k], when [o] is an object holding the key. *)
Definition get (k : string) (o : json) : option json :=
  match o with
  | JObj fields => assoc k fields
  | _ => None
  end.

(** ** Query parameters *)

(** A value of [req.query] as the query parser leaves it: the string of a
    key given once, an array for a key given more than once or as
    [k[]=v], an object for [k[sub]=v]. *)
#[warnings="-register-all"]
Inductive qval : Type :=
  | QStr (s : string)
  | QArr (items : list qval)
  | QObj (fields : list (string * qval)).

(** [String(v)]: a string is its own text, an array the texts of its items
    between commas. *)
Fixpoint qstring (v : qval) : string :=
  match v with
  | QStr s => s
  | QArr items => String.concat "," (map qstring items)
  | QObj _ => "[object Object]"
  end.

(** The value as a response carries it. *)
Fixpoint qjson (v : qval) : json :=
  match v with
  | QStr s => jstr s
  | QArr items => JArr (map qjson items)
  | QObj fields => JObj (map (fun kv => (fst kv, qjson (snd kv))) fields)
  end.

(** An absent query parameter is an [undefined] property. *)
Definition jquery (o : option qval) : json :=
  match o with Some v => qjson v | None => JScalar JUndef end.

(** [arr.includes(v)] on an array of strings: only a string is in it. *)
Definition includes_q (arr : list string) (v : qval) : bool :=
  match v with
  | QStr s => existsb (String.eqb s) arr
  | _ => false
  end.

(** [v.toUpperCase()]: a string has the method; on an array or an object
    the call throws ([None]). *)
Definition toUpperCase_q (v : qval) : option string :=
  match v with
  | QStr s => Some (toUpperCase s)
  | _ => None
  end.

(** ** The relational store *)

Module User.
Record t : Type := mk {
  computer_number : string;
  role : string;
  first_name : string;
  last_name : string;
  email : string;
  phone : string;
  password_hash : string;
  created_at : Z
}.
End User.

Module Complaint.
Record t : Type := mk {
  complaint_id : Z;
  computer_number : option string;
  title : string;
  description : string;
  category : string;
  priority : string;
  contact_phone : option string;
  contact_email : option string;
  anonymous : Z;
  status : string;
  admin_response : option string;
  admin_notes : option string;
  created_at : Z;
  updated_at : option Z;
  resolved_at : option Z
}.
End Complaint.

Module Meeting.
Record t : Type := mk {
  meeting_id : Z;
  title : string;
  description : option string;
  organizer_computer_number : string;
  participant_computer_number : string;
  scheduled_at : string;
  status : string;
  created_at : Z
}.
End Meeting.

(** The tables, rows in insertion order, and the AUTO_INCREMENT counters of
    the two tables the handlers insert into with a generated key.  The
    store enforces no constraint of its own: what the handlers check is all
    that is checked. *)
Record db : Type := mkdb {
  users : list User.t;
  complaints : list Complaint.t;
  meetings : list Meeting.t;
  complaints_next_id : Z;
  meetings_next_id : Z
}.

(** A bound parameter as the text the statement carries: [null] and
    [undefined] are NULL, a boolean is 1 or 0, a number its decimals. *)
Definition sql_text (v : jsval) : option string :=
  match v with
  | JUndef | JNull => None
  | JBool true => Some "1"
  | JBool false => Some "0"
  | JNum z => Some (string_of_Z z)
  | JStr s => Some s
  end.

(** [column = ?] on a text column: never true against NULL; otherwise the
    exact comparison of the two texts. *)
Definition col_eq (col : string) (p : option string) : bool :=
  match p with
  | Some s => String.eqb col s
  | None => false
  end.

Definition ncol_eq (col : option string) (p : option string) : bool :=
  match col with
  | Some c => col_eq c p
  | None => false
  end.

(** [column = ?] on an integer key, the parameter a JavaScript number. *)
Definition id_eq (col : Z) (p : jsnum) : bool :=
  match as_integer p with
  | Some z => col =? z
  | None => false
  end.

(** [LIMIT ? OFFSET ?]: the server refuses the statement (the query
    throws) unless both are non-negative integers; NaN and a negative
    count or offset are syntax errors, and so is a number of 1e21 or more,
    which the driver writes with an exponent. *)
Definition limit_offset {A : Type} (limit offset : jsnum) (rows : list A)
  : option (list A) :=
  match as_integer limit, as_integer offset with
  | Some l, Some o =>
      if (0 <=? l) && (0 <=? o) && (l <? 10 ^ 21) && (o <? 10 ^ 21)
      then Some (firstn (Z.to_nat l) (skipn (Z.to_nat o) rows))
      else None
  | _, _ => None
  end.

Definition count {A : Type} (rows : list A) : jsnum :=
  Int (Z.of_nat (List.length rows)).

Definition user_by_number (d : db) (p : option string) : list User.t :=
  filter (fun u => col_eq (User.computer_number u) p) (users d).

Definition complaint_by_id (d : db) (p : jsnum) : list Complaint.t :=
  filter (fun c => id_eq (Complaint.complaint_id c) p) (complaints d).

Definition meeting_by_id (d : db) (p : jsnum) : list Meeting.t :=
  filter (fun m => id_eq (Meeting.meeting_id m) p) (meetings d).

(** ** Requests and responses *)

Record request : Type := mkreq {
  authorization : option string;      (* req.headers.authorization *)
  params : string -> string;          (* req.params, of the matched route *)
  query : string -> option qval;      (* req.query *)
  body : string -> jsval              (* req.body *)
}.

Record response : Type := mkres {
  status : Z;
  json_body : json
}.

(** [res.status(c).json(o)], and [res.json(o)] with its default status. *)
Definition res_status (c : Z) (o : list (string * json)) : response :=
  mkres c (JObj o).
Definition res_json (o : list (string * json)) : response :=
  mkres 200 (JObj o).

(** What a middleware does: answer, or hand over with [req.user] set. *)
Inductive step (A : Type) : Type :=
  | Respond (r : response)
  | Next (a : A).
Arguments Respond {A} r.
Arguments Next {A} a.

(** ** What the handlers call and this repository does not define *)

(** The outcome of [jwt.verify]: the decoded payload, or the [name] of the
    error thrown. *)
Inductive verified : Type :=
  | Decoded (claims : list (string * jsval))
  | Throws (name : string).

Class Externals : Type := {
  (** process.env.JWT_SECRET and process.env.JWT_EXPIRES_IN *)
  JWT_SECRET : option string;
  JWT_EXPIRES_IN : option string;
  (** jwt.sign(payload, secret, { expiresIn }) at a time; [None] when it
      throws (no secret, a malformed lifetime) *)
  jwt_sign : list (string * jsval) -> option string -> string -> Z -> option string;
  (** jwt.verify(token, secret) at a time *)
  jwt_verify : string -> option string -> Z -> verified;
  (** bcrypt.compare(data, hash), both strings *)
  bcrypt_compare : string -> string -> bool;
  (** new Date(v).getTime(): NaN for an invalid date *)
  Date_getTime : jsval -> jsnum;
  (** value LIKE pattern, under the collation of the store *)
  sql_like : string -> string -> bool;
  (** ORDER BY column direction *)
  order_by : forall A : Type, string -> string -> list A -> list A
}.
Arguments order_by {_ A} _ _ _.

(** [column = ?] with an array or an object bound to the parameter: the
    driver expands such a value into a list or into assignments, and the
    statement that results is refused by the server ([None]) or is some
    test of the row.  Which, is no business of this repository.  The
    listing of meetings reads its rows from a join under an alias, where
    the same text may fare otherwise than in the COUNT query. *)
Class Driver : Type := {
  users_eq : string -> qval -> option (User.t -> bool);
  complaints_eq : string -> qval -> option (Complaint.t -> bool);
  meetings_eq : string -> qval -> option (Meeting.t -> bool);
  meetings_joined_eq : string -> qval -> option (Meeting.t -> bool)
}.

(** A route: the store, the clock and the request in; the response and the
    store out. *)
Definition route : Type := db -> Z -> request -> response * db.

Section Handlers.
Context {E : Externals} {Dr : Driver}.

(** *** middleware/auth.js *)

Definition bearer_token (req : request) : option string :=
  option_map (remove_first "Bearer ") (authorization req).

Definition claim (k : string) (cs : list (string * jsval)) : jsval :=
  match assoc k cs with Some v => v | None => JUndef end.

Definition authenticate (d : db) (now : Z) (req : request) : step User.t :=
  match bearer_token req with
  | None =>
      Respond (res_status 401
        [("success", jbool false); ("message", jstr "Access token required");
         ("error_code", jstr "TOKEN_REQUIRED")])
  | Some token =>
      if String.eqb token "" then
        Respond (res_status 401
          [("success", jbool false); ("message", jstr "Access token required");
           ("error_code", jstr "TOKEN_REQUIRED")])
      else
        match jwt_verify token JWT_SECRET now with
        | Decoded decoded =>
            match user_by_number d (sql_text (claim "computer_number" decoded)) with
            | [] =>
                Respond (res_status 401
                  [("success", jbool false); ("message", jstr "User not found");
                   ("error_code", jstr "USER_NOT_FOUND")])
            | u :: _ => Next u
            end
        | Throws name =>
            if String.eqb name "JsonWebTokenError" then
              Respond (res_status 401
                [("success", jbool false); ("message", jstr "Invalid token");
                 ("error_code", jstr "INVALID_TOKEN")])
            else if String.eqb name "TokenExpiredError" then
              Respond (res_status 401
                [("success", jbool false); ("message", jstr "Token expired");
                 ("error_code", jstr "TOKEN_EXPIRED")])
            else
              Respond (res_status 500
                [("success", jbool false); ("message", jstr "Authentication failed");
                 ("error_code", jstr "AUTH_ERROR")])
        end
  end.

Definition join (sep : string) (l : list string) : string := String.concat sep l.

(** [authorize(allowedRoles)]; [user] is [req.user]. *)
Definition authorize (allowedRoles : list string) (user : option User.t)
  : step User.t :=
  match user with
  | None =>
      Respond (res_status 401
        [("success", jbool false); ("message", jstr "Authentication required");
         ("error_code", jstr "AUTH_REQUIRED")])
  | Some u =>
      if negb (existsb (String.eqb (User.role u)) allowedRoles) then
        Respond (res_status 403
          [("success", jbool false);
           ("message",
            jstr ("Access denied. Required role: " ++ join " or " allowedRoles));
           ("error_code", jstr "INSUFFICIENT_PERMISSIONS");
           ("user_role", jstr (User.role u));
           ("required_roles", JArr (map jstr allowedRoles))])
      else Next u
  end.

(** [router.METHOD(path, authenticate, handler)] *)
Definition authenticated (handler : User.t -> route) : route :=
  fun d now req =>
    match authenticate d now req with
    | Respond r => (r, d)
    | Next user => handler user d now req
    end.

(** [router.METHOD(path, authenticate, authorize(roles), handler)] *)
Definition authorized (roles : list string) (handler : User.t -> route)
  : route :=
  fun d now req =>
    match authenticate d now req with
    | Respond r => (r, d)
    | Next user =>
        match authorize roles (Some user) with
        | Respond r => (r, d)
        | Next user' => handler user' d now req
        end
    end.

(** *** routes/auth.js: POST /auth/login *)

(** process.env.JWT_EXPIRES_IN || '24h' *)
Definition expires_in : string :=
  match JWT_EXPIRES_IN with
  | Some e => if String.eqb e "" then "24h" else e
  | None => "24h"
  end.

(** The payload the login signs. *)
Definition token_claims (user : User.t) : list (string * jsval) :=
  [("computer_number", JStr (User.computer_number user));
   ("role", JStr (User.role user));
   ("email", JStr (User.email user))].

Definition auth_login : route := fun d now req =>
  let computer_number := body req "computer_number" in
  let password := body req "password" in
  if negb (truthy computer_number) || negb (truthy password) then
    (res_status 400
       [("success", jbool false);
        ("message", jstr "Computer number and password are required")], d)
  else
    match user_by_number d (sql_text computer_number) with
    | [] =>
        (res_status 401
           [("success", jbool false); ("message", jstr "Invalid credentials");
            ("error_code", jstr "INVALID_CREDENTIALS")], d)
    | user :: _ =>
        let login_error :=
          res_status 500
            [("success", jbool false);
             ("message", jstr "Login failed. Please try again.");
             ("error_code", jstr "LOGIN_ERROR")] in
        match password with
        | JStr pw =>
            if negb (bcrypt_compare pw (User.password_hash user)) then
              (res_status 401
                 [("success", jbool false); ("message", jstr "Invalid credentials");
                  ("error_code", jstr "INVALID_CREDENTIALS")], d)
            else
              match jwt_sign (token_claims user) JWT_SECRET expires_in now with
              | Some token =>
                  (res_json
                     [("success", jbool true); ("message", jstr "Login successful");
                      ("data", JObj
                         [("user", JObj
                             [("computer_number", jstr (User.computer_number user));
                              ("role", jstr (User.role user));
                              ("first_name", jstr (User.first_name user));
                              ("last_name", jstr (User.last_name user));
                              ("email", jstr (User.email user));
                              ("phone", jstr (User.phone user))]);
                          ("token", jstr token);
                          ("expires_in", jstr expires_in)])], d)
              | None => (login_error, d)
              end
        | _ => (login_error, d)       (* bcrypt refuses data that is no string *)
        end
    end.

(** *** routes/users.js *)

(** The truth value of a query parameter: present and not the empty
    string; every array and every object is true. *)
Definition given (v : option qval) : bool :=
  match v with
  | Some (QStr s) => negb (String.eqb s "")
  | Some _ => true
  | None => false
  end.

(** [parseInt(v)] of a query parameter destructured with a numeric default;
    [parseInt] reads the text of its argument. *)
Definition parseInt_or (dflt : Z) (v : option qval) : jsnum :=
  match v with
  | Some w => parseInt (qstring w)
  | None => Int dflt
  end.

Definition or_default (dflt : string) (v : option qval) : qval :=
  match v with Some w => w | None => QStr dflt end.

(** The parameter inside a template literal. *)
Definition template (v : option qval) : string :=
  match v with Some w => qstring w | None => "undefined" end.

Definition mem (s : string) (l : list string) : bool := existsb (String.eqb s) l.

(** One condition of a WHERE clause: [column = ?], pushed with its
    parameter when the parameter is true. *)
Definition where_eq {A : Type} (exotic : qval -> option (A -> bool))
    (column : A -> option string) (v : option qval) : option (A -> bool) :=
  if given v then
    match v with
    | Some (QStr s) => Some (fun row => ncol_eq (column row) (Some s))
    | Some w => exotic w
    | None => Some (fun _ => true)
    end
  else Some (fun _ => true).

(** Conditions joined by AND; the statement is refused when one is. *)
Definition where_and {A : Type} (a b : option (A -> bool)) : option (A -> bool) :=
  match a, b with
  | Some f, Some g => Some (fun row => f row && g row)
  | _, _ => None
  end.

Definition user_json (u : User.t) : json :=
  JObj [("computer_number", jstr (User.computer_number u));
        ("role", jstr (User.role u));
        ("first_name", jstr (User.first_name u));
        ("last_name", jstr (User.last_name u));
        ("email", jstr (User.email u));
        ("phone", jstr (User.phone u));
        ("created_at", jint (User.created_at u))].

(** The WHERE clause GET /users builds. *)
Definition users_where (role search : option qval) : option (User.t -> bool) :=
  where_and
    (where_eq (users_eq "role") (fun u => Some (User.role u)) role)
    (Some (fun u =>
       if given search then
         let searchTerm := "%" ++ template search ++ "%" in
         sql_like (User.first_name u) searchTerm
         || sql_like (User.last_name u) searchTerm
         || sql_like (User.email u) searchTerm
         || sql_like (User.computer_number u) searchTerm
       else true)).

(** GET /users, the handler behind authenticate and authorize(['admin']) *)
Definition get_users (_ : User.t) : route := fun d now req =>
  let role := query req "role" in
  let page := query req "page" in
  let limit := query req "limit" in
  let sort_by := or_default "created_at" (query req "sort_by") in
  let sort_order := or_default "DESC" (query req "sort_order") in
  let search := query req "search" in
  let validSortColumns :=
    ["created_at"; "first_name"; "last_name"; "role"; "computer_number"] in
  let validSortOrders := ["ASC"; "DESC"] in
  let fetch_error :=
    (res_status 500
       [("success", jbool false); ("message", jstr "Failed to fetch users");
        ("error_code", jstr "FETCH_ERROR")], d) in
  let sortColumn :=
    if includes_q validSortColumns sort_by then qstring sort_by else "created_at" in
  match toUpperCase_q sort_order with
  | None => fetch_error
  | Some upper =>
  let sortOrder := if mem upper validSortOrders then upper else "DESC" in
  let offset := jsmul (jssub (parseInt_or 1 page) (Int 1)) (parseInt_or 10 limit) in
  match users_where role search with
  | None => fetch_error
  | Some condition =>
  let matching := filter condition (users d) in
  let totalUsers := count matching in
  match limit_offset (parseInt_or 10 limit) offset
          (order_by sortColumn sortOrder matching) with
  | None => fetch_error
  | Some rows =>
      let totalPages := Math_ceil (jsdiv totalUsers (parseInt_or 10 limit)) in
      (res_json
         [("success", jbool true);
          ("data", JArr (map user_json rows));
          ("pagination", JObj
             [("current_page", JNumber (parseInt_or 1 page));
              ("total_pages", JNumber totalPages);
              ("total_users", JNumber totalUsers);
              ("limit", JNumber (parseInt_or 10 limit));
              ("has_next", jbool (jslt (parseInt_or 1 page) totalPages));
              ("has_prev", jbool (jsgt (parseInt_or 1 page) (Int 1)))]);
          ("filters", JObj [("role", jquery role); ("search", jquery search)])], d)
  end end end.

(** GET /users/:computer_number, behind authenticate *)
Definition get_user (user : User.t) : route := fun d now req =>
  let computer_number := params req "computer_number" in
  if negb (String.eqb (User.role user) "admin")
     && negb (String.eqb (User.computer_number user) computer_number) then
    (res_status 403
       [("success", jbool false);
        ("message", jstr "Access denied. You can only view your own profile.");
        ("error_code", jstr "ACCESS_DENIED")], d)
  else
    match user_by_number d (Some computer_number) with
    | [] =>
        (res_status 404
           [("success", jbool false); ("message", jstr "User not found");
            ("error_code", jstr "USER_NOT_FOUND")], d)
    | u :: _ => (res_json [("success", jbool true); ("data", user_json u)], d)
    end.

Definition set_role (r : string) (u : User.t) : User.t :=
  User.mk (User.computer_number u) r (User.first_name u) (User.last_name u)
          (User.email u) (User.phone u) (User.password_hash u)
          (User.created_at u).

(** UPDATE users SET role = ? WHERE computer_number = ? *)
Definition update_user_role (r computer_number : string) (d : db) : db :=
  mkdb (map (fun u => if col_eq (User.computer_number u) (Some computer_number)
                      then set_role r u else u) (users d))
       (complaints d) (meetings d) (complaints_next_id d) (meetings_next_id d).

(** DELETE FROM users WHERE computer_number = ? *)
Definition delete_user (computer_number : string) (d : db) : db :=
  mkdb (filter (fun u => negb (col_eq (User.computer_number u)
                                      (Some computer_number))) (users d))
       (complaints d) (meetings d) (complaints_next_id d) (meetings_next_id d).

(** PUT /users/:computer_number/role, behind authenticate and
    authorize(['admin']) *)
Definition put_user_role (user : User.t) : route := fun d now req =>
  let computer_number := params req "computer_number" in
  let role := body req "role" in
  if negb (truthy role) then
    (res_status 400
       [("success", jbool false); ("message", jstr "Role is required")], d)
  else
    let validRoles := ["admin"; "lecturer"; "student"] in
    if negb (includes validRoles role) then
      (res_status 400
         [("success", jbool false);
          ("message", jstr ("Invalid role. Must be one of: " ++ join ", " validRoles))],
       d)
    else
      match user_by_number d (Some computer_number) with
      | [] =>
          (res_status 404
             [("success", jbool false); ("message", jstr "User not found");
              ("error_code", jstr "USER_NOT_FOUND")], d)
      | _ :: _ =>
          if String.eqb (User.computer_number user) computer_number
             && String.eqb (User.role user) "admin"
             && negb (strict_eq_str role "admin") then
            (res_status 400
               [("success", jbool false);
                ("message", jstr "You cannot change your own admin role");
                ("error_code", jstr "CANNOT_DEMOTE_SELF")], d)
          else
            let d' := update_user_role (ToString role) computer_number d in
            let updatedUser :=
              match user_by_number d' (Some computer_number) with
              | u :: _ =>
                  JObj [("computer_number", jstr (User.computer_number u));
                        ("role", jstr (User.role u));
                        ("first_name", jstr (User.first_name u));
                        ("last_name", jstr (User.last_name u));
                        ("email", jstr (User.email u))]
              | [] => JScalar JUndef
              end in
            (res_json
               [("success", jbool true);
                ("message", jstr "User role updated successfully");
                ("data", updatedUser)], d')
      end.

(** DELETE /users/:computer_number, behind authenticate and
    authorize(['admin']) *)
Definition delete_user_route (user : User.t) : route := fun d now req =>
  let computer_number := params req "computer_number" in
  if String.eqb (User.computer_number user) computer_number then
    (res_status 400
       [("success", jbool false);
        ("message", jstr "You cannot delete your own account");
        ("error_code", jstr "CANNOT_DELETE_SELF")], d)
  else
    match user_by_number d (Some computer_number) with
    | [] =>
        (res_status 404
           [("success", jbool false); ("message", jstr "User not found");
            ("error_code", jstr "USER_NOT_FOUND")], d)
    | _ :: _ =>
        (res_json
           [("success", jbool true); ("message", jstr "User deleted successfully")],
         delete_user computer_number d)
    end.

(** The routes as the router registers them. *)
Definition GET_users : route := authorized ["admin"] get_users.
Definition GET_user : route := authenticated get_user.
Definition PUT_user_role : route := authorized ["admin"] put_user_role.
Definition DELETE_user : route := authorized ["admin"] delete_user_route.

(** *** routes/meetings.js *)

Definition text_of (v : jsval) : string :=
  match sql_text v with Some s => s | None => "" end.

(** INSERT INTO meetings (...) VALUES (?, ?, ?, ?, ?, 'pending'); the new
    key comes back as [insertId]. *)
Definition insert_meeting (title description : jsval) (organizer : string)
    (participant scheduled_at : jsval) (now : Z) (d : db) : Z * db :=
  let id := meetings_next_id d in
  (id,
   mkdb (users d) (complaints d)
        (meetings d ++
           [Meeting.mk id (text_of title) (sql_text description) organizer
                       (text_of participant) (text_of scheduled_at)
                       "pending" now])
        (complaints_next_id d) (id + 1)).

(** POST /meetings, behind authenticate *)
Definition post_meeting (user : User.t) : route := fun d now req =>
  let title := body req "title" in
  let description := body req "description" in
  let participant_computer_number := body req "participant_computer_number" in
  let scheduled_at := body req "scheduled_at" in
  if negb (truthy title) || negb (truthy participant_computer_number)
     || negb (truthy scheduled_at) then
    (res_status 400
       [("success", jbool false);
        ("message", jstr "Title, participant, and scheduled time are required")], d)
  else
    let meetingTime := Date_getTime scheduled_at in
    if jsle meetingTime (Int now) then
      (res_status 400
         [("success", jbool false);
          ("message", jstr "Meeting time must be in the future")], d)
    else
      match user_by_number d (sql_text participant_computer_number) with
      | [] =>
          (res_status 404
             [("success", jbool false); ("message", jstr "Participant not found")], d)
      | participant :: _ =>
          let (insertId, d') :=
            insert_meeting title description (User.computer_number user)
                           participant_computer_number scheduled_at now d in
          (res_status 201
             [("success", jbool true);
              ("message", jstr "Meeting scheduled successfully");
              ("data", JObj
                 [("meeting_id", jint insertId);
                  ("title", JScalar title);
                  ("scheduled_at", JScalar scheduled_at);
                  ("status", jstr "pending");
                  ("participant", JObj
                     [("computer_number", JScalar participant_computer_number);
                      ("name", jstr (User.first_name participant ++ " "
                                     ++ User.last_name participant))])])], d')
      end.

(** LEFT JOIN users ON a meeting's reference: every user row with that
    number, or one all-NULL row when there is none. *)
Definition left_join_user (d : db) (computer_number : string)
  : list (option User.t) :=
  match user_by_number d (Some computer_number) with
  | [] => [None]
  | l => map Some l
  end.

Definition joined : Type := Meeting.t * option User.t * option User.t.

Definition join_users (d : db) (ms : list Meeting.t) : list joined :=
  flat_map (fun m =>
    flat_map (fun organizer =>
      map (fun participant => (m, organizer, participant))
          (left_join_user d (Meeting.participant_computer_number m)))
      (left_join_user d (Meeting.organizer_computer_number m))) ms.

Definition jfield (f : User.t -> string) (u : option User.t) : json :=
  match u with Some u => jstr (f u) | None => jnull end.

Definition meeting_list_json (r : joined) : json :=
  let '(m, organizer, participant) := r in
  JObj [("meeting_id", jint (Meeting.meeting_id m));
        ("title", jstr (Meeting.title m));
        ("description", jopt (Meeting.description m));
        ("scheduled_at", jstr (Meeting.scheduled_at m));
        ("status", jstr (Meeting.status m));
        ("created_at", jint (Meeting.created_at m));
        ("organizer_first_name", jfield User.first_name organizer);
        ("organizer_last_name", jfield User.last_name organizer);
        ("participant_first_name", jfield User.first_name participant);
        ("participant_last_name", jfield User.last_name participant)].

Definition meeting_json (r : joined) : json :=
  let '(m, organizer, participant) := r in
  JObj [("meeting_id", jint (Meeting.meeting_id m));
        ("title", jstr (Meeting.title m));
        ("description", jopt (Meeting.description m));
        ("organizer_computer_number", jstr (Meeting.organizer_computer_number m));
        ("participant_computer_number", jstr (Meeting.participant_computer_number m));
        ("scheduled_at", jstr (Meeting.scheduled_at m));
        ("status", jstr (Meeting.status m));
        ("created_at", jint (Meeting.created_at m));
        ("organizer_first_name", jfield User.first_name organizer);
        ("organizer_last_name", jfield User.last_name organizer);
        ("organizer_email", jfield User.email organizer);
        ("participant_first_name", jfield User.first_name participant);
        ("participant_last_name", jfield User.last_name participant);
        ("participant_email", jfield User.email participant)].

(** The WHERE clause GET /meetings builds, for its two statements. *)
Definition meetings_where (exotic : string -> qval -> option (Meeting.t -> bool))
    (computer_number : string) (status : option qval)
  : option (Meeting.t -> bool) :=
  where_and
    (Some (fun m =>
       col_eq (Meeting.organizer_computer_number m) (Some computer_number)
       || col_eq (Meeting.participant_computer_number m) (Some computer_number)))
    (where_eq (exotic "status") (fun m => Some (Meeting.status m)) status).

(** GET /meetings, behind authenticate *)
Definition get_meetings (user : User.t) : route := fun d now req =>
  let status := query req "status" in
  let page := query req "page" in
  let limit := query req "limit" in
  let fetch_error :=
    (res_status 500
       [("success", jbool false); ("message", jstr "Failed to fetch meetings")], d) in
  let offset := jsmul (jssub (parseInt_or 1 page) (Int 1)) (parseInt_or 10 limit) in
  match meetings_where meetings_eq (User.computer_number user) status with
  | None => fetch_error
  | Some counted =>
  let totalMeetings := count (filter counted (meetings d)) in
  match meetings_where meetings_joined_eq (User.computer_number user) status with
  | None => fetch_error
  | Some listed =>
  match limit_offset (parseInt_or 10 limit) offset
          (order_by "m.scheduled_at" "DESC"
             (join_users d (filter listed (meetings d)))) with
  | None => fetch_error
  | Some rows =>
      let totalPages := Math_ceil (jsdiv totalMeetings (parseInt_or 10 limit)) in
      (res_json
         [("success", jbool true);
          ("data", JArr (map meeting_list_json rows));
          ("pagination", JObj
             [("current_page", JNumber (parseInt_or 1 page));
              ("total_pages", JNumber totalPages);
              ("total_meetings", JNumber totalMeetings);
              ("limit", JNumber (parseInt_or 10 limit))])], d)
  end end end.

(** GET /meetings/:id, behind authenticate.  [parseInt(id)] goes into the
    statement unchecked; when it is NaN the query throws and the catch
    block answers 500. *)
Definition get_meeting (user : User.t) : route := fun d now req =>
  let id := params req "id" in
  if isNaN (parseInt id) then
    (res_status 500
       [("success", jbool false); ("message", jstr "Failed to fetch meeting")], d)
  else
    match join_users d (meeting_by_id d (parseInt id)) with
    | [] =>
        (res_status 404
           [("success", jbool false); ("message", jstr "Meeting not found")], d)
    | (meeting, organizer, participant) :: _ =>
        let canAccess :=
          String.eqb (User.role user) "admin"
          || String.eqb (Meeting.organizer_computer_number meeting)
                        (User.computer_number user)
          || String.eqb (Meeting.participant_computer_number meeting)
                        (User.computer_number user) in
        if negb canAccess then
          (res_status 403
             [("success", jbool false); ("message", jstr "Access denied")], d)
        else
          (res_json
             [("success", jbool true);
              ("data", meeting_json (meeting, organizer, participant))], d)
    end.

Definition set_meeting_status (st : string) (m : Meeting.t) : Meeting.t :=
  Meeting.mk (Meeting.meeting_id m) (Meeting.title m) (Meeting.description m)
             (Meeting.organizer_computer_number m)
             (Meeting.participant_computer_number m)
             (Meeting.scheduled_at m) st (Meeting.created_at m).

(** UPDATE meetings SET status = ? WHERE meeting_id = ? *)
Definition update_meeting_status (st : string) (id : jsnum) (d : db) : db :=
  mkdb (users d) (complaints d)
       (map (fun m => if id_eq (Meeting.meeting_id m) id
                      then set_meeting_status st m else m) (meetings d))
       (complaints_next_id d) (meetings_next_id d).

(** DELETE FROM meetings WHERE meeting_id = ? *)
Definition delete_meeting (id : jsnum) (d : db) : db :=
  mkdb (users d) (complaints d)
       (filter (fun m => negb (id_eq (Meeting.meeting_id m) id)) (meetings d))
       (complaints_next_id d) (meetings_next_id d).

(** PUT /meetings/:id, behind authenticate *)
Definition put_meeting (user : User.t) : route := fun d now req =>
  let id := params req "id" in
  let status := body req "status" in
  let validStatuses := ["pending"; "confirmed"; "cancelled"] in
  if negb (includes validStatuses status) then
    (res_status 400
       [("success", jbool false); ("message", jstr "Invalid status");
        ("valid_statuses", JArr (map jstr validStatuses))], d)
  else if isNaN (parseInt id) then
    (res_status 500
       [("success", jbool false); ("message", jstr "Failed to update meeting")], d)
  else
    match meeting_by_id d (parseInt id) with
    | [] =>
        (res_status 404
           [("success", jbool false); ("message", jstr "Meeting not found")], d)
    | meeting :: _ =>
        let canUpdate :=
          String.eqb (User.role user) "admin"
          || String.eqb (Meeting.participant_computer_number meeting)
                        (User.computer_number user) in
        if negb canUpdate then
          (res_status 403
             [("success", jbool false);
              ("message",
               jstr "Only the participant or admin can update meeting status")], d)
        else
          (res_json
             [("success", jbool true);
              ("message", jstr ("Meeting " ++ ToString status ++ " successfully"))],
           update_meeting_status (ToString status) (parseInt id) d)
    end.

(** DELETE /meetings/:id, behind authenticate *)
Definition delete_meeting_route (user : User.t) : route := fun d now req =>
  let id := params req "id" in
  if isNaN (parseInt id) then
    (res_status 500
       [("success", jbool false); ("message", jstr "Failed to delete meeting")], d)
  else
    match meeting_by_id d (parseInt id) with
    | [] =>
        (res_status 404
           [("success", jbool false); ("message", jstr "Meeting not found")], d)
    | meeting :: _ =>
        let canDelete :=
          String.eqb (User.role user) "admin"
          || String.eqb (Meeting.organizer_computer_number meeting)
                        (User.computer_number user) in
        if negb canDelete then
          (res_status 403
             [("success", jbool false);
              ("message",
               jstr "Only the organizer or admin can delete this meeting")], d)
        else
          (res_json
             [("success", jbool true);
              ("message", jstr "Meeting deleted successfully")],
           delete_meeting (parseInt id) d)
    end.

Definition POST_meetings : route := authenticated post_meeting.
Definition GET_meetings : route := authenticated get_meetings.
Definition GET_meeting : route := authenticated get_meeting.
Definition PUT_meeting : route := authenticated put_meeting.
Definition DELETE_meeting : route := authenticated delete_meeting_route.

(** *** routes/complaints.js: no middleware on any route *)

Definition validCategories : list string :=
  ["academics"; "facilities"; "accommodation"; "finances"; "missing_results";
   "registration"; "transport"; "library"; "cafeteria"; "health_services";
   "harassment"; "administrative"; "internet_network"; "disciplinary";
   "sports_recreation"; "other"].

Definition validPriorities : list string := ["low"; "medium"; "high"; "urgent"].

(** INSERT INTO complaints (...) VALUES (?, ?, ?, ?, ?, ?, ?, ?, 'pending',
    NOW()); the new key comes back as [insertId]. *)
Definition insert_complaint
    (computer_number title description category priority
       contact_phone contact_email : jsval) (anonymous : Z) (now : Z) (d : db)
  : Z * db :=
  let id := complaints_next_id d in
  (id,
   mkdb (users d)
        (complaints d ++
           [Complaint.mk id (sql_text computer_number) (text_of title)
                         (text_of description) (text_of category)
                         (text_of priority) (sql_text contact_phone)
                         (sql_text contact_email) anonymous "pending"
                         None None now None None])
        (meetings d) (id + 1) (meetings_next_id d)).

(** POST /complaints *)
Definition POST_complaints : route := fun d now req =>
  let computer_number := body req "computer_number" in
  let title := body req "title" in
  let description := body req "description" in
  let category := body req "category" in
  let priority := default (body req "priority") (JStr "medium") in
  let contact_phone := body req "contact_phone" in
  let contact_email := body req "contact_email" in
  let anonymous := default (body req "anonymous") (JBool false) in
  if negb (truthy title) || negb (truthy description) || negb (truthy category) then
    (res_status 400
       [("success", jbool false);
        ("message", jstr "Title, description, and category are required");
        ("errors", JObj
           [("title",
             if negb (truthy title) then jstr "Title is required" else jnull);
            ("description",
             if negb (truthy description) then jstr "Description is required"
             else jnull);
            ("category",
             if negb (truthy category) then jstr "Category is required"
             else jnull)])], d)
  else if negb (includes validCategories category) then
    (res_status 400
       [("success", jbool false); ("message", jstr "Invalid category provided");
        ("valid_categories", JArr (map jstr validCategories))], d)
  else if negb (includes validPriorities priority) then
    (res_status 400
       [("success", jbool false); ("message", jstr "Invalid priority provided");
        ("valid_priorities", JArr (map jstr validPriorities))], d)
  else if negb (truthy anonymous) && negb (truthy computer_number) then
    (res_status 400
       [("success", jbool false);
        ("message",
         jstr "Computer number is required for non-anonymous complaints")], d)
  else if negb (truthy anonymous) && truthy computer_number
          && negb (computerNumberRegex_test computer_number) then
    (res_status 400
       [("success", jbool false);
        ("message",
         jstr "Invalid computer number format. Expected format: YYYYNNNNNN (e.g., 2019123456)")],
     d)
  else
    let (insertId, d') :=
      insert_complaint
        (if truthy anonymous then JNull else computer_number)
        title description category priority
        (or_null contact_phone) (or_null contact_email)
        (if truthy anonymous then 1 else 0) now d in
    (res_status 201
       [("success", jbool true);
        ("message", jstr "Complaint submitted successfully");
        ("data", JObj
           [("complaint_id", jint insertId);
            ("title", JScalar title);
            ("category", JScalar category);
            ("status", jstr "pending");
            ("created_at", jint now);
            ("anonymous", JScalar anonymous)])], d').

Definition jtime (o : option Z) : json :=
  match o with Some t => jint t | None => jnull end.

Definition complaint_list_json (c : Complaint.t) : json :=
  JObj [("complaint_id", jint (Complaint.complaint_id c));
        ("computer_number", jopt (Complaint.computer_number c));
        ("title", jstr (Complaint.title c));
        ("description", jstr (Complaint.description c));
        ("category", jstr (Complaint.category c));
        ("priority", jstr (Complaint.priority c));
        ("status", jstr (Complaint.status c));
        ("contact_phone", jopt (Complaint.contact_phone c));
        ("contact_email", jopt (Complaint.contact_email c));
        ("anonymous", jint (Complaint.anonymous c));
        ("created_at", jint (Complaint.created_at c));
        ("updated_at", jtime (Complaint.updated_at c))].

Definition complaint_json (c : Complaint.t) : json :=
  JObj [("complaint_id", jint (Complaint.complaint_id c));
        ("computer_number", jopt (Complaint.computer_number c));
        ("title", jstr (Complaint.title c));
        ("description", jstr (Complaint.description c));
        ("category", jstr (Complaint.category c));
        ("priority", jstr (Complaint.priority c));
        ("status", jstr (Complaint.status c));
        ("contact_phone", jopt (Complaint.contact_phone c));
        ("contact_email", jopt (Complaint.contact_email c));
        ("anonymous", jint (Complaint.anonymous c));
        ("admin_response", jopt (Complaint.admin_response c));
        ("admin_notes", jopt (Complaint.admin_notes c));
        ("created_at", jint (Complaint.created_at c));
        ("updated_at", jtime (Complaint.updated_at c));
        ("resolved_at", jtime (Complaint.resolved_at c))].

(** The WHERE clause GET /complaints builds. *)
Definition complaints_where (status category priority computer_number : option qval)
  : option (Complaint.t -> bool) :=
  where_and
    (where_eq (complaints_eq "status") (fun c => Some (Complaint.status c)) status)
    (where_and
       (where_eq (complaints_eq "category")
                 (fun c => Some (Complaint.category c)) category)
       (where_and
          (where_eq (complaints_eq "priority")
                    (fun c => Some (Complaint.priority c)) priority)
          (where_eq (complaints_eq "computer_number")
                    Complaint.computer_number computer_number))).

(** GET /complaints *)
Definition GET_complaints : route := fun d now req =>
  let status := query req "status" in
  let category := query req "category" in
  let priority := query req "priority" in
  let computer_number := query req "computer_number" in
  let page := query req "page" in
  let limit := query req "limit" in
  let sort_by := or_default "created_at" (query req "sort_by") in
  let sort_order := or_default "DESC" (query req "sort_order") in
  let validSortColumns :=
    ["created_at"; "updated_at"; "priority"; "status"; "category"] in
  let validSortOrders := ["ASC"; "DESC"] in
  let fetch_error :=
    (res_status 500
       [("success", jbool false);
        ("message", jstr "Failed to fetch complaints. Please try again.");
        ("error_code", jstr "FETCH_ERROR")], d) in
  let sortColumn :=
    if includes_q validSortColumns sort_by then qstring sort_by else "created_at" in
  match toUpperCase_q sort_order with
  | None => fetch_error
  | Some upper =>
  let sortOrder := if mem upper validSortOrders then upper else "DESC" in
  let offset := jsmul (jssub (parseInt_or 1 page) (Int 1)) (parseInt_or 10 limit) in
  match complaints_where status category priority computer_number with
  | None => fetch_error
  | Some condition =>
  let matching := filter condition (complaints d) in
  let totalComplaints := count matching in
  match limit_offset (parseInt_or 10 limit) offset
          (order_by sortColumn sortOrder matching) with
  | None => fetch_error
  | Some rows =>
      let totalPages := Math_ceil (jsdiv totalComplaints (parseInt_or 10 limit)) in
      (res_json
         [("success", jbool true);
          ("data", JArr (map complaint_list_json rows));
          ("pagination", JObj
             [("current_page", JNumber (parseInt_or 1 page));
              ("total_pages", JNumber totalPages);
              ("total_complaints", JNumber totalComplaints);
              ("limit", JNumber (parseInt_or 10 limit));
              ("has_next", jbool (jslt (parseInt_or 1 page) totalPages));
              ("has_prev", jbool (jsgt (parseInt_or 1 page) (Int 1)))]);
          ("filters", JObj
             [("status", jquery status); ("category", jquery category);
              ("priority", jquery priority);
              ("computer_number", jquery computer_number)])], d)
  end end end.

(** GET /complaints/:id *)
Definition GET_complaint : route := fun d now req =>
  let id := params req "id" in
  if String.eqb id "" || isNaN (parseInt id) then
    (res_status 400
       [("success", jbool false); ("message", jstr "Invalid complaint ID provided")],
     d)
  else
    match complaint_by_id d (parseInt id) with
    | [] =>
        (res_status 404
           [("success", jbool false); ("message", jstr "Complaint not found");
            ("error_code", jstr "NOT_FOUND")], d)
    | c :: _ => (res_json [("success", jbool true); ("data", complaint_json c)], d)
    end.

(** The SET list PUT /complaints/:id builds, applied to one row. *)
Definition update_complaint_row
    (status admin_response admin_notes priority : jsval) (now : Z)
    (c : Complaint.t) : Complaint.t :=
  Complaint.mk
    (Complaint.complaint_id c) (Complaint.computer_number c)
    (Complaint.title c) (Complaint.description c) (Complaint.category c)
    (if truthy priority then text_of priority else Complaint.priority c)
    (Complaint.contact_phone c) (Complaint.contact_email c)
    (Complaint.anonymous c)
    (if truthy status then text_of status else Complaint.status c)
    (if truthy admin_response then sql_text admin_response
     else Complaint.admin_response c)
    (if truthy admin_notes then sql_text admin_notes
     else Complaint.admin_notes c)
    (Complaint.created_at c)
    (Some now)
    (if truthy status && strict_eq_str status "resolved"
     then Some now else Complaint.resolved_at c).

(** UPDATE complaints SET ... WHERE complaint_id = ? *)
Definition update_complaint
    (status admin_response admin_notes priority : jsval) (now : Z)
    (id : jsnum) (d : db) : db :=
  mkdb (users d)
       (map (fun c => if id_eq (Complaint.complaint_id c) id
                      then update_complaint_row status admin_response
                             admin_notes priority now c
                      else c) (complaints d))
       (meetings d) (complaints_next_id d) (meetings_next_id d).

(** PUT /complaints/:id *)
Definition PUT_complaint : route := fun d now req =>
  let id := params req "id" in
  let status := body req "status" in
  let admin_response := body req "admin_response" in
  let admin_notes := body req "admin_notes" in
  let priority := body req "priority" in
  if String.eqb id "" || isNaN (parseInt id) then
    (res_status 400
       [("success", jbool false); ("message", jstr "Invalid complaint ID provided")],
     d)
  else
    match complaint_by_id d (parseInt id) with
    | [] =>
        (res_status 404
           [("success", jbool false); ("message", jstr "Complaint not found");
            ("error_code", jstr "NOT_FOUND")], d)
    | _ :: _ =>
        let validStatuses :=
          ["pending"; "in_progress"; "resolved"; "rejected"; "closed"] in
        if truthy status && negb (includes validStatuses status) then
          (res_status 400
             [("success", jbool false);
              ("message",
               jstr ("Invalid status. Must be one of: " ++ join ", " validStatuses))],
           d)
        else if truthy priority && negb (includes validPriorities priority) then
          (res_status 400
             [("success", jbool false);
              ("message",
               jstr ("Invalid priority. Must be one of: "
                     ++ join ", " validPriorities))], d)
        else if negb (truthy status) && negb (truthy admin_response)
                && negb (truthy admin_notes) && negb (truthy priority) then
          (res_status 400
             [("success", jbool false);
              ("message", jstr "No valid fields provided for update")], d)
        else
          let d' := update_complaint status admin_response admin_notes priority
                                     now (parseInt id) d in
          (res_json
             [("success", jbool true);
              ("message", jstr "Complaint updated successfully");
              ("data",
               match complaint_by_id d' (parseInt id) with
               | c :: _ => complaint_json c
               | [] => JScalar JUndef
               end)], d')
    end.

End Handlers.

(** ** The rest of the routes *)

(** [bcrypt.hash(data, rounds)]: the hash the call yields (the library
    draws the salt). *)
Class Hashing : Type := {
  bcrypt_hash : string -> Z -> string
}.

(** A character of the class [[^\s@]], on ASCII text. *)
Definition plain_char (c : ascii) : bool :=
  negb (is_ws c) && negb (Ascii.eqb c "@").

Fixpoint all_plain (s : string) : bool :=
  match s with
  | EmptyString => true
  | String c s' => plain_char c && all_plain s'
  end.

(** The text before and after the first occurrence of a character. *)
Fixpoint split_at (c : ascii) (s : string) : option (string * string) :=
  match s with
  | EmptyString => None
  | String a s' =>
      if Ascii.eqb a c then Some (EmptyString, s')
      else match split_at c s' with
           | Some (l, r) => Some (String a l, r)
           | None => None
           end
  end.

(** A dot that is not the last character. *)
Fixpoint dot_before_last (s : string) : bool :=
  match s with
  | String c (String _ _ as t) => Ascii.eqb c "." || dot_before_last t
  | _ => false
  end.

(** [/^[^\s@]+@[^\s@]+\.[^\s@]+$/.test(v)]: a local part, one "@", and after
    it a dot with something on both sides; nothing blank anywhere. *)
Definition emailRegex_test (v : jsval) : bool :=
  match split_at "@" (ToString v) with
  | Some (l, r) =>
      negb (String.eqb l "") && all_plain l && all_plain r
      && match r with
         | String _ t => dot_before_last t
         | EmptyString => false
         end
  | None => false
  end.

(** [column != ?] on a text column: never true against NULL. *)
Definition col_ne (col : string) (p : option string) : bool :=
  match p with
  | Some s => negb (String.eqb col s)
  | None => false
  end.

Definition validRoles : list string := ["admin"; "lecturer"; "student"].

Section Accounts.
Context {E : Externals} {Dr : Driver} {H : Hashing}.

(** *** middleware/auth.js: optionalAuth *)

(** [req.user] as [optionalAuth] leaves it; it always calls [next]. *)
Definition optionalAuth (d : db) (now : Z) (req : request) : option User.t :=
  match bearer_token req with
  | None => None
  | Some token =>
      if String.eqb token "" then None
      else
        match jwt_verify token JWT_SECRET now with
        | Decoded decoded =>
            match user_by_number d (sql_text (claim "computer_number" decoded)) with
            | [] => None
            | u :: _ => Some u
            end
        | Throws _ => None
        end
  end.

(** *** routes/auth.js: POST /auth/register *)

(** INSERT INTO users (...) VALUES (?, ?, ?, ?, ?, ?, ?, NOW()) *)
Definition insert_user
    (computer_number role first_name last_name email phone : jsval)
    (password_hash : string) (now : Z) (d : db) : db :=
  mkdb (users d ++
          [User.mk (text_of computer_number) (text_of role) (text_of first_name)
                   (text_of last_name) (text_of email) (text_of phone)
                   password_hash now])
       (complaints d) (meetings d) (complaints_next_id d) (meetings_next_id d).

(** SELECT ... FROM users WHERE computer_number = ? OR email = ? *)
Definition user_by_number_or_email (d : db) (number email : option string)
  : list User.t :=
  filter (fun u => col_eq (User.computer_number u) number
                   || col_eq (User.email u) email) (users d).

Definition auth_register : route := fun d now req =>
  let computer_number := body req "computer_number" in
  let role := default (body req "role") (JStr "student") in
  let first_name := body req "first_name" in
  let last_name := body req "last_name" in
  let email := body req "email" in
  let phone := body req "phone" in
  let password := body req "password" in
  if negb (truthy computer_number) || negb (truthy first_name)
     || negb (truthy last_name) || negb (truthy email)
     || negb (truthy phone) || negb (truthy password) then
    (res_status 400
       [("success", jbool false); ("message", jstr "All fields are required");
        ("required_fields",
         JArr (map jstr ["computer_number"; "first_name"; "last_name"; "email";
                         "phone"; "password"]))], d)
  else if negb (computerNumberRegex_test computer_number) then
    (res_status 400
       [("success", jbool false);
        ("message",
         jstr "Invalid computer number format. Expected: 10 digits (e.g., 2019123456)")],
     d)
  else if negb (emailRegex_test email) then
    (res_status 400
       [("success", jbool false); ("message", jstr "Invalid email format")], d)
  else if negb (includes validRoles role) then
    (res_status 400
       [("success", jbool false);
        ("message", jstr ("Invalid role. Must be one of: " ++ join ", " validRoles))],
     d)
  else
    match user_by_number_or_email d (sql_text computer_number) (sql_text email) with
    | existing :: _ =>
        let conflict :=
          if strict_eq_str computer_number (User.computer_number existing)
          then "Computer number" else "Email address" in
        (res_status 409
           [("success", jbool false);
            ("message", jstr (conflict ++ " already exists"));
            ("error_code", jstr "USER_EXISTS")], d)
    | [] =>
        match password with
        | JStr pw =>
            let saltRounds := 12 in
            let password_hash := bcrypt_hash pw saltRounds in
            (res_status 201
               [("success", jbool true);
                ("message", jstr "User registered successfully");
                ("data", JObj
                   [("computer_number", JScalar computer_number);
                    ("role", JScalar role);
                    ("first_name", JScalar first_name);
                    ("last_name", JScalar last_name);
                    ("email", JScalar email);
                    ("phone", JScalar phone)])],
             insert_user computer_number role first_name last_name email phone
                         password_hash now d)
        | _ =>                       (* bcrypt refuses data that is no string *)
            (res_status 500
               [("success", jbool false);
                ("message", jstr "Registration failed. Please try again.");
                ("error_code", jstr "REGISTRATION_ERROR")], d)
        end
    end.

(** *** routes/auth.js: the profile routes verify the token themselves *)

(** GET /auth/profile *)
Definition auth_get_profile : route := fun d now req =>
  match bearer_token req with
  | None =>
      (res_status 401
         [("success", jbool false); ("message", jstr "Access token required");
          ("error_code", jstr "TOKEN_REQUIRED")], d)
  | Some token =>
      if String.eqb token "" then
        (res_status 401
           [("success", jbool false); ("message", jstr "Access token required");
            ("error_code", jstr "TOKEN_REQUIRED")], d)
      else
        match jwt_verify token JWT_SECRET now with
        | Decoded decoded =>
            match user_by_number d (sql_text (claim "computer_number" decoded)) with
            | [] =>
                (res_status 404
                   [("success", jbool false); ("message", jstr "User not found");
                    ("error_code", jstr "USER_NOT_FOUND")], d)
            | u :: _ =>
                (res_json [("success", jbool true); ("data", user_json u)], d)
            end
        | Throws name =>
            if String.eqb name "JsonWebTokenError" then
              (res_status 401
                 [("success", jbool false); ("message", jstr "Invalid token");
                  ("error_code", jstr "INVALID_TOKEN")], d)
            else if String.eqb name "TokenExpiredError" then
              (res_status 401
                 [("success", jbool false); ("message", jstr "Token expired");
                  ("error_code", jstr "TOKEN_EXPIRED")], d)
            else
              (res_status 500
                 [("success", jbool false); ("message", jstr "Failed to get profile");
                  ("error_code", jstr "PROFILE_ERROR")], d)
        end
  end.

(** The SET list PUT /auth/profile builds, applied to one row. *)
Definition update_profile_row (first_name last_name email phone : jsval)
    (u : User.t) : User.t :=
  User.mk (User.computer_number u) (User.role u)
          (if truthy first_name then text_of first_name else User.first_name u)
          (if truthy last_name then text_of last_name else User.last_name u)
          (if truthy email then text_of email else User.email u)
          (if truthy phone then text_of phone else User.phone u)
          (User.password_hash u) (User.created_at u).

(** UPDATE users SET ... WHERE computer_number = ? *)
Definition update_profile (first_name last_name email phone : jsval)
    (number : option string) (d : db) : db :=
  mkdb (map (fun u => if col_eq (User.computer_number u) number
                      then update_profile_row first_name last_name email phone u
                      else u) (users d))
       (complaints d) (meetings d) (complaints_next_id d) (meetings_next_id d).

(** PUT /auth/profile *)
Definition auth_put_profile : route := fun d now req =>
  match bearer_token req with
  | None =>
      (res_status 401
         [("success", jbool false); ("message", jstr "Access token required");
          ("error_code", jstr "TOKEN_REQUIRED")], d)
  | Some token =>
      if String.eqb token "" then
        (res_status 401
           [("success", jbool false); ("message", jstr "Access token required");
            ("error_code", jstr "TOKEN_REQUIRED")], d)
      else
        match jwt_verify token JWT_SECRET now with
        | Decoded decoded =>
            let number := sql_text (claim "computer_number" decoded) in
            let first_name := body req "first_name" in
            let last_name := body req "last_name" in
            let email := body req "email" in
            let phone := body req "phone" in
            if truthy email && negb (emailRegex_test email) then
              (res_status 400
                 [("success", jbool false); ("message", jstr "Invalid email format")],
               d)
            else if truthy email
                    && match filter (fun u => col_eq (User.email u) (sql_text email)
                                              && col_ne (User.computer_number u) number)
                                    (users d) with
                       | [] => false
                       | _ :: _ => true
                       end then
              (res_status 409
                 [("success", jbool false);
                  ("message", jstr "Email address already exists")], d)
            else if negb (truthy first_name) && negb (truthy last_name)
                    && negb (truthy email) && negb (truthy phone) then
              (res_status 400
                 [("success", jbool false);
                  ("message", jstr "No fields provided for update")], d)
            else
              let d' := update_profile first_name last_name email phone number d in
              (res_json
                 [("success", jbool true);
                  ("message", jstr "Profile updated successfully");
                  ("data",
                   match user_by_number d' number with
                   | u :: _ =>
                       JObj [("computer_number", jstr (User.computer_number u));
                             ("role", jstr (User.role u));
                             ("first_name", jstr (User.first_name u));
                             ("last_name", jstr (User.last_name u));
                             ("email", jstr (User.email u));
                             ("phone", jstr (User.phone u))]
                   | [] => JScalar JUndef
                   end)], d')
        | Throws name =>
            if String.eqb name "JsonWebTokenError"
               || String.eqb name "TokenExpiredError" then
              (res_status 401
                 [("success", jbool false);
                  ("message", jstr "Invalid or expired token");
                  ("error_code", jstr "INVALID_TOKEN")], d)
            else
              (res_status 500
                 [("success", jbool false);
                  ("message", jstr "Failed to update profile");
                  ("error_code", jstr "UPDATE_ERROR")], d)
        end
  end.

Definition set_password_hash (h : string) (u : User.t) : User.t :=
  User.mk (User.computer_number u) (User.role u) (User.first_name u)
          (User.last_name u) (User.email u) (User.phone u) h
          (User.created_at u).

(** UPDATE users SET password_hash = ? WHERE computer_number = ? *)
Definition update_password (h : string) (number : option string) (d : db) : db :=
  mkdb (map (fun u => if col_eq (User.computer_number u) number
                      then set_password_hash h u else u) (users d))
       (complaints d) (meetings d) (complaints_next_id d) (meetings_next_id d).

(** POST /auth/change-password *)
Definition auth_change_password : route := fun d now req =>
  let failed :=
    res_status 500
      [("success", jbool false); ("message", jstr "Failed to change password")] in
  match bearer_token req with
  | None =>
      (res_status 401
         [("success", jbool false); ("message", jstr "Access token required")], d)
  | Some token =>
      if String.eqb token "" then
        (res_status 401
           [("success", jbool false); ("message", jstr "Access token required")], d)
      else
        match jwt_verify token JWT_SECRET now with
        | Decoded decoded =>
            let number := sql_text (claim "computer_number" decoded) in
            let current_password := body req "current_password" in
            let new_password := body req "new_password" in
            if negb (truthy current_password) || negb (truthy new_password) then
              (res_status 400
                 [("success", jbool false);
                  ("message",
                   jstr "Current password and new password are required")], d)
            else
              match user_by_number d number with
              | [] =>
                  (res_status 404
                     [("success", jbool false); ("message", jstr "User not found")],
                   d)
              | u :: _ =>
                  match current_password with
                  | JStr current =>
                      if negb (bcrypt_compare current (User.password_hash u)) then
                        (res_status 401
                           [("success", jbool false);
                            ("message", jstr "Current password is incorrect")], d)
                      else
                        match new_password with
                        | JStr new =>
                            let new_password_hash := bcrypt_hash new 12 in
                            (res_json
                               [("success", jbool true);
                                ("message", jstr "Password changed successfully")],
                             update_password new_password_hash number d)
                        | _ => (failed, d)
                        end
                  | _ => (failed, d)
                  end
              end
        | Throws name =>
            if String.eqb name "JsonWebTokenError"
               || String.eqb name "TokenExpiredError" then
              (res_status 401
                 [("success", jbool false);
                  ("message", jstr "Invalid or expired token")], d)
            else (failed, d)
        end
  end.

End Accounts.

(** *** config/db.js: testConnection *)

(** What one call does, in order: a query raced against the timeout, or a
    wait before the next attempt. *)
Inductive io : Type :=
  | Query
  | Sleep (ms : Z).

Inductive returned : Type :=
  | Ret_true
  | Ret_false
  | Ret_undefined.

(** The while loop.  [attempt i] tells whether the query of the attempt
    after [i] failures resolves (in time); [fuel] bounds the iterations,
    and [None] is a loop cut short by it. *)
Fixpoint testConnection_loop (attempt : nat -> bool) (maxRetries retryDelay : Z)
    (fuel : nat) (retryCount : Z) : option returned * list io :=
  if retryCount <? maxRetries then
    match fuel with
    | O => (None, [])
    | S fuel' =>
        if attempt (Z.to_nat retryCount) then (Some Ret_true, [Query])
        else
          let retryCount := retryCount + 1 in
          if retryCount <? maxRetries then
            let (r, t) :=
              testConnection_loop attempt maxRetries retryDelay fuel' retryCount in
            (r, Query :: Sleep retryDelay :: t)
          else (Some Ret_false, [Query])
    end
  else (Some Ret_undefined, []).

Definition testConnection (attempt : nat -> bool) (maxRetries retryDelay : Z)
  : option returned * list io :=
  testConnection_loop attempt maxRetries retryDelay (Z.to_nat maxRetries) 0.

Definition queries (t : list io) : nat :=
  List.length (filter (fun e => match e with Query => true | _ => false end) t).
Definition sleeps (t : list io) : nat :=
  List.length (filter (fun e => match e with Sleep _ => true | _ => false end) t).

(** *** The complaints router, as Express walks it *)

Inductive method : Type := GET | POST | PUT | DELETE.

Definition method_eqb (a b : method) : bool :=
  match a, b with
  | GET, GET | POST, POST | PUT, PUT | DELETE, DELETE => true
  | _, _ => false
  end.

(** A piece of a route path: a literal, or a named parameter. *)
Inductive segment : Type :=
  | Lit (s : string)
  | Param (name : string).

(** A path, split at the slashes, against a route path; the parameters
    bound on the way.  Literals match whatever the case. *)
Fixpoint match_path (pattern : list segment) (path : list string)
    (bound : list (string * string)) : option (list (string * string)) :=
  match pattern, path with
  | [], [] => Some bound
  | Lit s :: pattern', p :: path' =>
      if String.eqb (toUpperCase s) (toUpperCase p)
      then match_path pattern' path' bound else None
  | Param name :: pattern', p :: path' =>
      if String.eqb p "" then None
      else match_path pattern' path' (bound ++ [(name, p)])
  | _, _ => None
  end.

Inductive complaints_endpoint : Type :=
  | Submit            (* router.post('/') *)
  | List_all          (* router.get('/') *)
  | By_id             (* router.get('/:id') *)
  | Update            (* router.put('/:id') *)
  | Categories        (* router.get('/categories') *)
  | Admin_stats.      (* router.get('/admin/stats') *)

(** The routes in the order routes/complaints.js registers them. *)
Definition complaints_router : list (method * list segment * complaints_endpoint) :=
  [(POST, [], Submit);
   (GET, [], List_all);
   (GET, [Param "id"], By_id);
   (PUT, [Param "id"], Update);
   (GET, [Lit "categories"], Categories);
   (GET, [Lit "admin"; Lit "stats"], Admin_stats)].

(** The first route whose method and path match handles the request (no
    handler of this router passes it on). *)
Fixpoint dispatch {A : Type} (table : list (method * list segment * A))
    (m : method) (path : list string) : option (A * list (string * string)) :=
  match table with
  | [] => None
  | (m', pattern, endpoint) :: table' =>
      if method_eqb m m' then
        match match_path pattern path [] with
        | Some bound => Some (endpoint, bound)
        | None => dispatch table' m path
        end
      else dispatch table' m path
  end.

(** [req.params] as the router sets it. *)
Definition params_of (bound : list (string * string)) : string -> string :=
  fun k => match assoc k bound with Some v => v | None => "" end.

(** *** Keys of a JSON document *)

(** Whether a key occurs in the document, at any depth. *)
Fixpoint has_key (k : string) (j : json) : bool :=
  match j with
  | JObj fields =>
      (fix any (l : list (string * json)) : bool :=
         match l with
         | [] => false
         | (k', v) :: l' => String.eqb k k' || has_key k v || any l'
         end) fields
  | JArr l =>
      (fix any (l : list json) : bool :=
         match l with
         | [] => false
         | v :: l' => has_key k v || any l'
         end) l
  | _ => false
  end.

(** ** All the routes, and what they may do to the store *)

Section Routes.
Context {E : Externals} {Dr : Driver} {H : Hashing}.

Definition all_routes : list route :=
  [auth_register; auth_login; auth_get_profile; auth_put_profile;
   auth_change_password;
   GET_users; GET_user; PUT_user_role; DELETE_user;
   POST_meetings; GET_meetings; GET_meeting; PUT_meeting; DELETE_meeting;
   POST_complaints; GET_complaints; GET_complaint; PUT_complaint].

(** The routes that send back nothing they were sent: their responses are
    made of literals and of columns read from the store.  (The
    registration and the two submissions repeat fields of the body, the
    listings of users and complaints the filters of the query.) *)
Definition routes_without_echo : list route :=
  [auth_login; auth_get_profile; auth_put_profile; auth_change_password;
   GET_user; PUT_user_role; DELETE_user;
   GET_meetings; GET_meeting; PUT_meeting; DELETE_meeting;
   GET_complaint; PUT_complaint].

(** The statuses a complaint and a meeting can be given. *)
Definition complaintStatuses : list string :=
  ["pending"; "in_progress"; "resolved"; "rejected"; "closed"].
Definition meetingStatuses : list string := ["pending"; "confirmed"; "cancelled"].

(** The statements that change the store, each with what the handler that
    issues it has checked before. *)
Inductive mutation (d : db) : db -> Prop :=
  | nothing : mutation d d
  | user_inserted (computer_number role first_name last_name email phone : jsval)
      (password_hash : string) (now : Z) :
      ten_digits (text_of computer_number) = true ->
      In (text_of role) validRoles ->
      user_by_number_or_email d (Some (text_of computer_number))
                              (Some (text_of email)) = [] ->
      mutation d (insert_user computer_number role first_name last_name email
                              phone password_hash now d)
  | role_updated (r number : string) :
      In r validRoles -> mutation d (update_user_role r number d)
  | user_deleted (number : string) : mutation d (delete_user number d)
  | profile_updated (first_name last_name email phone : jsval)
      (number : option string) :
      (truthy email = true ->
       filter (fun u => col_eq (User.email u) (Some (text_of email))
                        && col_ne (User.computer_number u) number) (users d)
       = []) ->
      mutation d (update_profile first_name last_name email phone number d)
  | password_updated (h : string) (number : option string) :
      mutation d (update_password h number d)
  | meeting_inserted (title description : jsval) (organizer : string)
      (participant scheduled_at : jsval) (now : Z) :
      mutation d (snd (insert_meeting title description organizer participant
                                      scheduled_at now d))
  | meeting_status_updated (st : string) (id : jsnum) :
      In st meetingStatuses -> mutation d (update_meeting_status st id d)
  | meeting_deleted (id : jsnum) : mutation d (delete_meeting id d)
  | complaint_inserted
      (computer_number title description category priority
         contact_phone contact_email : jsval) (anonymous now : Z) :
      In (text_of category) validCategories ->
      In (text_of priority) validPriorities ->
      (anonymous = 1 /\ sql_text computer_number = None)
      \/ (anonymous = 0
          /\ exists s, sql_text computer_number = Some s /\ ten_digits s = true) ->
      mutation d (snd (insert_complaint computer_number title description
                         category priority contact_phone contact_email
                         anonymous now d))
  | complaint_updated (status admin_response admin_notes priority : jsval)
      (now : Z) (id : jsnum) :
      (truthy status = true -> In (text_of status) complaintStatuses) ->
      (truthy priority = true -> In (text_of priority) validPriorities) ->
      mutation d (update_complaint status admin_response admin_notes priority
                                   now id d).

(** The tables as the handlers keep them. *)
Definition users_ok (d : db) : Prop :=
  NoDup (map User.computer_number (users d))
  /\ NoDup (map User.email (users d))
  /\ Forall (fun u => ten_digits (User.computer_number u) = true
                      /\ In (User.role u) validRoles) (users d).

Definition meetings_ok (d : db) : Prop :=
  NoDup (map Meeting.meeting_id (meetings d))
  /\ Forall (fun m => Meeting.meeting_id m < meetings_next_id d
                      /\ In (Meeting.status m) meetingStatuses) (meetings d).

Definition complaint_ok (next : Z) (c : Complaint.t) : Prop :=
  Complaint.complaint_id c < next
  /\ In (Complaint.status c) complaintStatuses
  /\ In (Complaint.priority c) validPriorities
  /\ In (Complaint.category c) validCategories
  /\ ((Complaint.anonymous c = 1 /\ Complaint.computer_number c = None)
      \/ (Complaint.anonymous c = 0
          /\ exists s, Complaint.computer_number c = Some s
                       /\ ten_digits s = true)).

Definition complaints_ok (d : db) : Prop :=
  NoDup (map Complaint.complaint_id (complaints d))
  /\ Forall (complaint_ok (complaints_next_id d)) (complaints d).

End Routes.

(** ** A small instance, for the examples *)

Module Sample.

Fixpoint contains (pat s : string) : bool :=
  String.prefix pat s
  || match s with
     | EmptyString => false
     | String _ s' => contains pat s'
     end.

(** Tokens are "t:" followed by the computer number; "expired" is a token
    past its lifetime; anything else fails verification.  Dates are epoch
    milliseconds given as numbers; every other value is an invalid date.
    LIKE knows the %...% patterns of the handlers; rows keep their order. *)
#[export] Instance externals : Externals := {
  JWT_SECRET := Some "s3cret";
  JWT_EXPIRES_IN := None;
  jwt_sign := fun claims secret _ _ =>
    match secret with
    | Some k =>
        if String.eqb k "" then None
        else Some ("t:" ++ text_of (match assoc "computer_number" claims with
                                    | Some v => v | None => JUndef end))
    | None => None
    end;
  jwt_verify := fun token secret _ =>
    match secret with
    | None => Throws "JsonWebTokenError"
    | Some _ =>
        if String.prefix "t:" token then
          Decoded [("computer_number",
                    JStr (String.substring 2 (String.length token - 2) token))]
        else if String.eqb token "expired" then Throws "TokenExpiredError"
        else Throws "JsonWebTokenError"
    end;
  bcrypt_compare := fun data hash => String.eqb ("$2b$" ++ data) hash;
  Date_getTime := fun v => match v with JNum z => Int z | _ => NaN end;
  sql_like := fun value pattern =>
    contains (String.substring 1 (String.length pattern - 2) pattern) value;
  order_by := fun _ _ _ rows => rows
}.

(** The sample server refuses every statement with an array or an object
    bound to a parameter. *)
#[export] Instance driver : Driver := {
  users_eq := fun _ _ => None;
  complaints_eq := fun _ _ => None;
  meetings_eq := fun _ _ => None;
  meetings_joined_eq := fun _ _ => None
}.

Definition admin : User.t :=
  User.mk "2015000001" "admin" "Ada" "Banda" "ada@unza.zm" "0970000001"
          "$2b$adminpw" 100.
Definition lecturer : User.t :=
  User.mk "2016000002" "lecturer" "Ben" "Phiri" "ben@unza.zm" "0970000002"
          "$2b$lecturerpw" 200.
Definition student : User.t :=
  User.mk "2019123456" "student" "Chanda" "Mwale" "chanda@unza.zm" "0970000003"
          "$2b$studentpw" 300.
Definition outsider : User.t :=
  User.mk "2020654321" "student" "Dalitso" "Zulu" "dalitso@unza.zm" "0970000004"
          "$2b$outsiderpw" 400.

Definition complaint1 : Complaint.t :=
  Complaint.mk 1 (Some "2019123456") "Missing grade" "CSC 2000 result missing"
               "missing_results" "high" None None 0 "pending" None None 500
               None None.
Definition complaint2 : Complaint.t :=
  Complaint.mk 2 None "Leaking roof" "Hostel block C" "accommodation" "medium"
               None None 1 "pending" None None 600 None None.
Definition complaint3 : Complaint.t :=
  Complaint.mk 3 (Some "2019123456") "Slow WiFi" "Library network"
               "internet_network" "low" None None 0 "in_progress" None None 700
               None None.

Definition meeting1 : Meeting.t :=
  Meeting.mk 1 "Project review" None "2019123456" "2016000002"
             "2030-01-01 10:00:00" "pending" 800.

Definition store : db :=
  mkdb [admin; lecturer; student; outsider]
       [complaint1; complaint2; complaint3] [meeting1] 4 2.

Definition no_params : string -> string := fun _ => "".
Definition no_query : string -> option qval := fun _ => None.
Definition no_body : string -> jsval := fun _ => JUndef.

Definition fields {A : Type} (dflt : A) (l : list (string * A)) : string -> A :=
  fun k => match assoc k l with Some v => v | None => dflt end.

Definition bearer (u : User.t) : option string :=
  Some ("Bearer t:" ++ User.computer_number u).

(** GET /complaints?limit=2&page=2 *)
Definition list_request : request :=
  mkreq None no_params
        (fields None [("limit", Some (QStr "2")); ("page", Some (QStr "2"))])
        no_body.

(** The administrator asks to become a student: PUT
    /users/2015000001/role, and DELETE /users/2015000001. *)
Definition self_request : request :=
  mkreq (bearer admin) (fields "" [("computer_number", "2015000001")])
        no_query (fields JUndef [("role", JStr "student")]).

(** A student with no part in meeting 1 asks for it, to cancel it, to
    delete it. *)
Definition stranger_request : request :=
  mkreq (bearer outsider) (fields "" [("id", "1")]) no_query
        (fields JUndef [("status", JStr "cancelled")]).

Definition login_request : request :=
  mkreq None no_params no_query
        (fields JUndef [("computer_number", JStr "2019123456");
                        ("password", JStr "studentpw")]).

Definition expired_request : request :=
  mkreq (Some "Bearer expired") no_params no_query no_body.

(** A submission with a title and a description and no category. *)
Definition no_category_request : request :=
  mkreq None no_params no_query
        (fields JUndef [("title", JStr "Broken projector");
                        ("description", JStr "Lecture theatre 2");
                        ("computer_number", JStr "2019123456")]).

(** A submission with a category that does not exist. *)
Definition bad_category_request : request :=
  mkreq None no_params no_query
        (fields JUndef [("title", JStr "Broken projector");
                        ("description", JStr "Lecture theatre 2");
                        ("category", JStr "projectors");
                        ("computer_number", JStr "2019123456")]).

(** A signed submission under a well-formed number no user has. *)
Definition unknown_submitter_request : request :=
  mkreq None no_params no_query
        (fields JUndef [("title", JStr "Broken projector");
                        ("description", JStr "Lecture theatre 2");
                        ("category", JStr "facilities");
                        ("computer_number", JStr "2021999999");
                        ("anonymous", JBool false)]).

(** An anonymous submission; the number in the body is not even one. *)
Definition anonymous_request : request :=
  mkreq None no_params no_query
        (fields JUndef [("title", JStr "Harassment in lab");
                        ("description", JStr "Details withheld");
                        ("category", JStr "harassment");
                        ("computer_number", JStr "nobody");
                        ("anonymous", JBool true)]).

(** The same with a priority that does not exist. *)
Definition anonymous_bad_priority_request : request :=
  mkreq None no_params no_query
        (fields JUndef [("title", JStr "Harassment in lab");
                        ("description", JStr "Details withheld");
                        ("category", JStr "harassment");
                        ("priority", JStr "extreme");
                        ("anonymous", JBool true)]).

(** A meeting whose scheduled_at is no date. *)
Definition invalid_date_request : request :=
  mkreq (bearer student) no_params no_query
        (fields JUndef [("title", JStr "Supervision");
                        ("participant_computer_number", JStr "2016000002");
                        ("scheduled_at", JStr "not-a-date")]).

(** GET /meetings, by the organizer of meeting 1. *)
Definition meetings_request : request :=
  mkreq (bearer student) no_params no_query no_body.

(** PUT /complaints/1 with no Authorization header. *)
Definition anonymous_update_request : request :=
  mkreq None (fields "" [("id", "1")]) no_query
        (fields JUndef [("status", JStr "rejected");
                        ("priority", JStr "low");
                        ("admin_response", JStr "Not our problem");
                        ("admin_notes", JStr "closed by a stranger")]).

(** The hash of the sample instance is what its [bcrypt_compare] accepts. *)
#[export] Instance hashing : Hashing := {
  bcrypt_hash := fun data _ => "$2b$" ++ data
}.

(** A registration; no role given. *)
Definition register_request : request :=
  mkreq None no_params no_query
        (fields JUndef [("computer_number", JStr "2022000005");
                        ("first_name", JStr "Esnart");
                        ("last_name", JStr "Tembo");
                        ("email", JStr "esnart@unza.zm");
                        ("phone", JStr "0970000005");
                        ("password", JStr "esnartpw")]).

(** The same, asking to be an administrator. *)
Definition register_admin_request : request :=
  mkreq None no_params no_query
        (fields JUndef [("computer_number", JStr "2022000005");
                        ("role", JStr "admin");
                        ("first_name", JStr "Esnart");
                        ("last_name", JStr "Tembo");
                        ("email", JStr "esnart@unza.zm");
                        ("phone", JStr "0970000005");
                        ("password", JStr "esnartpw")]).

(** A registration under an address that is taken. *)
Definition register_taken_request : request :=
  mkreq None no_params no_query
        (fields JUndef [("computer_number", JStr "2022000005");
                        ("first_name", JStr "Esnart");
                        ("last_name", JStr "Tembo");
                        ("email", JStr "chanda@unza.zm");
                        ("phone", JStr "0970000005");
                        ("password", JStr "esnartpw")]).

Definition new_user_login_request : request :=
  mkreq None no_params no_query
        (fields JUndef [("computer_number", JStr "2022000005");
                        ("password", JStr "esnartpw")]).

Definition new_user_request : request :=
  mkreq (Some "Bearer t:2022000005") no_params no_query no_body.

(** The administrator makes the lecturer a student, and deletes the
    outsider. *)
Definition demote_request : request :=
  mkreq (bearer admin) (fields "" [("computer_number", "2016000002")])
        no_query (fields JUndef [("role", JStr "student")]).
Definition delete_request : request :=
  mkreq (bearer admin) (fields "" [("computer_number", "2020654321")])
        no_query no_body.
Definition admin_request : request :=
  mkreq (bearer admin) no_params no_query no_body.
Definition lecturer_request : request :=
  mkreq (bearer lecturer) no_params no_query no_body.
Definition outsider_request : request :=
  mkreq (bearer outsider) no_params no_query no_body.

(** The student reads a profile: the lecturer's, and their own. *)
Definition other_profile_request : request :=
  mkreq (bearer student) (fields "" [("computer_number", "2016000002")])
        no_query no_body.
Definition own_profile_request : request :=
  mkreq (bearer student) (fields "" [("computer_number", "2019123456")])
        no_query no_body.

(** The student changes password, and takes the lecturer's address. *)
Definition change_password_request : request :=
  mkreq (bearer student) no_params no_query
        (fields JUndef [("current_password", JStr "studentpw");
                        ("new_password", JStr "betterpw")]).
Definition student_login_request (password : string) : request :=
  mkreq None no_params no_query
        (fields JUndef [("computer_number", JStr "2019123456");
                        ("password", JStr password)]).
Definition take_email_request : request :=
  mkreq (bearer student) no_params no_query
        (fields JUndef [("email", JStr "ben@unza.zm")]).

(** The student books the lecturer for a time after the clock, and reads
    the meeting back. *)
Definition book_request : request :=
  mkreq (bearer student) no_params no_query
        (fields JUndef [("title", JStr "Supervision");
                        ("participant_computer_number", JStr "2016000002");
                        ("scheduled_at", JNum 5000)]).

(** On meeting 1 the lecturer is the participant, the student the
    organizer. *)
Definition participant_request : request :=
  mkreq (bearer lecturer) (fields "" [("id", "1")]) no_query
        (fields JUndef [("status", JStr "confirmed")]).
Definition organizer_request : request :=
  mkreq (bearer student) (fields "" [("id", "1")]) no_query
        (fields JUndef [("status", JStr "confirmed")]).

Definition resolve_request : request :=
  mkreq None (fields "" [("id", "1")]) no_query
        (fields JUndef [("status", JStr "resolved")]).

(** A form post: anonymous=false arrives as the string "false". *)
Definition form_request : request :=
  mkreq None no_params no_query
        (fields JUndef [("title", JStr "Broken projector");
                        ("description", JStr "Lecture theatre 2");
                        ("category", JStr "facilities");
                        ("computer_number", JStr "2019123456");
                        ("anonymous", JStr "false")]).

Definition categories_request : request :=
  mkreq None (params_of [("id", "categories")]) no_query no_body.

(** GET /complaints?limit=0&page=7 *)
Definition zero_limit_request : request :=
  mkreq None no_params
        (fields None [("limit", Some (QStr "0")); ("page", Some (QStr "7"))])
        no_body.

(** A bad date well in the past, as a number of milliseconds. *)
Definition past_meeting_request : request :=
  mkreq (bearer student) no_params no_query
        (fields JUndef [("title", JStr "Supervision");
                        ("participant_computer_number", JStr "2016000002");
                        ("scheduled_at", JNum 900)]).

(** The first query fails, the second goes through. *)
Definition second_attempt : nat -> bool := fun i => Nat.eqb i 1.
Definition no_attempt : nat -> bool := fun _ => false.

End Sample.

(** ** The listing endpoints, side by side *)

Inductive listing : Type := Users | Complaints | Meetings.

Section Listings.
Context {E : Externals} {Dr : Driver}.

(** The handler of a listing endpoint; [user] is the caller the middleware
    let through (GET /complaints has no middleware and ignores it). *)
Definition listing_handler (e : listing) (user : User.t) : route :=
  match e with
  | Users => get_users user
  | Complaints => GET_complaints
  | Meetings => get_meetings user
  end.

(** The number of rows a condition holds of. *)
Definition rows_where {A : Type} (condition : option (A -> bool)) (rows : list A)
  : option Z :=
  option_map (fun c => Z.of_nat (List.length (filter c rows))) condition.

(** What the endpoint's SELECT COUNT( * ) returns for a request, when the
    statement is accepted. *)
Definition total_count (e : listing) (user : User.t) (d : db) (req : request)
  : option Z :=
  match e with
  | Users =>
      rows_where (users_where (query req "role") (query req "search")) (users d)
  | Complaints =>
      rows_where
        (complaints_where (query req "status") (query req "category")
           (query req "priority") (query req "computer_number"))
        (complaints d)
  | Meetings =>
      rows_where
        (meetings_where meetings_eq (User.computer_number user)
           (query req "status"))
        (meetings d)
  end.

(** A query parameter given at most once, and not in brackets. *)
Definition plain (v : option qval) : Prop :=
  v = None \/ exists s, v = Some (QStr s).

(** A body field that is a string, or null, or not there. *)
Definition string_or_absent (v : jsval) : Prop :=
  v = JUndef \/ v = JNull \/ exists s, v = JStr s.

(** The four complaint routes the router registers first. *)
Definition complaint_routes : list route :=
  [POST_complaints; GET_complaints; GET_complaint; PUT_complaint].

(** The same request under another Authorization header, or none. *)
Definition with_authorization (a : option string) (req : request) : request :=
  mkreq a (params req) (query req) (body req).

(** The pagination object of a response, when it has one. *)
Definition pagination_of (r : response) : option json :=
  get "pagination" (json_body r).

End Listings.

(** [k] is the ceiling of [total / limit]: the least integer with
    [total <= k * limit]. *)
Definition is_ceiling (total limit k : Z) : Prop :=
  (k - 1) * limit < total <= k * limit.

(** The outcomes of a listing handler, one after the other: of
    [toUpperCase], of the WHERE clause, of LIMIT and OFFSET. *)
Ltac open_listing :=
  repeat (match goal with
          | |- context [match ?x with Some _ => _ | None => _ end] =>
              destruct x eqn:?
          end; cbv beta iota zeta).

(** * Properties *)

Section Properties.
Context {E : Externals} {Dr : Driver}.

(** ** Numbers *)

Lemma Math_ceil_div (n l : Z) :
  0 < l ->
  exists k, Math_ceil (jsdiv (Int n) (Int l)) = Int k /\ is_ceiling n l k.
Proof.
  intros Hl. destruct l as [|p|p]; try lia.
  exists (Qceiling (Qdiv (inject_Z n) (inject_Z (Zpos p)))). split.
  - reflexivity.
  - unfold is_ceiling, Qceiling, Qfloor, Qdiv, Qmult, Qinv, Qopp, inject_Z.
    cbn [Qnum Qden]. rewrite Z.mul_1_r, Pos.mul_1_l.
    pose proof (Z.div_mod (- n) (Zpos p) ltac:(lia)) as Hdm.
    pose proof (Z.mod_pos_bound (- n) (Zpos p) ltac:(lia)) as Hb.
    nia.
Qed.

Lemma as_integer_Int (z : Z) : as_integer (Int z) = Some z.
Proof.
  unfold as_integer, Int. rewrite Qfloor_Z.
  rewrite (proj2 (Qeq_bool_iff _ _) (Qeq_refl _)). reflexivity.
Qed.

(** The offset of page [pg] under limit [l] is the integer
    [(pg - 1) * l]. *)
Lemma offset_integer (pg l : Z) :
  as_integer (jsmul (jssub (Int pg) (Int 1)) (Int l)) = Some ((pg - 1) * l).
Proof.
  unfold as_integer, jsmul, jssub, jsadd, jsneg, Int.
  assert (Hq : Qred (Qred (inject_Z pg + - inject_Z 1) * inject_Z l)
               == inject_Z ((pg - 1) * l)).
  { rewrite !Qred_correct. rewrite inject_Z_mult.
    unfold Z.sub. rewrite inject_Z_plus, inject_Z_opp. reflexivity. }
  set (q := Qred (Qred (inject_Z pg + - inject_Z 1) * inject_Z l)) in *.
  assert (Hf : Qfloor q = (pg - 1) * l).
  { rewrite <- (Qfloor_Z ((pg - 1) * l)).
    apply Z.le_antisymm; apply Qfloor_resp_le; rewrite Hq; apply Qle_refl. }
  rewrite Hf. rewrite (proj2 (Qeq_bool_iff _ _) Hq). reflexivity.
Qed.

(** ** Pagination *)

(** A page of at least one under a positive limit, both exact as doubles,
    is a LIMIT and an OFFSET the server accepts. *)
Lemma limit_offset_accepts {A : Type} (l pg : Z) (rows : list A) :
  0 < l -> l < 2 ^ 53 -> 1 <= pg -> (pg - 1) * l < 2 ^ 53 ->
  exists page,
    limit_offset (Int l) (jsmul (jssub (Int pg) (Int 1)) (Int l)) rows = Some page.
Proof.
  intros Hl Hl' Hpg Ho. unfold limit_offset.
  rewrite as_integer_Int, offset_integer.
  replace ((0 <=? l) && (0 <=? (pg - 1) * l) && (l <? 10 ^ 21)
           && ((pg - 1) * l <? 10 ^ 21))%bool with true.
  - eexists. reflexivity.
  - symmetry. rewrite !andb_true_iff.
    assert (2 ^ 53 < 10 ^ 21) by reflexivity.
    repeat split; try apply Z.leb_le; try apply Z.ltb_lt; nia.
Qed.

(** A parameter given once is compared as the string it is. *)
Lemma where_eq_plain {A : Type} (exotic : qval -> option (A -> bool))
    (column : A -> option string) (v : option qval) :
  plain v -> exists c, where_eq exotic column v = Some c.
Proof.
  intros [-> | [s ->]]; unfold where_eq; cbn [given].
  - eexists. reflexivity.
  - destruct (negb (String.eqb s "")); eexists; reflexivity.
Qed.

Lemma toUpperCase_plain (dflt : string) (v : option qval) :
  plain v -> exists upper, toUpperCase_q (or_default dflt v) = Some upper.
Proof. intros [-> | [s ->]]; eexists; reflexivity. Qed.

Lemma meetings_where_plain
    (exotic : string -> qval -> option (Meeting.t -> bool))
    (computer_number : string) (status : option qval) :
  plain status ->
  exists c, meetings_where exotic computer_number status = Some c.
Proof.
  intros Hplain. unfold meetings_where.
  destruct (where_eq_plain (exotic "status")
              (fun m => Some (Meeting.status m)) _ Hplain) as [c ->].
  eexists. reflexivity.
Qed.

(** With every parameter given at most once, the COUNT query of each
    listing is accepted. *)
Lemma total_count_plain
    (e : listing) (user : User.t) (d : db) (req : request) :
  (forall k, plain (query req k)) ->
  exists total, total_count e user d req = Some total.
Proof.
  intros Hplain. destruct e; cbn [total_count];
    [unfold users_where | unfold complaints_where | ].
  - destruct (where_eq_plain (users_eq "role") (fun u => Some (User.role u))
                _ (Hplain "role")) as [c ->].
    eexists. reflexivity.
  - destruct (where_eq_plain (complaints_eq "status")
                (fun c => Some (Complaint.status c)) _ (Hplain "status")) as [c1 ->].
    destruct (where_eq_plain (complaints_eq "category")
                (fun c => Some (Complaint.category c)) _ (Hplain "category"))
      as [c2 ->].
    destruct (where_eq_plain (complaints_eq "priority")
                (fun c => Some (Complaint.priority c)) _ (Hplain "priority"))
      as [c3 ->].
    destruct (where_eq_plain (complaints_eq "computer_number")
                Complaint.computer_number _ (Hplain "computer_number")) as [c4 ->].
    eexists. reflexivity.
  - destruct (meetings_where_plain meetings_eq (User.computer_number user)
                _ (Hplain "status")) as [c ->].
    eexists. reflexivity.
Qed.

(** Each listing answers in one of two ways: the 500 of its catch block,
    with no pagination object; or 200 with a pagination object whose
    [total_pages] is [Math.ceil] of the COUNT query's total over the
    limit.  It is the second when [sort_order] has [toUpperCase], the
    COUNT query is accepted and LIMIT and OFFSET are. *)
Lemma listing_answers
    (e : listing) (user : User.t) (d : db) (now : Z) (req : request) :
  (status (fst (listing_handler e user d now req)) = 500
   /\ pagination_of (fst (listing_handler e user d now req)) = None)
  \/ (status (fst (listing_handler e user d now req)) = 200
      /\ exists total p,
           total_count e user d req = Some total
           /\ pagination_of (fst (listing_handler e user d now req)) = Some p
           /\ get "total_pages" p
              = Some (JNumber (Math_ceil (jsdiv (Int total)
                                 (parseInt_or 10 (query req "limit")))))).
Proof.
  destruct e; cbn [listing_handler total_count].
  - unfold get_users.
    destruct (toUpperCase_q (or_default "DESC" (query req "sort_order")));
      [|left; split; reflexivity].
    destruct (users_where (query req "role") (query req "search"));
      [|left; split; reflexivity].
    cbv beta iota zeta.
    match goal with
    | |- context [limit_offset ?a ?b ?c] => destruct (limit_offset a b c)
    end; [|left; split; reflexivity].
    right. split; [reflexivity|]. eexists. eexists.
    split; [reflexivity|]. split; reflexivity.
  - unfold GET_complaints.
    destruct (toUpperCase_q (or_default "DESC" (query req "sort_order")));
      [|left; split; reflexivity].
    destruct (complaints_where (query req "status") (query req "category")
                (query req "priority") (query req "computer_number"));
      [|left; split; reflexivity].
    cbv beta iota zeta.
    match goal with
    | |- context [limit_offset ?a ?b ?c] => destruct (limit_offset a b c)
    end; [|left; split; reflexivity].
    right. split; [reflexivity|]. eexists. eexists.
    split; [reflexivity|]. split; reflexivity.
  - unfold get_meetings.
    destruct (meetings_where meetings_eq (User.computer_number user)
                (query req "status"));
      [|left; split; reflexivity].
    destruct (meetings_where meetings_joined_eq (User.computer_number user)
                (query req "status"));
      [|left; split; reflexivity].
    cbv beta iota zeta.
    match goal with
    | |- context [limit_offset ?a ?b ?c] => destruct (limit_offset a b c)
    end; [|left; split; reflexivity].
    right. split; [reflexivity|]. eexists. eexists.
    split; [reflexivity|]. split; reflexivity.
Qed.

(** A request with every parameter given at most once, a positive limit
    and a page of at least one, both exact as doubles, is answered 200. *)
Lemma listing_200
    (e : listing) (user : User.t) (d : db) (now : Z) (req : request)
    (l pg : Z) :
  parseInt_or 10 (query req "limit") = Int l -> 0 < l -> l < 2 ^ 53 ->
  parseInt_or 1 (query req "page") = Int pg -> 1 <= pg ->
  (pg - 1) * l < 2 ^ 53 ->
  (forall k, plain (query req k)) ->
  status (fst (listing_handler e user d now req)) = 200.
Proof.
  intros Hlimit Hl Hl' Hpage Hpg Ho Hplain.
  destruct (toUpperCase_plain "DESC" _ (Hplain "sort_order")) as [upper Hupper].
  destruct (meetings_where_plain meetings_joined_eq (User.computer_number user)
              _ (Hplain "status")) as [listed Hlisted].
  destruct (total_count_plain e user d req Hplain) as [total Htotal].
  destruct e; cbn [listing_handler total_count] in *;
    [unfold get_users | unfold GET_complaints | unfold get_meetings];
    try rewrite Hupper; try rewrite Hlisted; unfold rows_where in Htotal;
    match type of Htotal with
    | option_map _ ?w = _ => destruct w; [|discriminate]
    end;
    rewrite Hlimit, Hpage; cbv beta iota zeta;
    match goal with
    | |- context [limit_offset ?a ?b ?c] =>
        destruct (limit_offset_accepts l pg c Hl Hl' Hpg Ho) as [rows ->]
    end; reflexivity.
Qed.

(** C1. On each listing endpoint, for a request whose limit is a positive
    integer: the response is either the 500 of the catch block, with no
    pagination object, or 200 with a pagination object whose
    [total_pages] is the ceiling of the COUNT query's total over the
    limit; and it is the latter whenever every query parameter is given
    at most once and the page is an integer of at least one, limit and
    offset below 2^53. *)
Theorem total_pages_is_ceiling
    (e : listing) (user : User.t) (d : db) (now : Z) (req : request) (l : Z) :
  parseInt_or 10 (query req "limit") = Int l ->
  0 < l ->
  ((status (fst (listing_handler e user d now req)) = 500
    /\ pagination_of (fst (listing_handler e user d now req)) = None)
   \/ (status (fst (listing_handler e user d now req)) = 200
       /\ exists total p k,
            total_count e user d req = Some total
            /\ pagination_of (fst (listing_handler e user d now req)) = Some p
            /\ get "total_pages" p = Some (JNumber (Int k))
            /\ is_ceiling total l k))
  /\ (forall pg,
        parseInt_or 1 (query req "page") = Int pg -> 1 <= pg ->
        l < 2 ^ 53 -> (pg - 1) * l < 2 ^ 53 ->
        (forall k, plain (query req k)) ->
        status (fst (listing_handler e user d now req)) = 200).
Proof.
  intros Hlimit Hl. split.
  - destruct (listing_answers e user d now req)
      as [H500 | [H200 [total [p [Htotal [Hp Hpages]]]]]]; [left; exact H500|].
    right. split; [exact H200|].
    destruct (Math_ceil_div total l Hl) as [k [Hk Hc]].
    exists total, p, k. rewrite Hlimit, Hk in Hpages. auto.
  - intros pg Hpage Hpg Hl' Ho Hplain.
    exact (listing_200 e user d now req l pg Hlimit Hl Hl' Hpage Hpg Ho Hplain).
Qed.

(** The pagination object of GET /users and GET /complaints: the current
    page, the total pages, and the two flags as the comparisons of the
    page with the total and with one. *)
Lemma users_complaints_flags
    (e : listing) (user : User.t) (d : db) (now : Z) (req : request) (p : json) :
  e <> Meetings ->
  pagination_of (fst (listing_handler e user d now req)) = Some p ->
  exists total_pages,
    get "current_page" p = Some (JNumber (parseInt_or 1 (query req "page")))
    /\ get "total_pages" p = Some (JNumber total_pages)
    /\ get "has_next" p
       = Some (jbool (jslt (parseInt_or 1 (query req "page")) total_pages))
    /\ get "has_prev" p
       = Some (jbool (jsgt (parseInt_or 1 (query req "page")) (Int 1))).
Proof.
  intros He Hp.
  destruct e; try congruence; cbn [listing_handler] in Hp;
    [unfold get_users in Hp | unfold GET_complaints in Hp];
    (destruct (toUpperCase_q (or_default "DESC" (query req "sort_order")));
     [|discriminate]);
    match type of Hp with
    | context [match ?w with Some _ => _ | None => _ end] =>
        destruct w; [|discriminate]
    end;
    cbv beta iota zeta in Hp;
    match type of Hp with
    | context [limit_offset ?a ?b ?c] => destruct (limit_offset a b c)
    end;
    cbn in Hp; try discriminate;
    injection Hp as <-; eexists; cbn; repeat split; reflexivity.
Qed.

(** The pagination object of GET /meetings has the pages, the total and
    the limit, and neither flag. *)
Lemma meetings_pagination_has_no_flags
    (user : User.t) (d : db) (now : Z) (req : request) (p : json) :
  pagination_of (fst (get_meetings user d now req)) = Some p ->
  get "current_page" p = Some (JNumber (parseInt_or 1 (query req "page")))
  /\ get "has_next" p = None /\ get "has_prev" p = None.
Proof.
  intros Hp. unfold get_meetings in Hp.
  destruct (meetings_where meetings_eq (User.computer_number user)
              (query req "status")); [|discriminate].
  destruct (meetings_where meetings_joined_eq (User.computer_number user)
              (query req "status")); [|discriminate].
  cbv beta iota zeta in Hp.
  match type of Hp with
  | context [limit_offset ?a ?b ?c] => destruct (limit_offset a b c)
  end;
  cbn in Hp; try discriminate.
  injection Hp as <-. cbn. repeat split; reflexivity.
Qed.

(** ** The store: keys and lookups *)

Lemma id_eq_Int (col z : Z) : id_eq col (Int z) = (col =? z).
Proof. unfold id_eq. rewrite as_integer_Int. reflexivity. Qed.

Lemma col_eq_Some (col s : string) : col_eq col (Some s) = true <-> col = s.
Proof. apply String.eqb_eq. Qed.

Lemma filter_none {A : Type} (test : A -> bool) (l : list A) :
  (forall x, In x l -> test x = false) -> filter test l = [].
Proof.
  induction l as [|a l IH]; intros H; [reflexivity|].
  cbn [filter]. rewrite (H a (or_introl eq_refl)).
  apply IH. intros x Hx. apply H. right. exact Hx.
Qed.

(** Under a unique key, the lookup by a row's key finds that row alone. *)
Lemma filter_unique {A K : Type} (key : A -> K) (test : A -> bool)
    (l : list A) (m : A) :
  NoDup (map key l) -> In m l ->
  (forall x, test x = true <-> key x = key m) ->
  filter test l = [m].
Proof.
  intros Hnd Hin Htest. induction l as [|a l IH]; [contradiction|].
  cbn in Hnd. inversion Hnd as [|k ks Hnotin Hnd']; subst.
  cbn [filter]. destruct Hin as [-> | Hin].
  - rewrite (proj2 (Htest m) eq_refl). f_equal.
    apply filter_none. intros x Hx.
    destruct (test x) eqn:Hb; [|reflexivity].
    exfalso. apply Hnotin. apply Htest in Hb. rewrite <- Hb.
    apply in_map. exact Hx.
  - destruct (test a) eqn:Ha.
    + exfalso. apply Hnotin. apply Htest in Ha. rewrite Ha.
      apply in_map. exact Hin.
    + apply IH; assumption.
Qed.

Lemma meeting_by_id_unique (d : db) (m : Meeting.t) :
  NoDup (map Meeting.meeting_id (meetings d)) -> In m (meetings d) ->
  meeting_by_id d (Int (Meeting.meeting_id m)) = [m].
Proof.
  intros Hnd Hin. unfold meeting_by_id.
  apply (filter_unique Meeting.meeting_id); try assumption.
  intros x. rewrite id_eq_Int. apply Z.eqb_eq.
Qed.

Lemma user_by_number_unique (d : db) (u : User.t) :
  NoDup (map User.computer_number (users d)) -> In u (users d) ->
  user_by_number d (Some (User.computer_number u)) = [u].
Proof.
  intros Hnd Hin. unfold user_by_number.
  apply (filter_unique User.computer_number); try assumption.
  intros x. apply col_eq_Some.
Qed.

Lemma user_by_number_self (d : db) (u : User.t) :
  In u (users d) -> user_by_number d (Some (User.computer_number u)) <> [].
Proof.
  intros Hin Hnil.
  assert (Hf : In u (user_by_number d (Some (User.computer_number u)))).
  { unfold user_by_number. apply filter_In. split; [exact Hin|].
    apply col_eq_Some. reflexivity. }
  rewrite Hnil in Hf. exact Hf.
Qed.

(** ** The middleware *)

(** Whoever [authenticate] lets through is a row of the users table. *)
Lemma authenticate_Next (d : db) (now : Z) (req : request) (u : User.t) :
  authenticate d now req = Next u -> In u (users d).
Proof.
  unfold authenticate. intros H.
  destruct (bearer_token req) as [token|]; [|discriminate].
  destruct (String.eqb token ""); [discriminate|].
  destruct (jwt_verify token JWT_SECRET now) as [decoded|name].
  - destruct (user_by_number d (sql_text (claim "computer_number" decoded)))
      as [|u0 rest] eqn:Hq; [discriminate|].
    injection H as <-.
    assert (Hin : In u0 (user_by_number d
                           (sql_text (claim "computer_number" decoded)))).
    { rewrite Hq. left. reflexivity. }
    unfold user_by_number in Hin. apply filter_In in Hin. tauto.
  - destruct (String.eqb name "JsonWebTokenError"); [discriminate|].
    destruct (String.eqb name "TokenExpiredError"); discriminate.
Qed.

Lemma authorize_admin (u : User.t) :
  User.role u = "admin" -> authorize ["admin"] (Some u) = Next u.
Proof. intros H. unfold authorize. rewrite H. reflexivity. Qed.

(** What the middleware answers by itself carries no pagination object, so
    a paginated answer of a protected listing is its handler's, run for the
    caller [authenticate] found. *)
Lemma authenticate_no_pagination (d : db) (now : Z) (req : request)
    (r : response) :
  authenticate d now req = Respond r -> pagination_of r = None.
Proof.
  unfold authenticate. intros H.
  destruct (bearer_token req) as [token|];
    [|injection H as <-; reflexivity].
  destruct (String.eqb token ""); [injection H as <-; reflexivity|].
  destruct (jwt_verify token JWT_SECRET now) as [decoded|name].
  - destruct (user_by_number d (sql_text (claim "computer_number" decoded)));
      [injection H as <-; reflexivity | discriminate].
  - destruct (String.eqb name "JsonWebTokenError");
      [injection H as <-; reflexivity|].
    destruct (String.eqb name "TokenExpiredError");
      injection H as <-; reflexivity.
Qed.

Lemma protected_listing (d : db) (now : Z) (req : request) (p : json) :
  (pagination_of (fst (GET_users d now req)) = Some p ->
   exists user, authenticate d now req = Next user
                /\ GET_users d now req = listing_handler Users user d now req)
  /\ (pagination_of (fst (GET_meetings d now req)) = Some p ->
      exists user, authenticate d now req = Next user
                   /\ GET_meetings d now req
                      = listing_handler Meetings user d now req).
Proof.
  unfold GET_users, GET_meetings, authorized, authenticated.
  destruct (authenticate d now req) as [r|user] eqn:Ha.
  - apply authenticate_no_pagination in Ha. cbn [fst].
    split; intros H; congruence.
  - split; intros H.
    + exists user. split; [reflexivity|].
      unfold authorize in *.
      destruct (negb (existsb (String.eqb (User.role user)) ["admin"]));
        [discriminate H | reflexivity].
    + exists user. split; reflexivity.
Qed.

(** ** Users: an administrator and their own account *)

(** C2. For a caller the middleware lets through as an administrator:
    PUT /users/:computer_number/role on the caller's own number with any
    role other than 'admin' answers 400 and leaves the store as it was
    (the stored role stays 'admin'); DELETE /users/:computer_number on the
    caller's own number answers 400 and deletes nothing. *)
Theorem admin_self_protection
    (d : db) (now : Z) (req : request) (u : User.t) :
  authenticate d now req = Next u ->
  User.role u = "admin" ->
  params req "computer_number" = User.computer_number u ->
  (body req "role" <> JStr "admin" ->
     status (fst (PUT_user_role d now req)) = 400
     /\ get "success" (json_body (fst (PUT_user_role d now req)))
        = Some (jbool false)
     /\ snd (PUT_user_role d now req) = d
     /\ In u (users (snd (PUT_user_role d now req))))
  /\ (status (fst (DELETE_user d now req)) = 400
      /\ get "success" (json_body (fst (DELETE_user d now req)))
         = Some (jbool false)
      /\ snd (DELETE_user d now req) = d
      /\ In u (users (snd (DELETE_user d now req)))).
Proof.
  intros Hauth Hrole Hparam.
  pose proof (authenticate_Next _ _ _ _ Hauth) as Hin.
  split.
  - intros Hnew.
    unfold PUT_user_role, authorized. rewrite Hauth, (authorize_admin u Hrole).
    unfold put_user_role. rewrite Hparam.
    destruct (truthy (body req "role")); cbn [negb];
      [|repeat split; exact Hin].
    destruct (includes ["admin"; "lecturer"; "student"] (body req "role"));
      cbn [negb]; [|repeat split; exact Hin].
    pose proof (user_by_number_self d u Hin) as Hself.
    destruct (user_by_number d (Some (User.computer_number u))) as [|u0 rest];
      [congruence|].
    rewrite String.eqb_refl, Hrole.
    assert (Hne : strict_eq_str (body req "role") "admin" = false).
    { destruct (body req "role") as [| |b|z|r]; try reflexivity.
      cbn. apply String.eqb_neq. congruence. }
    rewrite Hne. repeat split; exact Hin.
  - unfold DELETE_user, authorized. rewrite Hauth, (authorize_admin u Hrole).
    unfold delete_user_route. rewrite Hparam, String.eqb_refl.
    repeat split; exact Hin.
Qed.

(** ** Meetings: a user who has no part in a meeting *)

(** C3. For an existing meeting and a caller the middleware lets through
    who is no administrator, not the organizer and not the participant:
    GET /meetings/:id, PUT /meetings/:id with a valid status and
    DELETE /meetings/:id each answer 403 and leave the store as it was. *)
Theorem stranger_to_meeting_gets_403
    (d : db) (now : Z) (req : request) (u : User.t) (m : Meeting.t) :
  authenticate d now req = Next u ->
  User.role u <> "admin" ->
  NoDup (map Meeting.meeting_id (meetings d)) ->
  In m (meetings d) ->
  parseInt (params req "id") = Int (Meeting.meeting_id m) ->
  Meeting.organizer_computer_number m <> User.computer_number u ->
  Meeting.participant_computer_number m <> User.computer_number u ->
  (status (fst (GET_meeting d now req)) = 403
   /\ snd (GET_meeting d now req) = d)
  /\ (includes ["pending"; "confirmed"; "cancelled"] (body req "status") = true ->
      status (fst (PUT_meeting d now req)) = 403
      /\ snd (PUT_meeting d now req) = d)
  /\ (status (fst (DELETE_meeting d now req)) = 403
      /\ snd (DELETE_meeting d now req) = d).
Proof.
  intros Hauth Hrole Hkey Hin Hid Horg Hpart.
  pose proof (meeting_by_id_unique d m Hkey Hin) as Hfind.
  apply String.eqb_neq in Hrole, Horg, Hpart.
  repeat split.
  - unfold GET_meeting, authenticated. rewrite Hauth.
    unfold get_meeting. rewrite Hid, Hfind. cbn [isNaN Int join_users flat_map].
    destruct (left_join_user d (Meeting.organizer_computer_number m))
      as [|o os] eqn:Ho.
    { unfold left_join_user in Ho.
      destruct (user_by_number d _); discriminate. }
    destruct (left_join_user d (Meeting.participant_computer_number m))
      as [|p ps] eqn:Hp.
    { unfold left_join_user in Hp.
      destruct (user_by_number d _); discriminate. }
    cbn [flat_map map app]. rewrite Hrole, Horg, Hpart. reflexivity.
  - unfold GET_meeting, authenticated. rewrite Hauth.
    unfold get_meeting. rewrite Hid, Hfind. cbn [isNaN Int].
    destruct (join_users d [m]) as [|[[m0 o] p] rs]; [reflexivity|].
    destruct (negb _); reflexivity.
  - unfold PUT_meeting, authenticated. rewrite Hauth.
    unfold put_meeting. rewrite H, Hid, Hfind. cbn [negb isNaN Int].
    rewrite Hrole, Hpart. reflexivity.
  - unfold PUT_meeting, authenticated. rewrite Hauth.
    unfold put_meeting. rewrite H, Hid, Hfind. cbn [negb isNaN Int].
    rewrite Hrole, Hpart. reflexivity.
  - unfold DELETE_meeting, authenticated. rewrite Hauth.
    unfold delete_meeting_route. rewrite Hid, Hfind. cbn [isNaN Int].
    rewrite Hrole, Horg. reflexivity.
  - unfold DELETE_meeting, authenticated. rewrite Hauth.
    unfold delete_meeting_route. rewrite Hid, Hfind. cbn [isNaN Int].
    rewrite Hrole, Horg. reflexivity.
Qed.

(** ** Login and the bearer token *)

(** C5. A login whose computer number is that of a stored user and whose
    password [bcrypt.compare] accepts against that user's hash answers 200
    with the token [jwt.sign] made from the user's computer number, role
    and email; and on any route behind [authenticate], a bearer token on
    which [jwt.verify] throws TokenExpiredError (expired) or
    JsonWebTokenError (bad signature, malformed) is answered 401, the
    handler not run. *)
Theorem login_token_and_rejection :
  (forall (d : db) (now : Z) (req : request) (user : User.t)
          (password token : string),
      NoDup (map User.computer_number (users d)) ->
      In user (users d) ->
      body req "computer_number" = JStr (User.computer_number user) ->
      User.computer_number user <> "" ->
      body req "password" = JStr password ->
      password <> "" ->
      bcrypt_compare password (User.password_hash user) = true ->
      jwt_sign [("computer_number", JStr (User.computer_number user));
                ("role", JStr (User.role user));
                ("email", JStr (User.email user))]
               JWT_SECRET expires_in now = Some token ->
      status (fst (auth_login d now req)) = 200
      /\ get "success" (json_body (fst (auth_login d now req)))
         = Some (jbool true)
      /\ (exists data,
            get "data" (json_body (fst (auth_login d now req))) = Some data
            /\ get "token" data = Some (jstr token))
      /\ snd (auth_login d now req) = d)
  /\
  (forall (d : db) (now : Z) (req : request) (header name : string),
      authorization req = Some header ->
      jwt_verify (remove_first "Bearer " header) JWT_SECRET now = Throws name ->
      name = "TokenExpiredError" \/ name = "JsonWebTokenError" ->
      (exists r, authenticate d now req = Respond r /\ status r = 401)
      /\ (forall handler : User.t -> route,
            status (fst (authenticated handler d now req)) = 401
            /\ snd (authenticated handler d now req) = d)
      /\ (forall (roles : list string) (handler : User.t -> route),
            status (fst (authorized roles handler d now req)) = 401
            /\ snd (authorized roles handler d now req) = d)).
Proof.
  split.
  - intros d now req user password token Hkey Hin Hcn Hcn0 Hpw Hpw0 Hcmp Hsign.
    unfold auth_login. rewrite Hcn, Hpw. cbn [truthy sql_text].
    apply String.eqb_neq in Hcn0, Hpw0. rewrite Hcn0, Hpw0. cbn [negb orb].
    rewrite (user_by_number_unique d user Hkey Hin).
    rewrite Hcmp. cbn [negb]. unfold token_claims. rewrite Hsign.
    repeat split. eexists. split; reflexivity.
  - intros d now req header name Hh Hv Hname.
    assert (Ha : exists r, authenticate d now req = Respond r /\ status r = 401).
    { unfold authenticate, bearer_token. rewrite Hh. cbn [option_map].
      destruct (String.eqb (remove_first "Bearer " header) "");
        [eexists; split; reflexivity|].
      rewrite Hv. destruct Hname as [-> | ->]; cbn;
        eexists; split; reflexivity. }
    destruct Ha as [r [Ha Hs]].
    split; [exists r; split; assumption|].
    split.
    + intros handler. unfold authenticated. rewrite Ha. split; [exact Hs|reflexivity].
    + intros roles handler. unfold authorized. rewrite Ha.
      split; [exact Hs|reflexivity].
Qed.

(** ** Complaints: submission *)

(** C4, as the handler has it.  A submission without a category field is
    answered 400 with the category reported as required and no list of
    valid categories, and inserts nothing; the list of valid categories
    comes with the 400 for a category that is given (with a title and a
    description) and is not one of them. *)
Theorem missing_category_rejected (d : db) (now : Z) (req : request) :
  (body req "category" = JUndef ->
     status (fst (POST_complaints d now req)) = 400
     /\ (exists errors,
           get "errors" (json_body (fst (POST_complaints d now req)))
           = Some errors
           /\ get "category" errors = Some (jstr "Category is required"))
     /\ get "valid_categories" (json_body (fst (POST_complaints d now req)))
        = None
     /\ snd (POST_complaints d now req) = d)
  /\ (truthy (body req "title") = true ->
      truthy (body req "description") = true ->
      truthy (body req "category") = true ->
      includes validCategories (body req "category") = false ->
      status (fst (POST_complaints d now req)) = 400
      /\ get "valid_categories" (json_body (fst (POST_complaints d now req)))
         = Some (JArr (map jstr validCategories))
      /\ snd (POST_complaints d now req) = d).
Proof.
  split.
  - intros Hc. unfold POST_complaints. rewrite Hc. cbn [truthy negb].
    rewrite !orb_true_r. cbn. repeat split. eexists. split; reflexivity.
  - intros Ht Hd Hc Hv. unfold POST_complaints.
    rewrite Ht, Hd, Hc, Hv. cbn. repeat split.
Qed.

Lemma ten_digits_text (v : jsval) :
  truthy v = true -> computerNumberRegex_test v = true ->
  sql_text v = Some (ToString v).
Proof.
  destruct v as [| |[|]|z|s]; cbn; try discriminate; reflexivity.
Qed.


(** C9, as the handler has it.  A submission with anonymous = true, a
    title and a description that are strings and not empty, a valid
    category, a priority that is absent or valid, and a contact_phone and
    a contact_email that are strings or absent, is answered 201 and
    inserts one row whose computer_number is NULL, whatever
    computer_number the body carries. *)
Theorem anonymous_complaint_has_no_number
    (d : db) (now : Z) (req : request) (title description : string) :
  body req "anonymous" = JBool true ->
  body req "title" = JStr title -> title <> "" ->
  body req "description" = JStr description -> description <> "" ->
  includes validCategories (body req "category") = true ->
  includes validPriorities (default (body req "priority") (JStr "medium")) = true ->
  string_or_absent (body req "contact_phone") ->
  string_or_absent (body req "contact_email") ->
  status (fst (POST_complaints d now req)) = 201
  /\ exists row,
       complaints (snd (POST_complaints d now req)) = (complaints d ++ [row])%list
       /\ Complaint.computer_number row = None
       /\ Complaint.anonymous row = 1.
Proof.
  intros Ha Htitle Hne Hdesc Hne' Hc Hp _ _.
  assert (Ht : truthy (body req "title") = true).
  { rewrite Htitle. destruct title; [contradiction | reflexivity]. }
  assert (Hd : truthy (body req "description") = true).
  { rewrite Hdesc. destruct description; [contradiction | reflexivity]. }
  clear Htitle Hdesc. unfold POST_complaints.
  assert (Hct : truthy (body req "category") = true).
  { destruct (body req "category") as [| |b|z|c]; try discriminate.
    cbn. destruct c; [discriminate | reflexivity]. }
  rewrite Ha, Ht, Hd, Hct, Hc, Hp. cbn.
  split; [reflexivity|]. eexists. repeat split.
Qed.

(** ** Meetings: the scheduled time *)

(** X25. A scheduled time that is a date and is not later than the clock is
    answered 400, and no meeting is inserted. *)
Lemma past_meeting_rejected
    (user : User.t) (d : db) (now : Z) (req : request) (t : Q) :
  Date_getTime (body req "scheduled_at") = Fin t ->
  (t <= inject_Z now)%Q ->
  status (fst (post_meeting user d now req)) = 400
  /\ snd (post_meeting user d now req) = d.
Proof.
  intros Ht Hle. unfold post_meeting.
  destruct (negb (truthy (body req "title"))
            || negb (truthy (body req "participant_computer_number"))
            || negb (truthy (body req "scheduled_at")));
    [split; reflexivity|].
  rewrite Ht.
  assert (Hj : jsle (Fin t) (Int now) = true).
  { unfold jsle, jslt, Int. apply negb_true_iff.
    destruct (Qle_bool (inject_Z now) t) eqn:H1; [|reflexivity].
    apply Qle_bool_iff in H1.
    rewrite (proj2 (Qeq_bool_iff _ _) (Qle_antisym _ _ H1 Hle)). reflexivity. }
  rewrite Hj. split; reflexivity.
Qed.

(** C7, where the handler departs from it.  A scheduled_at that is no date
    at all passes the test of the time (a comparison with an invalid date
    is false), and the meeting is inserted and answered 201. *)
Theorem invalid_date_is_scheduled
    (d : db) (now : Z) (req : request) (u participant : User.t)
    (rest : list User.t) :
  authenticate d now req = Next u ->
  truthy (body req "title") = true ->
  truthy (body req "participant_computer_number") = true ->
  truthy (body req "scheduled_at") = true ->
  Date_getTime (body req "scheduled_at") = NaN ->
  user_by_number d (sql_text (body req "participant_computer_number"))
  = participant :: rest ->
  status (fst (POST_meetings d now req)) = 201
  /\ exists row,
       meetings (snd (POST_meetings d now req)) = (meetings d ++ [row])%list
       /\ Meeting.scheduled_at row = text_of (body req "scheduled_at").
Proof.
  intros Hauth Ht Hp Hs Hdate Hfind.
  unfold POST_meetings, authenticated. rewrite Hauth.
  unfold post_meeting. rewrite Ht, Hp, Hs, Hdate, Hfind. cbn.
  split; [reflexivity|]. eexists. split; reflexivity.
Qed.

(** ** Complaints: nobody is asked who they are *)

Ltac branches :=
  repeat match goal with
         | |- context [if ?c then _ else _] => destruct c
         | |- context [match ?l with [] => _ | _ :: _ => _ end] => destruct l
         | |- context [match limit_offset ?a ?b ?c with _ => _ end] =>
             destruct (limit_offset a b c)
         end.

Lemma complaint_routes_status (r : route) (d : db) (now : Z) (req : request) :
  In r complaint_routes ->
  In (status (fst (r d now req))) [200; 201; 400; 404; 500].
Proof.
  intros [<- | [<- | [<- | [<- | []]]]].
  - unfold POST_complaints. branches; cbn; tauto.
  - unfold GET_complaints.
    destruct (toUpperCase_q (or_default "DESC" (query req "sort_order")));
      [|cbn; tauto].
    destruct (complaints_where (query req "status") (query req "category")
                (query req "priority") (query req "computer_number"));
      [|cbn; tauto].
    cbv beta iota zeta. branches; cbn; tauto.
  - unfold GET_complaint. branches; cbn; tauto.
  - unfold PUT_complaint. branches; cbn; tauto.
Qed.

Lemma complaint_by_id_unique (d : db) (c : Complaint.t) :
  NoDup (map Complaint.complaint_id (complaints d)) -> In c (complaints d) ->
  complaint_by_id d (Int (Complaint.complaint_id c)) = [c].
Proof.
  intros Hnd Hin. unfold complaint_by_id.
  apply (filter_unique Complaint.complaint_id); try assumption.
  intros x. rewrite id_eq_Int. apply Z.eqb_eq.
Qed.

(** C10. The four complaint routes never answer 401 or 403 and answer the
    same whatever the Authorization header is; and a PUT /complaints/:id
    with no Authorization header at all, on an existing complaint, with a
    valid status, a valid priority, an admin_response and admin_notes, is
    answered 200 and leaves the row with exactly those four values. *)
Theorem complaint_routes_ask_no_credentials :
  (forall (r : route) (d : db) (now : Z) (req : request),
      In r complaint_routes ->
      status (fst (r d now req)) <> 401
      /\ status (fst (r d now req)) <> 403
      /\ forall a : option string,
           r d now (with_authorization a req) = r d now req)
  /\
  (forall (d : db) (now : Z) (req : request) (c : Complaint.t),
      authorization req = None ->
      NoDup (map Complaint.complaint_id (complaints d)) ->
      In c (complaints d) ->
      parseInt (params req "id") = Int (Complaint.complaint_id c) ->
      includes ["pending"; "in_progress"; "resolved"; "rejected"; "closed"]
               (body req "status") = true ->
      includes validPriorities (body req "priority") = true ->
      truthy (body req "admin_response") = true ->
      truthy (body req "admin_notes") = true ->
      status (fst (PUT_complaint d now req)) = 200
      /\ exists c',
           In c' (complaints (snd (PUT_complaint d now req)))
           /\ Complaint.complaint_id c' = Complaint.complaint_id c
           /\ Some (Complaint.status c') = sql_text (body req "status")
           /\ Some (Complaint.priority c') = sql_text (body req "priority")
           /\ Complaint.admin_response c' = sql_text (body req "admin_response")
           /\ Complaint.admin_notes c' = sql_text (body req "admin_notes")).
Proof.
  split.
  - intros r d now req Hr.
    pose proof (complaint_routes_status r d now req Hr) as Hs.
    repeat split.
    + intros H. rewrite H in Hs. cbn in Hs. intuition discriminate.
    + intros H. rewrite H in Hs. cbn in Hs. intuition discriminate.
    + intros a. destruct Hr as [<- | [<- | [<- | [<- | []]]]]; reflexivity.
  - intros d now req c _ Hkey Hin Hid Hst Hpr Hresp Hnotes.
    assert (Htr : forall l v, includes l v = true -> truthy v = true
                              \/ v = JStr "").
    { intros l v H. destruct v as [| |b|z|s0]; try discriminate.
      destruct s0; [right; reflexivity | left; reflexivity]. }
    assert (Hst' : truthy (body req "status") = true).
    { destruct (Htr _ _ Hst) as [H|H]; [exact H|]. rewrite H in Hst. discriminate. }
    assert (Hpr' : truthy (body req "priority") = true).
    { destruct (Htr _ _ Hpr) as [H|H]; [exact H|]. rewrite H in Hpr. discriminate. }
    unfold PUT_complaint. rewrite Hid.
    assert (Hidne : String.eqb (params req "id") "" = false).
    { destruct (params req "id"); [discriminate Hid | reflexivity]. }
    rewrite Hidne. cbn [isNaN Int orb].
    rewrite (complaint_by_id_unique d c Hkey Hin).
    rewrite Hst', Hpr', Hst, Hpr, Hresp, Hnotes. cbn [negb andb].
    split; [reflexivity|].
    exists (update_complaint_row (body req "status") (body req "admin_response")
              (body req "admin_notes") (body req "priority") now c).
    split.
    + cbn [snd]. unfold update_complaint. cbn [complaints].
      apply in_map_iff. exists c. split; [|exact Hin].
      rewrite id_eq_Int, Z.eqb_refl. reflexivity.
    + unfold update_complaint_row. cbn. rewrite Hst', Hpr', Hresp, Hnotes.
      unfold text_of.
      destruct (body req "status") as [| |b|z|s1]; try discriminate.
      destruct (body req "priority") as [| |b|z|s2]; try discriminate.
      repeat split.
Qed.

End Properties.

(** * The properties at work on the sample store *)

Section Examples.
Import Sample.

(** Every parameter of the sample listing request is given at most once. *)
Lemma list_request_plain (k : string) : plain (query list_request k).
Proof.
  unfold plain, list_request, fields. cbn [query assoc].
  destruct (String.eqb k "limit"); [right; eexists; reflexivity|].
  destruct (String.eqb k "page"); [right; eexists; reflexivity|].
  left. reflexivity.
Qed.

Lemma total_pages_is_ceiling_witness :
  parseInt_or 10 (query list_request "limit") = Int 2
  /\ 0 < 2
  /\ forall e : listing,
       status (fst (listing_handler e student store 1000 list_request)) = 200
       /\ exists total p k,
            total_count e student store list_request = Some total
            /\ pagination_of (fst (listing_handler e student store 1000 list_request))
               = Some p
            /\ get "total_pages" p = Some (JNumber (Int k))
            /\ is_ceiling total 2 k.
Proof.
  split; [reflexivity|]. split; [lia|]. intros e.
  destruct (total_pages_is_ceiling (E := externals) (Dr := driver)
              e student store 1000 list_request 2 eq_refl ltac:(lia))
    as [Hcases Hok].
  assert (H200 : status (fst (listing_handler e student store 1000 list_request))
                 = 200).
  { apply (Hok 2); [reflexivity | lia | reflexivity | reflexivity
                    | exact list_request_plain]. }
  split; [exact H200|].
  destruct Hcases as [[H500 _] | [_ H]]; [|exact H].
  rewrite H200 in H500. discriminate.
Defined.

Lemma admin_self_protection_witness :
  authenticate store 1000 self_request = Next admin
  /\ User.role admin = "admin"
  /\ params self_request "computer_number" = User.computer_number admin
  /\ body self_request "role" <> JStr "admin"
  /\ status (fst (PUT_user_role store 1000 self_request)) = 400
  /\ snd (PUT_user_role store 1000 self_request) = store
  /\ status (fst (DELETE_user store 1000 self_request)) = 400
  /\ snd (DELETE_user store 1000 self_request) = store.
Proof.
  assert (Hne : body self_request "role" <> JStr "admin") by discriminate.
  destruct (admin_self_protection (E := externals) store 1000 self_request admin
              eq_refl eq_refl eq_refl) as [Hput Hdel].
  destruct (Hput Hne) as [H1 [_ [H2 _]]]. destruct Hdel as [H3 [_ [H4 _]]].
  repeat split; assumption.
Defined.

Lemma stranger_to_meeting_gets_403_witness :
  authenticate store 1000 stranger_request = Next outsider
  /\ User.role outsider <> "admin"
  /\ In meeting1 (meetings store)
  /\ parseInt (params stranger_request "id") = Int (Meeting.meeting_id meeting1)
  /\ status (fst (GET_meeting store 1000 stranger_request)) = 403
  /\ status (fst (PUT_meeting store 1000 stranger_request)) = 403
  /\ status (fst (DELETE_meeting store 1000 stranger_request)) = 403
  /\ snd (DELETE_meeting store 1000 stranger_request) = store.
Proof.
  assert (Hrole : User.role outsider <> "admin") by discriminate.
  assert (Hkey : NoDup (map Meeting.meeting_id (meetings store))).
  { repeat constructor. intros []. }
  assert (Hin : In meeting1 (meetings store)) by (left; reflexivity).
  assert (Horg : Meeting.organizer_computer_number meeting1
                 <> User.computer_number outsider) by discriminate.
  assert (Hpart : Meeting.participant_computer_number meeting1
                  <> User.computer_number outsider) by discriminate.
  destruct (stranger_to_meeting_gets_403 (E := externals) store 1000 stranger_request outsider
              meeting1 eq_refl Hrole Hkey Hin eq_refl Horg Hpart)
    as [[Hget _] [Hput [Hdel Hsame]]].
  destruct (Hput eq_refl) as [Hput' _].
  repeat split; assumption.
Defined.

Lemma login_token_and_rejection_witness :
  (status (fst (auth_login store 1000 login_request)) = 200
   /\ exists data,
        get "data" (json_body (fst (auth_login store 1000 login_request)))
        = Some data
        /\ get "token" data = Some (jstr "t:2019123456"))
  /\ (jwt_verify "expired" JWT_SECRET 1000 = Throws "TokenExpiredError"
      /\ forall handler : User.t -> route,
           status (fst (authenticated handler store 1000 expired_request)) = 401).
Proof.
  destruct (@login_token_and_rejection externals) as [Hlogin Hreject].
  split.
  - assert (Hkey : NoDup (map User.computer_number (users store))).
    { repeat constructor; cbn; intuition discriminate. }
    assert (Hin : In student (users store)) by (cbn; tauto).
    assert (Hcn : User.computer_number student <> "") by discriminate.
    assert (Hpw : "studentpw" <> "") by discriminate.
    destruct (Hlogin store 1000 login_request student "studentpw" "t:2019123456"
                Hkey Hin eq_refl Hcn eq_refl Hpw eq_refl eq_refl)
      as [H1 [_ [H2 _]]].
    split; assumption.
  - split; [reflexivity|].
    intros handler.
    destruct (Hreject store 1000 expired_request "Bearer expired"
                "TokenExpiredError" eq_refl eq_refl (or_introl eq_refl))
      as [_ [H _]].
    apply H.
Defined.

(** C4, as stated, fails: the 400 for a missing category carries no list of
    the valid categories. *)
Lemma missing_category_lists_nothing :
  ~ (forall (d : db) (now : Z) (req : request),
        body req "category" = JUndef ->
        status (fst (POST_complaints d now req)) = 400
        /\ get "valid_categories" (json_body (fst (POST_complaints d now req)))
           = Some (JArr (map jstr validCategories))
        /\ snd (POST_complaints d now req) = d).
Proof.
  intros claim.
  destruct (claim store 1000 no_category_request eq_refl) as [_ [H _]].
  discriminate H.
Qed.

(** What that response is. *)
Example missing_category_response :
  fst (POST_complaints store 1000 no_category_request)
  = res_status 400
      [("success", jbool false);
       ("message", jstr "Title, description, and category are required");
       ("errors", JObj [("title", jnull); ("description", jnull);
                        ("category", jstr "Category is required")])].
Proof. reflexivity. Qed.

Lemma missing_category_rejected_witness :
  body no_category_request "category" = JUndef
  /\ status (fst (POST_complaints store 1000 no_category_request)) = 400
  /\ snd (POST_complaints store 1000 no_category_request) = store
  /\ includes validCategories (body bad_category_request "category") = false
  /\ get "valid_categories"
         (json_body (fst (POST_complaints store 1000 bad_category_request)))
     = Some (JArr (map jstr validCategories)).
Proof.
  destruct (missing_category_rejected store 1000 no_category_request)
    as [Hmissing _].
  destruct (missing_category_rejected store 1000 bad_category_request)
    as [_ Hbad].
  destruct (Hmissing eq_refl) as [H1 [_ [_ H2]]].
  destruct (Hbad eq_refl eq_refl eq_refl eq_refl) as [_ [H3 _]].
  repeat split; try assumption.
Defined.


(** The row that submission leaves, its submitter no row of users. *)
Example unknown_submitter_row :
  complaints (snd (POST_complaints store 1000 unknown_submitter_request))
  = (complaints store ++
       [Complaint.mk 4 (Some "2021999999") "Broken projector"
                     "Lecture theatre 2" "facilities" "medium" None None 0
                     "pending" None None 1000 None None])%list
  /\ user_by_number store (Some "2021999999") = [].
Proof. split; reflexivity. Qed.


(** C9, as stated, fails: an anonymous submission with a title, a
    description and a valid category is refused for its priority. *)
Lemma anonymous_complaint_refused_for_priority :
  ~ (forall (d : db) (now : Z) (req : request),
        body req "anonymous" = JBool true ->
        truthy (body req "title") = true ->
        truthy (body req "description") = true ->
        includes validCategories (body req "category") = true ->
        status (fst (POST_complaints d now req)) = 201
        /\ exists row,
             complaints (snd (POST_complaints d now req))
             = (complaints d ++ [row])%list
             /\ Complaint.computer_number row = None).
Proof.
  intros claim.
  destruct (claim store 1000 anonymous_bad_priority_request
              eq_refl eq_refl eq_refl eq_refl) as [H _].
  discriminate H.
Qed.

Lemma anonymous_complaint_has_no_number_witness :
  body anonymous_request "anonymous" = JBool true
  /\ body anonymous_request "title" = JStr "Harassment in lab"
  /\ body anonymous_request "description" = JStr "Details withheld"
  /\ body anonymous_request "computer_number" = JStr "nobody"
  /\ status (fst (POST_complaints store 1000 anonymous_request)) = 201
  /\ exists row,
       complaints (snd (POST_complaints store 1000 anonymous_request))
       = (complaints store ++ [row])%list
       /\ Complaint.computer_number row = None.
Proof.
  destruct (anonymous_complaint_has_no_number store 1000 anonymous_request
              "Harassment in lab" "Details withheld"
              eq_refl eq_refl ltac:(discriminate)
              eq_refl ltac:(discriminate) eq_refl eq_refl
              (or_introl eq_refl) (or_introl eq_refl))
    as [H1 [row [H2 [H3 _]]]].
  split; [reflexivity|]. split; [reflexivity|]. split; [reflexivity|].
  split; [reflexivity|]. split; [exact H1|].
  exists row. split; assumption.
Defined.

Lemma invalid_date_is_scheduled_witness :
  Date_getTime (body invalid_date_request "scheduled_at") = NaN
  /\ status (fst (POST_meetings store 1000 invalid_date_request)) = 201
  /\ exists row,
       meetings (snd (POST_meetings store 1000 invalid_date_request))
       = (meetings store ++ [row])%list
       /\ Meeting.scheduled_at row = "not-a-date".
Proof.
  destruct (invalid_date_is_scheduled (E := externals) store 1000 invalid_date_request
              student lecturer [] eq_refl eq_refl eq_refl eq_refl eq_refl
              eq_refl) as [H1 [row [H2 H3]]].
  split; [reflexivity|]. split; [exact H1|].
  exists row. split; assumption.
Defined.

(** C8, where GET /meetings departs from it: the answer is 200 and its
    pagination object has neither has_next nor has_prev. *)
Theorem meetings_pagination_lacks_flags :
  status (fst (GET_meetings store 1000 meetings_request)) = 200
  /\ pagination_of (fst (GET_meetings store 1000 meetings_request))
     = Some (JObj [("current_page", JNumber (Int 1));
                   ("total_pages", JNumber (Int 1));
                   ("total_meetings", JNumber (Int 1));
                   ("limit", JNumber (Int 10))])
  /\ get "has_next" (JObj [("current_page", JNumber (Int 1));
                           ("total_pages", JNumber (Int 1));
                           ("total_meetings", JNumber (Int 1));
                           ("limit", JNumber (Int 10))]) = None
  /\ get "has_prev" (JObj [("current_page", JNumber (Int 1));
                           ("total_pages", JNumber (Int 1));
                           ("total_meetings", JNumber (Int 1));
                           ("limit", JNumber (Int 10))]) = None.
Proof. repeat split. Qed.

Lemma complaint_routes_ask_no_credentials_witness :
  authorization anonymous_update_request = None
  /\ status (fst (PUT_complaint store 1000 anonymous_update_request)) = 200
  /\ (exists c',
        In c' (complaints (snd (PUT_complaint store 1000 anonymous_update_request)))
        /\ Complaint.complaint_id c' = 1
        /\ Some (Complaint.status c') = Some "rejected"
        /\ Complaint.admin_notes c' = Some "closed by a stranger")
  /\ PUT_complaint store 1000
       (with_authorization (Some "Bearer nonsense") anonymous_update_request)
     = PUT_complaint store 1000 anonymous_update_request.
Proof.
  destruct (complaint_routes_ask_no_credentials (E := externals) (Dr := driver))
    as [Hany Hput].
  assert (Hkey : NoDup (map Complaint.complaint_id (complaints store))).
  { repeat constructor; cbn; intuition discriminate. }
  assert (Hin : In complaint1 (complaints store)) by (cbn; tauto).
  destruct (Hput store 1000 anonymous_update_request complaint1
              eq_refl Hkey Hin eq_refl eq_refl eq_refl eq_refl eq_refl)
    as [H1 [c' [H2 [H3 [H4 [_ [_ H5]]]]]]].
  split; [reflexivity|]. split; [exact H1|]. split.
  - exists c'. repeat split; assumption.
  - assert (Hr : In PUT_complaint complaint_routes) by (cbn; tauto).
    destruct (Hany PUT_complaint store 1000 anonymous_update_request Hr)
      as [_ [_ H]].
    apply H.
Defined.

End Examples.

(** * More properties of the routes *)

Section Guards.
Context {E : Externals} {Dr : Driver} {H : Hashing}.

(** ** The middleware *)

(** X1. [optionalAuth] sets [req.user] exactly when [authenticate] would let
    the request through, and to the same user. *)
Theorem optionalAuth_agrees (d : db) (now : Z) (req : request) (u : User.t) :
  optionalAuth d now req = Some u <-> authenticate d now req = Next u.
Proof.
  unfold optionalAuth, authenticate.
  destruct (bearer_token req) as [token|]; [|split; discriminate].
  destruct (String.eqb token ""); [split; discriminate|].
  destruct (jwt_verify token JWT_SECRET now) as [decoded|name].
  - destruct (user_by_number d (sql_text (claim "computer_number" decoded)));
      split; intros Hx; try discriminate; injection Hx as <-; reflexivity.
  - split; [discriminate|].
    destruct (String.eqb name "JsonWebTokenError"); [discriminate|].
    destruct (String.eqb name "TokenExpiredError"); discriminate.
Qed.

Lemma authenticate_status (d : db) (now : Z) (req : request) (r : response) :
  authenticate d now req = Respond r -> status r = 401 \/ status r = 500.
Proof.
  unfold authenticate. intros Hx.
  destruct (bearer_token req) as [token|];
    [|injection Hx as <-; left; reflexivity].
  destruct (String.eqb token ""); [injection Hx as <-; left; reflexivity|].
  destruct (jwt_verify token JWT_SECRET now) as [decoded|name].
  - destruct (user_by_number d (sql_text (claim "computer_number" decoded)));
      [injection Hx as <-; left; reflexivity | discriminate].
  - destruct (String.eqb name "JsonWebTokenError");
      [injection Hx as <-; left; reflexivity|].
    destruct (String.eqb name "TokenExpiredError");
      injection Hx as <-; [left | right]; reflexivity.
Qed.

(** The text a lookup found a user under is that user's number. *)
Lemma authenticate_number (d : db) (now : Z) (req : request) (u : User.t) :
  authenticate d now req = Next u ->
  exists token decoded,
    bearer_token req = Some token
    /\ jwt_verify token JWT_SECRET now = Decoded decoded
    /\ sql_text (claim "computer_number" decoded) = Some (User.computer_number u)
    /\ exists rest, user_by_number d (Some (User.computer_number u)) = u :: rest.
Proof.
  unfold authenticate. intros Hx.
  destruct (bearer_token req) as [token|]; [|discriminate].
  destruct (String.eqb token ""); [discriminate|].
  destruct (jwt_verify token JWT_SECRET now) as [decoded|name] eqn:Hv.
  - destruct (user_by_number d (sql_text (claim "computer_number" decoded)))
      as [|u0 rest] eqn:Hq; [discriminate|].
    injection Hx as <-.
    assert (Hin : In u0 (user_by_number d
                           (sql_text (claim "computer_number" decoded)))).
    { rewrite Hq. left. reflexivity. }
    unfold user_by_number in Hin. apply filter_In in Hin. destruct Hin as [_ Hc].
    destruct (sql_text (claim "computer_number" decoded)) as [p|] eqn:Hp;
      [|discriminate].
    apply col_eq_Some in Hc. subst p.
    exists token, decoded.
    split; [reflexivity|]. split; [exact Hv|]. split; [exact Hp|].
    exists rest. exact Hq.
  - destruct (String.eqb name "JsonWebTokenError"); [discriminate|].
    destruct (String.eqb name "TokenExpiredError"); discriminate.
Qed.

(** X2. A route behind [authenticate] and [authorize(roles)] runs its handler
    only for a stored user whose stored role is one of the roles; every
    other request is answered 401, 403 or 500 by the middleware and the
    store is not touched. *)
Theorem authorized_guard
    (roles : list string) (handler : User.t -> route)
    (d : db) (now : Z) (req : request) :
  (exists u,
      authenticate d now req = Next u
      /\ In u (users d) /\ In (User.role u) roles
      /\ authorized roles handler d now req = handler u d now req)
  \/ (In (status (fst (authorized roles handler d now req))) [401; 403; 500]
      /\ snd (authorized roles handler d now req) = d).
Proof.
  unfold authorized.
  destruct (authenticate d now req) as [r|u] eqn:Ha.
  - right. split; [|reflexivity]. cbn [fst].
    destruct (authenticate_status _ _ _ _ Ha) as [-> | ->]; cbn; tauto.
  - unfold authorize.
    destruct (existsb (String.eqb (User.role u)) roles) eqn:Hr; cbn [negb].
    + left. exists u. split; [reflexivity|].
      split; [exact (authenticate_Next _ _ _ _ Ha)|]. split; [|reflexivity].
      apply existsb_exists in Hr. destruct Hr as [x [Hx Heq]].
      apply String.eqb_eq in Heq. subst x. exact Hx.
    + right. split; [cbn; tauto | reflexivity].
Qed.

Lemma user_by_number_update_role (r number : string) (d : db) (p : option string) :
  user_by_number (update_user_role r number d) p
  = map (fun u => if col_eq (User.computer_number u) (Some number)
                  then set_role r u else u)
        (user_by_number d p).
Proof.
  unfold user_by_number, update_user_role. cbn [users].
  induction (users d) as [|a l IH]; [reflexivity|].
  cbn [map filter].
  assert (Hcn : User.computer_number
                  (if col_eq (User.computer_number a) (Some number)
                   then set_role r a else a) = User.computer_number a).
  { destruct (col_eq (User.computer_number a) (Some number)); reflexivity. }
  rewrite Hcn. destruct (col_eq (User.computer_number a) p);
    cbn [map]; rewrite IH; reflexivity.
Qed.

(** What a successful PUT /users/:computer_number/role leaves. *)
Lemma put_user_role_200 (user : User.t) (d : db) (now : Z) (req : request) :
  status (fst (put_user_role user d now req)) = 200 ->
  exists r,
    body req "role" = JStr r /\ In r validRoles
    /\ snd (put_user_role user d now req)
       = update_user_role r (params req "computer_number") d.
Proof.
  unfold put_user_role.
  destruct (truthy (body req "role")); cbn [negb]; [|discriminate].
  destruct (includes ["admin"; "lecturer"; "student"] (body req "role")) eqn:Hi;
    cbn [negb]; [|discriminate].
  destruct (user_by_number d (Some (params req "computer_number")));
    [discriminate|].
  destruct (_ && _ && _)%bool; [discriminate|].
  intros _. destruct (body req "role") as [| |b|z|r]; try discriminate.
  exists r. split; [reflexivity|]. split; [|reflexivity].
  change (existsb (String.eqb r) validRoles = true) in Hi.
  apply existsb_exists in Hi. destruct Hi as [x [Hx Heq]].
  apply String.eqb_eq in Heq. subst x. exact Hx.
Qed.

(** X3. A change of role binds at once: after an administrator has given a
    user a role other than 'admin', a token issued to that user before the
    change is refused with 403 on every admin-only route, whatever role the
    token was signed with. *)
Theorem demotion_takes_effect
    (d : db) (now now' : Z) (req req' : request) (admin target : User.t)
    (handler : User.t -> route) :
  authenticate d now req = Next admin ->
  status (fst (PUT_user_role d now req)) = 200 ->
  body req "role" <> JStr "admin" ->
  authenticate d now' req' = Next target ->
  User.computer_number target = params req "computer_number" ->
  status (fst (authorized ["admin"] handler (snd (PUT_user_role d now req))
                          now' req')) = 403
  /\ snd (authorized ["admin"] handler (snd (PUT_user_role d now req)) now' req')
     = snd (PUT_user_role d now req).
Proof.
  intros Ha Hs Hrole Ht Hcn.
  unfold PUT_user_role, authorized in Hs |- *. rewrite Ha in Hs |- *.
  destruct (authorize ["admin"] (Some admin)) as [r0|admin'] eqn:Hz.
  { unfold authorize in Hz.
    destruct (negb _); [injection Hz as <-; discriminate Hs | discriminate]. }
  cbn [fst snd] in Hs |- *.
  destruct (put_user_role_200 _ _ _ _ Hs) as [r [Hr [Hv Hd]]].
  rewrite Hd.
  destruct (authenticate_number _ _ _ _ Ht) as [token [decoded [Hb [Hv' [Hp [rest Hq]]]]]].
  assert (Hauth' : authenticate (update_user_role r (params req "computer_number") d)
                                now' req' = Next (set_role r target)).
  { unfold authenticate. rewrite Hb.
    unfold authenticate in Ht. rewrite Hb in Ht.
    destruct (String.eqb token ""); [discriminate|].
    rewrite Hv', Hp, user_by_number_update_role, Hq. cbn [map].
    rewrite Hcn. cbn [col_eq]. rewrite String.eqb_refl. reflexivity. }
  rewrite Hauth'. unfold authorize. cbn [User.role set_role existsb].
  assert (Hne : String.eqb r "admin" = false).
  { apply String.eqb_neq. intros ->. apply Hrole. exact Hr. }
  rewrite Hne. cbn. split; reflexivity.
Qed.

(** What a successful DELETE /users/:computer_number leaves. *)
Lemma delete_user_200 (user : User.t) (d : db) (now : Z) (req : request) :
  status (fst (delete_user_route user d now req)) = 200 ->
  snd (delete_user_route user d now req)
  = delete_user (params req "computer_number") d.
Proof.
  unfold delete_user_route.
  destruct (String.eqb _ _); [discriminate|].
  destruct (user_by_number d (Some (params req "computer_number")));
    [discriminate | reflexivity].
Qed.

(** X4. A deleted user's token stops working: after a successful DELETE
    /users/:computer_number, [authenticate] answers 401 to a token that
    names that user. *)
Theorem deleted_user_is_locked_out
    (d : db) (now now' : Z) (req req' : request) (admin target : User.t) :
  authenticate d now req = Next admin ->
  status (fst (DELETE_user d now req)) = 200 ->
  authenticate d now' req' = Next target ->
  User.computer_number target = params req "computer_number" ->
  exists r,
    authenticate (snd (DELETE_user d now req)) now' req' = Respond r
    /\ status r = 401
    /\ get "error_code" (json_body r) = Some (jstr "USER_NOT_FOUND").
Proof.
  intros Ha Hs Ht Hcn.
  unfold DELETE_user, authorized in Hs |- *. rewrite Ha in Hs |- *.
  destruct (authorize ["admin"] (Some admin)) as [r0|admin'] eqn:Hz.
  { unfold authorize in Hz.
    destruct (negb _); [injection Hz as <-; discriminate Hs | discriminate]. }
  cbn [fst snd] in Hs |- *. rewrite (delete_user_200 _ _ _ _ Hs).
  destruct (authenticate_number _ _ _ _ Ht) as [token [decoded [Hb [Hv' [Hp _]]]]].
  unfold authenticate. rewrite Hb.
  unfold authenticate in Ht. rewrite Hb in Ht.
  destruct (String.eqb token ""); [discriminate|].
  rewrite Hv', Hp.
  assert (Hnone : user_by_number (delete_user (params req "computer_number") d)
                                 (Some (User.computer_number target)) = []).
  { unfold user_by_number, delete_user. cbn [users].
    apply filter_none. intros x Hx. apply filter_In in Hx. destruct Hx as [_ Hx].
    rewrite Hcn. apply negb_true_iff in Hx. exact Hx. }
  rewrite Hnone. eexists. repeat split.
Qed.

(** ** Users: who may read a profile *)

(** X5. GET /users/:computer_number: a caller who is no administrator is
    refused (403) any number but their own, and under their own number
    gets their own row, without the password hash. *)
Theorem profile_is_own_or_admin
    (d : db) (now : Z) (req : request) (u : User.t) :
  authenticate d now req = Next u ->
  (User.role u <> "admin" ->
   params req "computer_number" <> User.computer_number u ->
   status (fst (GET_user d now req)) = 403)
  /\ (params req "computer_number" = User.computer_number u ->
      fst (GET_user d now req)
      = res_json [("success", jbool true); ("data", user_json u)]
      /\ get "password_hash" (user_json u) = None)
  /\ snd (GET_user d now req) = d.
Proof.
  intros Ha.
  destruct (authenticate_number _ _ _ _ Ha) as [_ [_ [_ [_ [_ [rest Hq]]]]]].
  unfold GET_user, authenticated. rewrite Ha. unfold get_user.
  split; [|split].
  - intros Hrole Hp. apply String.eqb_neq in Hrole.
    assert (Hp' : String.eqb (User.computer_number u)
                             (params req "computer_number") = false).
    { apply String.eqb_neq. congruence. }
    rewrite Hrole, Hp'. reflexivity.
  - intros Hp. rewrite Hp, String.eqb_refl, andb_false_r, Hq.
    split; reflexivity.
  - destruct (_ && _)%bool; [reflexivity|].
    destruct (user_by_number d (Some (params req "computer_number")));
      reflexivity.
Qed.

End Guards.

Section Store.
Context {E : Externals} {Dr : Driver} {H : Hashing}.

(** ** What each route may do to the store *)

Ltac split_if :=
  match goal with
  | |- context [if ?c then _ else _] =>
      let Hc := fresh "Hc" in destruct c eqn:Hc
  end.

Ltac falsy_hyps :=
  repeat match goal with
         | Hx : (_ || _)%bool = false |- _ =>
             apply orb_false_iff in Hx; destruct Hx
         | Hx : negb _ = false |- _ => apply negb_false_iff in Hx
         end.

Lemma includes_In (l : list string) (v : jsval) :
  includes l v = true -> exists s, v = JStr s /\ In s l.
Proof.
  destruct v as [| |b|z|s]; try discriminate. cbn [includes]. intros Hi.
  exists s. split; [reflexivity|].
  apply existsb_exists in Hi. destruct Hi as [x [Hx Heq]].
  apply String.eqb_eq in Heq. subst x. exact Hx.
Qed.

Lemma text_of_sql_text (v : jsval) (s : string) :
  sql_text v = Some s -> text_of v = s.
Proof. unfold text_of. intros ->. reflexivity. Qed.

Lemma no_at_in_digits (u : Decimal.uint) :
  split_at "@" (NilEmpty.string_of_uint u) = None.
Proof. induction u; cbn; try rewrite IHu; reflexivity. Qed.

Lemma no_at_in_number (z : Z) : split_at "@" (string_of_Z z) = None.
Proof.
  unfold string_of_Z, NilZero.string_of_int.
  destruct (Z.to_int z) as [u|u]; unfold NilZero.string_of_uint.
  - destruct u; try apply no_at_in_digits. reflexivity.
  - cbn [split_at]. cbn [Ascii.eqb Bool.eqb].
    destruct u; try (rewrite no_at_in_digits; reflexivity). reflexivity.
Qed.

(** Only a string can be an email address. *)
Lemma emailRegex_is_string (v : jsval) :
  emailRegex_test v = true -> exists s, v = JStr s.
Proof.
  destruct v as [| |[|]|z|s]; try discriminate; [|eexists; reflexivity].
  unfold emailRegex_test. cbn [ToString]. rewrite no_at_in_number. discriminate.
Qed.

Lemma POST_complaints_mutation (d : db) (now : Z) (req : request) :
  mutation d (snd (POST_complaints d now req)).
Proof.
  unfold POST_complaints.
  repeat (split_if; [apply nothing|]).
  falsy_hyps.
  match goal with
  | Hx : includes validCategories _ = true |- _ =>
      destruct (includes_In _ _ Hx) as [c [Hc' Hcin]]
  end.
  match goal with
  | Hx : includes validPriorities _ = true |- _ =>
      destruct (includes_In _ _ Hx) as [p [Hp' Hpin]]
  end.
  rewrite Hc', Hp'.
  apply (complaint_inserted d); [exact Hcin | exact Hpin |].
  destruct (truthy (default (body req "anonymous") (JBool false))) eqn:Ha.
  - left. split; reflexivity.
  - right. split; [reflexivity|].
    cbn [negb andb] in *.
    exists (ToString (body req "computer_number")).
    match goal with
    | Hx : negb (truthy (body req "computer_number")) = false |- _ =>
        apply negb_false_iff in Hx; rename Hx into Ht
    end.
    rewrite Ht in *. cbn [negb andb] in *.
    match goal with
    | Hx : negb (computerNumberRegex_test _) = false |- _ =>
        apply negb_false_iff in Hx; rename Hx into Hr
    end.
    split; [exact (ten_digits_text _ Ht Hr) | exact Hr].
Qed.

Lemma PUT_complaint_mutation (d : db) (now : Z) (req : request) :
  mutation d (snd (PUT_complaint d now req)).
Proof.
  unfold PUT_complaint.
  split_if; [apply nothing|].
  destruct (complaint_by_id d (parseInt (params req "id"))); [apply nothing|].
  repeat (split_if; [apply nothing|]).
  cbn [snd]. apply complaint_updated; intros Ht.
  - match goal with
    | Hx : (truthy (body req "status") && _)%bool = false |- _ =>
        rewrite Ht in Hx; cbn [andb] in Hx; apply negb_false_iff in Hx;
        destruct (includes_In _ _ Hx) as [s [-> Hs]]; exact Hs
    end.
  - match goal with
    | Hx : (truthy (body req "priority") && _)%bool = false |- _ =>
        rewrite Ht in Hx; cbn [andb] in Hx; apply negb_false_iff in Hx;
        destruct (includes_In _ _ Hx) as [s [-> Hs]]; exact Hs
    end.
Qed.

Lemma GET_complaints_mutation (d : db) (now : Z) (req : request) :
  mutation d (snd (GET_complaints d now req)).
Proof.
  unfold GET_complaints. open_listing; apply nothing.
Qed.

Lemma GET_complaint_mutation (d : db) (now : Z) (req : request) :
  mutation d (snd (GET_complaint d now req)).
Proof.
  unfold GET_complaint. split_if; [apply nothing|].
  destruct (complaint_by_id d (parseInt (params req "id"))); apply nothing.
Qed.

(** A route behind the middleware changes the store as its handler does,
    or not at all. *)
Lemma authenticated_mutation (handler : User.t -> route)
    (d : db) (now : Z) (req : request) :
  (forall u, mutation d (snd (handler u d now req))) ->
  mutation d (snd (authenticated handler d now req)).
Proof.
  intros Hh. unfold authenticated.
  destruct (authenticate d now req); [apply nothing | apply Hh].
Qed.

Lemma authorized_mutation (roles : list string) (handler : User.t -> route)
    (d : db) (now : Z) (req : request) :
  (forall u, mutation d (snd (handler u d now req))) ->
  mutation d (snd (authorized roles handler d now req)).
Proof.
  intros Hh. unfold authorized.
  destruct (authenticate d now req); [apply nothing|].
  destruct (authorize roles (Some a)); [apply nothing | apply Hh].
Qed.

Lemma users_routes_mutation (u : User.t) (d : db) (now : Z) (req : request) :
  mutation d (snd (get_users u d now req))
  /\ mutation d (snd (get_user u d now req))
  /\ mutation d (snd (put_user_role u d now req))
  /\ mutation d (snd (delete_user_route u d now req)).
Proof.
  repeat split.
  - unfold get_users. open_listing; apply nothing.
  - unfold get_user. split_if; [apply nothing|].
    destruct (user_by_number d (Some (params req "computer_number")));
      apply nothing.
  - unfold put_user_role.
    split_if; [apply nothing|]. split_if; [apply nothing|].
    destruct (user_by_number d (Some (params req "computer_number")));
      [apply nothing|].
    split_if; [apply nothing|].
    falsy_hyps.
    match goal with
    | Hx : includes _ (body req "role") = true |- _ =>
        destruct (includes_In _ _ Hx) as [r [-> Hr]]
    end.
    cbn [snd ToString]. apply role_updated. exact Hr.
  - unfold delete_user_route. split_if; [apply nothing|].
    destruct (user_by_number d (Some (params req "computer_number")));
      [apply nothing | apply user_deleted].
Qed.

Lemma meetings_routes_mutation (u : User.t) (d : db) (now : Z) (req : request) :
  mutation d (snd (post_meeting u d now req))
  /\ mutation d (snd (get_meetings u d now req))
  /\ mutation d (snd (get_meeting u d now req))
  /\ mutation d (snd (put_meeting u d now req))
  /\ mutation d (snd (delete_meeting_route u d now req)).
Proof.
  repeat split.
  - unfold post_meeting.
    split_if; [apply nothing|]. split_if; [apply nothing|].
    destruct (user_by_number d _); [apply nothing|].
    apply (meeting_inserted d).
  - unfold get_meetings. open_listing; apply nothing.
  - unfold get_meeting. split_if; [apply nothing|].
    destruct (join_users d _) as [|[[m o] p] rs]; [apply nothing|].
    split_if; apply nothing.
  - unfold put_meeting.
    split_if; [apply nothing|]. split_if; [apply nothing|].
    destruct (meeting_by_id d _); [apply nothing|].
    split_if; [apply nothing|].
    falsy_hyps.
    match goal with
    | Hx : includes _ (body req "status") = true |- _ =>
        destruct (includes_In _ _ Hx) as [s [-> Hs]]
    end.
    cbn [snd ToString]. apply meeting_status_updated. exact Hs.
  - unfold delete_meeting_route. split_if; [apply nothing|].
    destruct (meeting_by_id d _); [apply nothing|].
    split_if; [apply nothing | apply meeting_deleted].
Qed.

Lemma auth_register_mutation (d : db) (now : Z) (req : request) :
  mutation d (snd (auth_register d now req)).
Proof.
  unfold auth_register.
  repeat (split_if; [apply nothing|]).
  destruct (user_by_number_or_email d _ _) eqn:Hq; [|apply nothing].
  destruct (body req "password"); try apply nothing.
  falsy_hyps.
  match goal with
  | Hx : truthy (body req "computer_number") = true,
    Hy : computerNumberRegex_test (body req "computer_number") = true |- _ =>
      pose proof (ten_digits_text _ Hx Hy) as Hcn; rename Hy into Hten
  end.
  match goal with
  | Hx : emailRegex_test (body req "email") = true |- _ =>
      destruct (emailRegex_is_string _ Hx) as [e He]
  end.
  match goal with
  | Hx : includes validRoles _ = true |- _ =>
      destruct (includes_In _ _ Hx) as [r [Hr Hrin]]
  end.
  cbn [snd]. apply user_inserted.
  - rewrite (text_of_sql_text _ _ Hcn). exact Hten.
  - rewrite Hr. exact Hrin.
  - rewrite (text_of_sql_text _ _ Hcn), <- Hcn.
    rewrite He in *. exact Hq.
Qed.

Lemma auth_other_mutation (d : db) (now : Z) (req : request) :
  mutation d (snd (auth_login d now req))
  /\ mutation d (snd (auth_get_profile d now req))
  /\ mutation d (snd (auth_put_profile d now req))
  /\ mutation d (snd (auth_change_password d now req)).
Proof.
  repeat split.
  - unfold auth_login. split_if; [apply nothing|].
    destruct (user_by_number d _); [apply nothing|].
    destruct (body req "password"); try apply nothing.
    split_if; [apply nothing|].
    destruct (jwt_sign _ _ _ _); apply nothing.
  - unfold auth_get_profile.
    destruct (bearer_token req); [|apply nothing].
    split_if; [apply nothing|].
    destruct (jwt_verify _ _ _).
    + destruct (user_by_number d _); apply nothing.
    + repeat split_if; apply nothing.
  - unfold auth_put_profile.
    destruct (bearer_token req); [|apply nothing].
    split_if; [apply nothing|].
    destruct (jwt_verify _ _ _); [|split_if; apply nothing].
    repeat (split_if; [apply nothing|]).
    cbn [snd]. apply profile_updated. intros Ht.
    match goal with
    | Hx : (truthy (body req "email") && negb (emailRegex_test _))%bool = false
      |- _ =>
        rewrite Ht in Hx; cbn [andb] in Hx; apply negb_false_iff in Hx;
        destruct (emailRegex_is_string _ Hx) as [e He]
    end.
    rewrite He in *. cbn [text_of sql_text] in *.
    match goal with
    | Hx : (truthy (JStr e) && _)%bool = false |- _ =>
        rewrite Ht in Hx; cbn [andb] in Hx
    end.
    match goal with
    | Hx : match ?l with [] => false | _ :: _ => true end = false |- ?l' = [] =>
        destruct l; [reflexivity | discriminate]
    end.
  - unfold auth_change_password.
    destruct (bearer_token req); [|apply nothing].
    split_if; [apply nothing|].
    destruct (jwt_verify _ _ _); [|split_if; apply nothing].
    split_if; [apply nothing|].
    destruct (user_by_number d _); [apply nothing|].
    destruct (body req "current_password"); try apply nothing.
    split_if; [apply nothing|].
    destruct (body req "new_password"); try apply nothing.
    apply password_updated.
Qed.

(** Every route leaves the store as it found it or as one of the
    statements above leaves it. *)
Lemma route_mutation (r : route) (d : db) (now : Z) (req : request) :
  In r all_routes -> mutation d (snd (r d now req)).
Proof.
  pose proof (fun u => users_routes_mutation u d now req) as Hu.
  pose proof (fun u => meetings_routes_mutation u d now req) as Hm.
  pose proof (auth_other_mutation d now req) as Ha.
  intros Hr. cbn in Hr.
  repeat (destruct Hr as [<- | Hr]); try contradiction.
  - apply auth_register_mutation.
  - apply Ha.
  - apply Ha.
  - apply Ha.
  - apply Ha.
  - apply authorized_mutation. intros u. apply Hu.
  - apply authenticated_mutation. intros u. apply Hu.
  - apply authorized_mutation. intros u. apply Hu.
  - apply authorized_mutation. intros u. apply Hu.
  - apply authenticated_mutation. intros u. apply Hm.
  - apply authenticated_mutation. intros u. apply Hm.
  - apply authenticated_mutation. intros u. apply Hm.
  - apply authenticated_mutation. intros u. apply Hm.
  - apply authenticated_mutation. intros u. apply Hm.
  - apply POST_complaints_mutation.
  - apply GET_complaints_mutation.
  - apply GET_complaint_mutation.
  - apply PUT_complaint_mutation.
Qed.

(** ** The tables stay well formed *)

Lemma map_update_same {A B : Type} (g : A -> B) (c : A -> bool) (f : A -> A)
    (l : list A) :
  (forall a, g (f a) = g a) ->
  map g (map (fun a => if c a then f a else a) l) = map g l.
Proof.
  intros Hg. induction l as [|a l IH]; [reflexivity|].
  cbn [map]. rewrite IH. destruct (c a); [rewrite Hg|]; reflexivity.
Qed.

Lemma Forall_update {A : Type} (P : A -> Prop) (c : A -> bool) (f : A -> A)
    (l : list A) :
  Forall P l -> (forall a, P a -> c a = true -> P (f a)) ->
  Forall P (map (fun a => if c a then f a else a) l).
Proof.
  intros Hl Hf. induction Hl as [|a l Ha Hl IH]; cbn [map]; constructor;
    [|exact IH].
  destruct (c a) eqn:Hc; [apply Hf; assumption | exact Ha].
Qed.

Lemma NoDup_map_filter {A B : Type} (g : A -> B) (c : A -> bool) (l : list A) :
  NoDup (map g l) -> NoDup (map g (filter c l)).
Proof.
  induction l as [|a l IH]; intros Hnd; [constructor|].
  cbn [map] in Hnd. inversion Hnd as [|x xs Hnotin Hnd']; subst.
  cbn [filter]. destruct (c a); [|apply IH; exact Hnd'].
  cbn [map]. constructor; [|apply IH; exact Hnd'].
  intros Hin. apply Hnotin. apply in_map_iff in Hin.
  destruct Hin as [b [Hb Hin]]. apply filter_In in Hin.
  apply in_map_iff. exists b. tauto.
Qed.

Lemma Forall_filter {A : Type} (P : A -> Prop) (c : A -> bool) (l : list A) :
  Forall P l -> Forall P (filter c l).
Proof.
  intros Hl. apply Forall_forall. intros x Hx. apply filter_In in Hx.
  exact (proj1 (Forall_forall P l) Hl x (proj1 Hx)).
Qed.

Lemma NoDup_snoc {A : Type} (l : list A) (x : A) :
  NoDup l -> ~ In x l -> NoDup (l ++ [x]).
Proof.
  intros Hl Hx. induction Hl as [|a l Ha Hl IH]; cbn [app].
  - constructor; [intros [] | constructor].
  - constructor.
    + intros Hin. apply in_app_or in Hin. destruct Hin as [Hin | [-> | []]].
      * exact (Ha Hin).
      * apply Hx. left. reflexivity.
    + apply IH. intros Hin. apply Hx. right. exact Hin.
Qed.

Lemma filter_nil_forall {A : Type} (c : A -> bool) (l : list A) :
  filter c l = [] -> forall x, In x l -> c x = false.
Proof.
  intros Hf x Hx. destruct (c x) eqn:Hc; [|reflexivity].
  assert (Hin : In x (filter c l)) by (apply filter_In; tauto).
  rewrite Hf in Hin. contradiction.
Qed.

(** Giving one user an address no other user has keeps the addresses
    distinct. *)
Lemma NoDup_email_update (first_name last_name email phone : jsval)
    (number : option string) (l : list User.t) :
  NoDup (map User.computer_number l) ->
  NoDup (map User.email l) ->
  (truthy email = true ->
   forall u, In u l ->
     (col_eq (User.email u) (Some (text_of email))
      && col_ne (User.computer_number u) number)%bool = false) ->
  NoDup (map User.email
           (map (fun u => if col_eq (User.computer_number u) number
                          then update_profile_row first_name last_name email
                                 phone u
                          else u) l)).
Proof.
  destruct (truthy email) eqn:Ht.
  2:{ intros _ Hnd _. rewrite map_update_same; [exact Hnd|].
      intros a. unfold update_profile_row. cbn. rewrite Ht. reflexivity. }
  intros Hcn Hem Hfree. specialize (Hfree eq_refl).
  destruct number as [n|].
  2:{ cbn [col_eq]. rewrite map_id. exact Hem. }
  induction l as [|a l IH]; [constructor|].
  cbn [map] in Hcn, Hem |- *.
  inversion Hcn as [|x xs Hcn_a Hcn_l]; subst.
  inversion Hem as [|x xs Hem_a Hem_l]; subst.
  assert (IH' := IH Hcn_l Hem_l (fun u Hu => Hfree u (or_intror Hu))).
  constructor; [|exact IH'].
  intros Hin. apply in_map_iff in Hin. destruct Hin as [b' [Hb' Hin]].
  apply in_map_iff in Hin. destruct Hin as [b [Hb Hin]]. subst b'.
  assert (Hfb := Hfree b (or_intror Hin)).
  assert (Hfa := Hfree a (or_introl eq_refl)).
  cbn [col_eq col_ne] in *.
  destruct (String.eqb (User.computer_number a) n) eqn:Han;
    destruct (String.eqb (User.computer_number b) n) eqn:Hbn.
  - apply String.eqb_eq in Han, Hbn. apply Hcn_a.
    apply in_map_iff. exists b. split; [congruence | exact Hin].
  - unfold update_profile_row in Hb'. cbn [User.email] in Hb'. rewrite Ht in Hb'.
    cbn [negb] in Hfb. rewrite andb_true_r in Hfb.
    apply String.eqb_neq in Hfb. congruence.
  - unfold update_profile_row in Hb'. cbn [User.email] in Hb'. rewrite Ht in Hb'.
    cbn [negb] in Hfa. rewrite andb_true_r in Hfa.
    apply String.eqb_neq in Hfa. congruence.
  - apply Hem_a. apply in_map_iff. exists b. split; [exact Hb' | exact Hin].
Qed.

Lemma users_ok_mutation (d d' : db) :
  mutation d d' -> users_ok d -> users_ok d'.
Proof.
  intros Hm [Hcn [Hem Hall]]. destruct Hm; unfold users_ok;
    unfold insert_user, update_user_role, delete_user, update_profile,
    update_password, update_meeting_status, delete_meeting, update_complaint,
    insert_meeting, insert_complaint;
    cbn [users snd].
  - tauto.
  - match goal with
    | Hx : user_by_number_or_email d _ _ = [] |- _ =>
        pose proof (filter_nil_forall _ _ Hx) as Hfree
    end.
    rewrite !map_app. cbn [map User.computer_number User.email].
    repeat split.
    + apply NoDup_snoc; [exact Hcn|]. intros Hin. apply in_map_iff in Hin.
      destruct Hin as [u [Hu Hin]]. specialize (Hfree u Hin). cbn beta in Hfree.
      apply orb_false_iff in Hfree. destruct Hfree as [Hf _].
      apply String.eqb_neq in Hf. congruence.
    + apply NoDup_snoc; [exact Hem|]. intros Hin. apply in_map_iff in Hin.
      destruct Hin as [u [Hu Hin]]. specialize (Hfree u Hin). cbn beta in Hfree.
      apply orb_false_iff in Hfree. destruct Hfree as [_ Hf].
      apply String.eqb_neq in Hf. congruence.
    + apply Forall_app. split; [exact Hall|]. constructor; [|constructor].
      cbn. tauto.
  - rewrite !map_update_same by reflexivity. repeat split; try assumption.
    apply Forall_update; [exact Hall|]. intros a [Ha _] _. cbn. tauto.
  - repeat split; try apply NoDup_map_filter; try assumption.
    apply Forall_filter. exact Hall.
  - repeat split.
    + rewrite map_update_same by reflexivity. exact Hcn.
    + apply NoDup_email_update; try assumption.
      intros Ht u Hu.
      match goal with
      | Hx : truthy email = true -> filter _ _ = [] |- _ =>
          exact (filter_nil_forall _ _ (Hx Ht) u Hu)
      end.
    + apply Forall_update; [exact Hall|]. intros a Ha _. exact Ha.
  - rewrite !map_update_same by reflexivity. repeat split; try assumption.
    apply Forall_update; [exact Hall|]. intros a Ha _. exact Ha.
  - tauto.
  - tauto.
  - tauto.
  - tauto.
  - tauto.
Qed.

Lemma meetings_ok_mutation (d d' : db) :
  mutation d d' -> meetings_ok d -> meetings_ok d'.
Proof.
  intros Hm [Hid Hall]. destruct Hm; unfold meetings_ok;
    unfold insert_user, update_user_role, delete_user, update_profile,
    update_password, update_meeting_status, delete_meeting, update_complaint,
    insert_meeting, insert_complaint;
    cbn [meetings meetings_next_id snd];
    try (split; assumption).
  - rewrite map_app. cbn [map Meeting.meeting_id]. split.
    + apply NoDup_snoc; [exact Hid|]. intros Hin. apply in_map_iff in Hin.
      destruct Hin as [m [Hm Hin]].
      pose proof (proj1 (Forall_forall _ _) Hall m Hin) as [Hlt _]. lia.
    + apply Forall_app. split.
      * eapply Forall_impl; [|exact Hall]. cbn beta. intros m [Hlt Hs].
        split; [lia | exact Hs].
      * constructor; [|constructor]. cbn. split; [lia | tauto].
  - rewrite map_update_same by reflexivity. split; [exact Hid|].
    apply Forall_update; [exact Hall|]. intros a [Ha _] _. cbn. tauto.
  - split; [apply NoDup_map_filter; exact Hid | apply Forall_filter; exact Hall].
Qed.

Lemma complaints_ok_mutation (d d' : db) :
  mutation d d' -> complaints_ok d -> complaints_ok d'.
Proof.
  intros Hm [Hid Hall]. destruct Hm; unfold complaints_ok;
    unfold insert_user, update_user_role, delete_user, update_profile,
    update_password, update_meeting_status, delete_meeting, update_complaint,
    insert_meeting, insert_complaint;
    cbn [complaints complaints_next_id snd];
    try (split; assumption).
  - rewrite map_app. cbn [map Complaint.complaint_id]. split.
    + apply NoDup_snoc; [exact Hid|]. intros Hin. apply in_map_iff in Hin.
      destruct Hin as [c [Hc Hin]].
      pose proof (proj1 (Forall_forall _ _) Hall c Hin) as [Hlt _]. lia.
    + apply Forall_app. split.
      * eapply Forall_impl; [|exact Hall]. unfold complaint_ok.
        intros c [Hlt Hrest]. split; [lia | exact Hrest].
      * constructor; [|constructor]. unfold complaint_ok. cbn.
        repeat split; try assumption; try lia; tauto.
  - rewrite map_update_same by reflexivity. split; [exact Hid|].
    apply Forall_update; [exact Hall|].
    unfold complaint_ok, update_complaint_row.
    intros a [Ha [Hs [Hp [Hc Hn]]]] _.
    cbn [Complaint.complaint_id Complaint.status Complaint.priority
         Complaint.category Complaint.anonymous Complaint.computer_number].
    split; [exact Ha|].
    split; [|split; [|split; assumption]];
      match goal with
      | |- In (if truthy ?v then _ else _) _ =>
          destruct (truthy v) eqn:Ht; auto
      end.
Qed.

(** X6. On a request whose first_name, last_name and phone (the fields PUT
    /auth/profile writes as they come) are strings or absent, every route
    keeps the users table well formed: computer numbers distinct and of
    ten digits, email addresses distinct, every role one of admin,
    lecturer, student. *)
Theorem users_table_stays_well_formed
    (r : route) (d : db) (now : Z) (req : request) :
  In r all_routes ->
  string_or_absent (body req "first_name") ->
  string_or_absent (body req "last_name") ->
  string_or_absent (body req "phone") ->
  users_ok d -> users_ok (snd (r d now req)).
Proof.
  intros Hr _ _ _. apply users_ok_mutation. apply route_mutation. exact Hr.
Qed.

(** X7. Every route keeps the meetings table well formed: keys distinct and
    below the next key to be given out, every status one of pending,
    confirmed, cancelled. *)
Theorem meetings_table_stays_well_formed
    (r : route) (d : db) (now : Z) (req : request) :
  In r all_routes -> meetings_ok d -> meetings_ok (snd (r d now req)).
Proof.
  intros Hr. apply meetings_ok_mutation. apply route_mutation. exact Hr.
Qed.

(** X8. On a request whose admin_response and admin_notes (the fields PUT
    /complaints/:id writes as they come) are strings or absent, every
    route keeps the complaints table well formed: keys distinct and below
    the next key, status, priority and category each one of the valid
    values, and a row either anonymous with no computer number or signed
    with a number of ten digits. *)
Theorem complaints_table_stays_well_formed
    (r : route) (d : db) (now : Z) (req : request) :
  In r all_routes ->
  string_or_absent (body req "admin_response") ->
  string_or_absent (body req "admin_notes") ->
  complaints_ok d -> complaints_ok (snd (r d now req)).
Proof.
  intros Hr _ _. apply complaints_ok_mutation. apply route_mutation. exact Hr.
Qed.

(** X9. On a request whose admin_response and admin_notes are strings or
    absent, no route removes a complaint or changes who submitted it, its
    title, its description or its category: every row is still there
    afterwards under its key, with these columns as they were. *)
Theorem complaints_are_never_lost
    (r : route) (d : db) (now : Z) (req : request) (c : Complaint.t) :
  In r all_routes ->
  string_or_absent (body req "admin_response") ->
  string_or_absent (body req "admin_notes") ->
  In c (complaints d) ->
  exists c',
    In c' (complaints (snd (r d now req)))
    /\ Complaint.complaint_id c' = Complaint.complaint_id c
    /\ Complaint.computer_number c' = Complaint.computer_number c
    /\ Complaint.title c' = Complaint.title c
    /\ Complaint.description c' = Complaint.description c
    /\ Complaint.category c' = Complaint.category c
    /\ Complaint.created_at c' = Complaint.created_at c.
Proof.
  intros Hr _ _ Hin. pose proof (route_mutation r d now req Hr) as Hm.
  destruct Hm;
    unfold insert_user, update_user_role, delete_user, update_profile,
    update_password, update_meeting_status, delete_meeting, update_complaint,
    insert_meeting, insert_complaint;
    cbn [complaints snd];
    try (exists c; repeat split; assumption).
  - exists c. repeat split. apply in_or_app. left. exact Hin.
  - eexists. split; [apply in_map; exact Hin|]. cbn beta.
    destruct (id_eq (Complaint.complaint_id c) id); repeat split.
Qed.

End Store.

Section Accounts_flows.
Context {E : Externals} {Dr : Driver} {H : Hashing}.

(** ** Registration, login, password *)

Lemma user_by_number_app (us vs : list User.t) (cs : list Complaint.t)
    (ms : list Meeting.t) (a b : Z) (p : option string) :
  user_by_number (mkdb (us ++ vs) cs ms a b) p
  = (user_by_number (mkdb us cs ms a b) p
     ++ filter (fun u => col_eq (User.computer_number u) p) vs)%list.
Proof. unfold user_by_number. cbn [users]. apply filter_app. Qed.

(** What a successful registration has checked and leaves. *)
Lemma auth_register_201 (d : db) (now : Z) (req : request) :
  status (fst (auth_register d now req)) = 201 ->
  exists pw number,
    body req "password" = JStr pw /\ pw <> ""
    /\ truthy (body req "computer_number") = true
    /\ sql_text (body req "computer_number") = Some number
    /\ ten_digits number = true
    /\ includes validRoles (default (body req "role") (JStr "student")) = true
    /\ user_by_number_or_email d (Some number) (sql_text (body req "email")) = []
    /\ snd (auth_register d now req)
       = insert_user (body req "computer_number")
           (default (body req "role") (JStr "student"))
           (body req "first_name") (body req "last_name") (body req "email")
           (body req "phone") (bcrypt_hash pw 12) now d.
Proof.
  unfold auth_register.
  destruct (negb (truthy (body req "computer_number")) || _ || _ || _ || _ || _)%bool
    eqn:H1; [discriminate|].
  destruct (negb (computerNumberRegex_test _)) eqn:H2; [discriminate|].
  destruct (negb (emailRegex_test _)) eqn:H3; [discriminate|].
  destruct (negb (includes validRoles _)) eqn:H4; [discriminate|].
  destruct (user_by_number_or_email d _ _) eqn:Hq; [|discriminate].
  destruct (body req "password") as [| |b|z|pw] eqn:Hpw; try discriminate.
  intros _.
  repeat match goal with
         | Hx : (_ || _)%bool = false |- _ =>
             apply orb_false_iff in Hx; destruct Hx
         | Hx : negb _ = false |- _ => apply negb_false_iff in Hx
         end.
  match goal with
  | Hx : truthy (body req "computer_number") = true,
    Hy : computerNumberRegex_test (body req "computer_number") = true |- _ =>
      pose proof (ten_digits_text _ Hx Hy) as Hcn; rename Hy into Hten
  end.
  exists pw, (ToString (body req "computer_number")).
  split; [reflexivity|]. split.
  { intros ->. match goal with Hx : truthy (JStr "") = true |- _ => discriminate Hx end. }
  split; [assumption|].
  split; [exact Hcn|]. split; [exact Hten|]. split; [assumption|].
  split; [rewrite <- Hcn; exact Hq | reflexivity].
Qed.

(** X10. Registration refuses a number or an address that is taken: with every
    field given and well formed, a request naming the computer number or
    the email of a stored user is answered 409 and stores nothing. *)
Theorem register_duplicate_conflict
    (d : db) (now : Z) (req : request) (u : User.t) :
  truthy (body req "computer_number") = true ->
  truthy (body req "first_name") = true ->
  truthy (body req "last_name") = true ->
  truthy (body req "email") = true ->
  truthy (body req "phone") = true ->
  truthy (body req "password") = true ->
  computerNumberRegex_test (body req "computer_number") = true ->
  emailRegex_test (body req "email") = true ->
  includes validRoles (default (body req "role") (JStr "student")) = true ->
  In u (users d) ->
  sql_text (body req "computer_number") = Some (User.computer_number u)
  \/ sql_text (body req "email") = Some (User.email u) ->
  status (fst (auth_register d now req)) = 409
  /\ get "error_code" (json_body (fst (auth_register d now req)))
     = Some (jstr "USER_EXISTS")
  /\ snd (auth_register d now req) = d.
Proof.
  intros H1 H2 H3 H4 H5 H6 H7 H8 H9 Hin Hdup.
  unfold auth_register. rewrite H1, H2, H3, H4, H5, H6, H7, H8, H9.
  cbn [negb orb].
  destruct (user_by_number_or_email d _ _) as [|x xs] eqn:Hq.
  - exfalso.
    assert (Hx : In u (user_by_number_or_email d
                         (sql_text (body req "computer_number"))
                         (sql_text (body req "email")))).
    { unfold user_by_number_or_email. apply filter_In. split; [exact Hin|].
      apply orb_true_iff.
      destruct Hdup as [-> | ->]; [left | right]; apply String.eqb_refl. }
    rewrite Hq in Hx. exact Hx.
  - repeat split.
Qed.

(** X11. Register, then log in: after a registration answered 201, a login
    with the same computer number and password is answered 200 with a
    token signed over the new user's number, role and email, given that
    bcrypt accepts a password against its own hash and that signing
    works. *)
Theorem register_then_login
    (d : db) (now now' : Z) (req req' : request) :
  status (fst (auth_register d now req)) = 201 ->
  body req' "computer_number" = body req "computer_number" ->
  body req' "password" = body req "password" ->
  (forall pw, bcrypt_compare pw (bcrypt_hash pw 12) = true) ->
  (forall claims, jwt_sign claims JWT_SECRET expires_in now' <> None) ->
  status (fst (auth_login (snd (auth_register d now req)) now' req')) = 200
  /\ exists token data,
       jwt_sign
         [("computer_number", JStr (text_of (body req "computer_number")));
          ("role", JStr (text_of (default (body req "role") (JStr "student"))));
          ("email", JStr (text_of (body req "email")))]
         JWT_SECRET expires_in now' = Some token
       /\ get "data" (json_body (fst (auth_login (snd (auth_register d now req))
                                                 now' req'))) = Some data
       /\ get "token" data = Some (jstr token).
Proof.
  intros H201 Hcn Hpw Hbcrypt Hsign.
  destruct (auth_register_201 _ _ _ H201)
    as [pw [number [Hp [Hp0 [Ht [Hn [Hten [Hrole [Hfree Hd]]]]]]]]].
  rewrite Hd. unfold auth_login. rewrite Hcn, Hpw, Hp, Hn.
  rewrite Ht. cbn [truthy]. apply String.eqb_neq in Hp0. rewrite Hp0.
  cbn [negb orb].
  unfold insert_user. destruct d as [us cs ms a b]. cbn [users complaints meetings
    complaints_next_id meetings_next_id] in *.
  rewrite user_by_number_app.
  assert (Hold : user_by_number (mkdb us cs ms a b) (Some number) = []).
  { unfold user_by_number. apply filter_none. intros x Hx.
    pose proof (filter_nil_forall _ _ Hfree x Hx) as Hf. cbn beta in Hf.
    apply orb_false_iff in Hf. tauto. }
  rewrite Hold. cbn [app filter User.computer_number col_eq].
  rewrite (text_of_sql_text _ _ Hn), String.eqb_refl.
  cbn [User.password_hash]. rewrite Hbcrypt. cbn [negb].
  unfold token_claims. cbn [User.computer_number User.role User.email].
  rewrite <- (text_of_sql_text _ _ Hn).
  match goal with
  | |- context [jwt_sign ?c JWT_SECRET expires_in now'] =>
      destruct (jwt_sign c JWT_SECRET expires_in now') as [token|] eqn:Hs;
      [|exfalso; exact (Hsign _ Hs)]
  end.
  split; [reflexivity|]. exists token. eexists. split; [reflexivity|].
  split; reflexivity.
Qed.

(** X12. Registration asks nobody's leave for a role: after a registration
    answered 201 whose body gives role 'admin', a request that
    [authenticate] accepts under the new number passes
    authorize(['admin']) and reaches the handler of any admin-only route. *)
Theorem registration_grants_any_role
    (d : db) (now now' : Z) (req req' : request) (u : User.t)
    (handler : User.t -> route) :
  status (fst (auth_register d now req)) = 201 ->
  body req "role" = JStr "admin" ->
  authenticate (snd (auth_register d now req)) now' req' = Next u ->
  Some (User.computer_number u) = sql_text (body req "computer_number") ->
  User.role u = "admin"
  /\ authorized ["admin"] handler (snd (auth_register d now req)) now' req'
     = handler u (snd (auth_register d now req)) now' req'.
Proof.
  intros H201 Hrole Ha Hcn.
  destruct (auth_register_201 _ _ _ H201)
    as [pw [number [Hp [Hp0 [Ht [Hn [Hten [_ [Hfree Hd]]]]]]]]].
  assert (Hu : User.role u = "admin").
  { pose proof (authenticate_Next _ _ _ _ Ha) as Hin.
    rewrite Hd in Hin. unfold insert_user in Hin. cbn [users] in Hin.
    apply in_app_or in Hin. destruct Hin as [Hin | [<- | []]].
    - exfalso. pose proof (filter_nil_forall _ _ Hfree u Hin) as Hf.
      cbn beta in Hf. apply orb_false_iff in Hf. destruct Hf as [Hf _].
      rewrite Hn in Hcn. injection Hcn as Hcn. rewrite Hcn in Hf.
      cbn in Hf. rewrite String.eqb_refl in Hf. discriminate.
    - cbn [User.role]. rewrite Hrole. reflexivity. }
  split; [exact Hu|].
  unfold authorized. rewrite Ha. unfold authorize. rewrite Hu. reflexivity.
Qed.

Lemma user_by_number_update_password (h : string) (number p : option string)
    (d : db) :
  user_by_number (update_password h number d) p
  = map (fun u => if col_eq (User.computer_number u) number
                  then set_password_hash h u else u)
        (user_by_number d p).
Proof.
  unfold user_by_number, update_password. cbn [users].
  induction (users d) as [|a l IH]; [reflexivity|].
  cbn [map filter].
  assert (Hcn : User.computer_number
                  (if col_eq (User.computer_number a) number
                   then set_password_hash h a else a) = User.computer_number a).
  { destruct (col_eq (User.computer_number a) number); reflexivity. }
  rewrite Hcn. destruct (col_eq (User.computer_number a) p);
    cbn [map]; rewrite IH; reflexivity.
Qed.

(** X13. Change the password, then log in: after a change answered 200, the
    stored hash of the token's user is the hash of the new password, a login
    with the new password is answered 200, and a login with another
    (non-empty) password, one bcrypt rejects against the new hash, is
    answered 401. *)
Theorem password_change_then_login
    (d : db) (now now' : Z) (req req' : request)
    (token number new : string) (decoded : list (string * jsval)) :
  bearer_token req = Some token ->
  jwt_verify token JWT_SECRET now = Decoded decoded ->
  sql_text (claim "computer_number" decoded) = Some number ->
  number <> "" ->
  body req "new_password" = JStr new ->
  status (fst (auth_change_password d now req)) = 200 ->
  body req' "computer_number" = JStr number ->
  (forall pw, bcrypt_compare pw (bcrypt_hash pw 12) = true) ->
  (forall claims, jwt_sign claims JWT_SECRET expires_in now' <> None) ->
  (body req' "password" = JStr new ->
   status (fst (auth_login (snd (auth_change_password d now req)) now' req'))
   = 200)
  /\ (forall other,
        body req' "password" = JStr other -> other <> "" ->
        bcrypt_compare other (bcrypt_hash new 12) = false ->
        status (fst (auth_login (snd (auth_change_password d now req)) now' req'))
        = 401).
Proof.
  intros Hb Hv Hn Hn0 Hnew H200 Hcn Hbcrypt Hsign.
  unfold auth_change_password in H200 |- *. rewrite Hb, Hv, Hn, Hnew in *.
  destruct (String.eqb token ""); [discriminate|].
  destruct (negb (truthy (body req "current_password")) || negb (truthy (JStr new)))%bool
    eqn:Hreq; [discriminate|].
  apply orb_false_iff in Hreq. destruct Hreq as [_ Hnt].
  apply negb_false_iff in Hnt. cbn [truthy] in Hnt.
  destruct (user_by_number d (Some number)) as [|u rest] eqn:Hq; [discriminate|].
  destruct (body req "current_password") as [| |b|z|cur]; try discriminate.
  destruct (negb (bcrypt_compare cur (User.password_hash u))); [discriminate|].
  cbn [snd].
  assert (Hfind : user_by_number (update_password (bcrypt_hash new 12)
                                    (Some number) d) (Some number)
                  = set_password_hash (bcrypt_hash new 12) u
                    :: map (fun u => if col_eq (User.computer_number u) (Some number)
                                     then set_password_hash (bcrypt_hash new 12) u
                                     else u) rest).
  { rewrite user_by_number_update_password, Hq. cbn [map].
    assert (Hin : In u (user_by_number d (Some number))) by (rewrite Hq; left; reflexivity).
    unfold user_by_number in Hin. apply filter_In in Hin. destruct Hin as [_ Hc].
    rewrite Hc. reflexivity. }
  apply String.eqb_neq in Hn0.
  split.
  - intros Hpw. unfold auth_login. rewrite Hcn, Hpw. cbn [truthy sql_text].
    rewrite Hn0, Hnt. cbn [negb orb]. rewrite Hfind.
    cbn [User.password_hash set_password_hash]. rewrite Hbcrypt. cbn [negb].
    match goal with
    | |- context [jwt_sign ?c JWT_SECRET expires_in now'] =>
        destruct (jwt_sign c JWT_SECRET expires_in now') as [tok|] eqn:Hs;
        [reflexivity | exfalso; exact (Hsign _ Hs)]
    end.
  - intros other Hpw Ho Hrej. unfold auth_login. rewrite Hcn, Hpw.
    cbn [truthy sql_text]. apply String.eqb_neq in Ho. rewrite Hn0, Ho.
    cbn [negb orb]. rewrite Hfind. cbn [User.password_hash set_password_hash].
    rewrite Hrej. reflexivity.
Qed.

(** X14. PUT /auth/profile refuses an address another user has: with a valid
    token, an email that is well formed and is stored for a user other
    than the token's is answered 409, and nothing is updated. *)
Theorem profile_email_conflict
    (d : db) (now : Z) (req : request) (token number e : string)
    (decoded : list (string * jsval)) (u : User.t) :
  bearer_token req = Some token ->
  token <> "" ->
  jwt_verify token JWT_SECRET now = Decoded decoded ->
  sql_text (claim "computer_number" decoded) = Some number ->
  body req "email" = JStr e ->
  emailRegex_test (JStr e) = true ->
  In u (users d) ->
  User.email u = e ->
  User.computer_number u <> number ->
  status (fst (auth_put_profile d now req)) = 409
  /\ snd (auth_put_profile d now req) = d.
Proof.
  intros Hb Ht Hv Hn He Hre Hin Hem Hcn.
  unfold auth_put_profile. rewrite Hb. apply String.eqb_neq in Ht. rewrite Ht.
  rewrite Hv, Hn, He, Hre.
  assert (Hte : truthy (JStr e) = true).
  { cbn. destruct e; [discriminate Hre | reflexivity]. }
  rewrite Hte. cbn [negb andb sql_text].
  destruct (filter _ (users d)) as [|x xs] eqn:Hq.
  - exfalso.
    pose proof (filter_nil_forall _ _ Hq u Hin) as Hf. cbn beta in Hf.
    cbn [col_eq col_ne] in Hf. rewrite Hem, String.eqb_refl in Hf.
    apply String.eqb_neq in Hcn. rewrite Hcn in Hf. discriminate.
  - split; reflexivity.
Qed.

End Accounts_flows.

Section Meetings_and_complaints.
Context {E : Externals} {Dr : Driver}.

(** ** Meetings *)




(** X16. The participant of a meeting, no administrator and not its organizer,
    may set its status (200, the stored status is the one asked for) and
    may not delete it (403, nothing deleted). *)
Theorem participant_updates_but_cannot_delete
    (d : db) (now : Z) (req : request) (u : User.t) (m : Meeting.t)
    (st : string) :
  authenticate d now req = Next u ->
  User.role u <> "admin" ->
  NoDup (map Meeting.meeting_id (meetings d)) ->
  In m (meetings d) ->
  parseInt (params req "id") = Int (Meeting.meeting_id m) ->
  Meeting.participant_computer_number m = User.computer_number u ->
  Meeting.organizer_computer_number m <> User.computer_number u ->
  body req "status" = JStr st ->
  In st meetingStatuses ->
  (status (fst (PUT_meeting d now req)) = 200
   /\ meeting_by_id (snd (PUT_meeting d now req)) (Int (Meeting.meeting_id m))
      = [set_meeting_status st m])
  /\ (status (fst (DELETE_meeting d now req)) = 403
      /\ snd (DELETE_meeting d now req) = d).
Proof.
  intros Ha Hrole Hkey Hin Hid Hpart Horg Hst Hvalid.
  pose proof (meeting_by_id_unique d m Hkey Hin) as Hfind.
  apply String.eqb_neq in Hrole, Horg.
  assert (Hinc : includes ["pending"; "confirmed"; "cancelled"] (JStr st) = true).
  { cbn [includes]. apply existsb_exists. exists st. split; [exact Hvalid|].
    apply String.eqb_refl. }
  split.
  - unfold PUT_meeting, authenticated. rewrite Ha. unfold put_meeting.
    rewrite Hst, Hinc, Hid, Hfind. cbn [negb isNaN Int].
    rewrite Hrole, Hpart, String.eqb_refl. cbn [orb negb fst snd ToString].
    split; [reflexivity|].
    unfold meeting_by_id, update_meeting_status. cbn [meetings].
    unfold meeting_by_id in Hfind.
    clear - Hfind. induction (meetings d) as [|a l IH]; [discriminate|].
    cbn [map filter] in Hfind |- *.
    destruct (id_eq (Meeting.meeting_id a) (Int (Meeting.meeting_id m))) eqn:Hc.
    + cbn [set_meeting_status Meeting.meeting_id]. rewrite Hc.
      injection Hfind as -> Hrest. f_equal.
      apply filter_none. intros x Hx. apply in_map_iff in Hx.
      destruct Hx as [y [<- Hy]].
      assert (Hy' : id_eq (Meeting.meeting_id y) (Int (Meeting.meeting_id m)) = false).
      { destruct (id_eq (Meeting.meeting_id y) (Int (Meeting.meeting_id m))) eqn:Hyc;
          [|reflexivity].
        assert (Hyin : In y (filter (fun m0 => id_eq (Meeting.meeting_id m0)
                                      (Int (Meeting.meeting_id m))) l))
          by (apply filter_In; tauto).
        rewrite Hrest in Hyin. contradiction. }
      rewrite Hy'. exact Hy'.
    + rewrite Hc. apply IH. exact Hfind.
  - unfold DELETE_meeting, authenticated. rewrite Ha. unfold delete_meeting_route.
    rewrite Hid, Hfind. cbn [isNaN Int]. rewrite Hrole, Horg. split; reflexivity.
Qed.

(** X17. The organizer of a meeting, no administrator and not its participant,
    may delete it (200, the meeting is gone) and may not set its status
    (403, nothing changed). *)
Theorem organizer_deletes_but_cannot_update
    (d : db) (now : Z) (req : request) (u : User.t) (m : Meeting.t) :
  authenticate d now req = Next u ->
  User.role u <> "admin" ->
  NoDup (map Meeting.meeting_id (meetings d)) ->
  In m (meetings d) ->
  parseInt (params req "id") = Int (Meeting.meeting_id m) ->
  Meeting.organizer_computer_number m = User.computer_number u ->
  Meeting.participant_computer_number m <> User.computer_number u ->
  (status (fst (DELETE_meeting d now req)) = 200
   /\ meeting_by_id (snd (DELETE_meeting d now req)) (Int (Meeting.meeting_id m))
      = []
   /\ forall m', In m' (meetings d) ->
                 Meeting.meeting_id m' <> Meeting.meeting_id m ->
                 In m' (meetings (snd (DELETE_meeting d now req))))
  /\ (includes ["pending"; "confirmed"; "cancelled"] (body req "status") = true ->
      status (fst (PUT_meeting d now req)) = 403
      /\ snd (PUT_meeting d now req) = d).
Proof.
  intros Ha Hrole Hkey Hin Hid Horg Hpart.
  pose proof (meeting_by_id_unique d m Hkey Hin) as Hfind.
  apply String.eqb_neq in Hrole, Hpart.
  split.
  - unfold DELETE_meeting, authenticated. rewrite Ha. unfold delete_meeting_route.
    rewrite Hid, Hfind. cbn [isNaN Int].
    rewrite Hrole, Horg, String.eqb_refl. cbn [orb negb fst snd].
    split; [reflexivity|]. split.
    + unfold meeting_by_id, delete_meeting. cbn [meetings].
      apply filter_none. intros x Hx. apply filter_In in Hx.
      destruct Hx as [_ Hx]. apply negb_true_iff in Hx. exact Hx.
    + intros m' Hm' Hne. unfold delete_meeting. cbn [meetings].
      apply filter_In. split; [exact Hm'|]. apply negb_true_iff.
      rewrite id_eq_Int. apply Z.eqb_neq. exact Hne.
  - intros Hinc. unfold PUT_meeting, authenticated. rewrite Ha. unfold put_meeting.
    rewrite Hinc, Hid, Hfind. cbn [negb isNaN Int].
    rewrite Hrole, Hpart. split; reflexivity.
Qed.

(** ** Complaints *)


(** X19. Resolving a complaint: PUT /complaints/:id with status 'resolved', no
    priority, and an admin_response and admin_notes that are strings or
    absent, on an existing complaint is answered 200 and leaves that row
    resolved, with resolved_at and updated_at set to the time of the
    request and the submitter, title, description and category as they
    were; every other complaint is left as it was. *)
Theorem resolving_stamps_the_row
    (d : db) (now : Z) (req : request) (c : Complaint.t) :
  NoDup (map Complaint.complaint_id (complaints d)) ->
  In c (complaints d) ->
  parseInt (params req "id") = Int (Complaint.complaint_id c) ->
  body req "status" = JStr "resolved" ->
  body req "priority" = JUndef ->
  string_or_absent (body req "admin_response") ->
  string_or_absent (body req "admin_notes") ->
  status (fst (PUT_complaint d now req)) = 200
  /\ (exists c',
        complaint_by_id (snd (PUT_complaint d now req))
                        (Int (Complaint.complaint_id c)) = [c']
        /\ Complaint.status c' = "resolved"
        /\ Complaint.resolved_at c' = Some now
        /\ Complaint.updated_at c' = Some now
        /\ Complaint.priority c' = Complaint.priority c
        /\ Complaint.computer_number c' = Complaint.computer_number c
        /\ Complaint.title c' = Complaint.title c
        /\ Complaint.category c' = Complaint.category c)
  /\ forall other,
       In other (complaints d) ->
       Complaint.complaint_id other <> Complaint.complaint_id c ->
       In other (complaints (snd (PUT_complaint d now req))).
Proof.
  intros Hkey Hin Hid Hst Hpr _ _.
  pose proof (complaint_by_id_unique d c Hkey Hin) as Hfind.
  assert (Hne : String.eqb (params req "id") "" = false).
  { destruct (params req "id"); [discriminate Hid | reflexivity]. }
  unfold PUT_complaint. rewrite Hid, Hne, Hst, Hpr. cbn [isNaN Int orb].
  rewrite Hfind. cbn [truthy includes existsb String.eqb Ascii.eqb Bool.eqb
                      andb orb negb fst snd status res_json].
  split; [reflexivity|]. split.
  - exists (update_complaint_row (JStr "resolved") (body req "admin_response")
              (body req "admin_notes") JUndef now c).
    split; [|repeat split].
    unfold complaint_by_id, update_complaint. cbn [complaints].
    unfold complaint_by_id in Hfind.
    clear - Hfind. induction (complaints d) as [|a l IH]; [discriminate|].
    cbn [map filter] in Hfind |- *.
    destruct (id_eq (Complaint.complaint_id a) (Int (Complaint.complaint_id c)))
      eqn:Hc.
    + cbn [update_complaint_row Complaint.complaint_id]. rewrite Hc.
      injection Hfind as -> Hrest. f_equal.
      apply filter_none. intros x Hx. apply in_map_iff in Hx.
      destruct Hx as [y [<- Hy]].
      assert (Hy' : id_eq (Complaint.complaint_id y)
                          (Int (Complaint.complaint_id c)) = false).
      { destruct (id_eq (Complaint.complaint_id y)
                        (Int (Complaint.complaint_id c))) eqn:Hyc; [|reflexivity].
        assert (Hyin : In y (filter (fun c0 => id_eq (Complaint.complaint_id c0)
                                      (Int (Complaint.complaint_id c))) l))
          by (apply filter_In; tauto).
        rewrite Hrest in Hyin. contradiction. }
      rewrite Hy'. exact Hy'.
    + rewrite Hc. apply IH. exact Hfind.
  - intros other Ho Hneq. unfold update_complaint. cbn [complaints].
    apply in_map_iff. exists other. split; [|exact Ho].
    rewrite id_eq_Int. apply Z.eqb_neq in Hneq. rewrite Hneq. reflexivity.
Qed.

(** X20. Anonymity goes by truthiness: any value of [anonymous] that JavaScript
    takes for true (the string "false" of a form post among them) makes
    the complaint anonymous: with a title and a description that are
    strings and not empty, category and priority in order, and contact
    fields that are strings or absent, the answer is 201 and the row has
    no computer number, whatever the body gives as one. *)
Theorem truthy_anonymous_is_anonymous
    (d : db) (now : Z) (req : request) (title description : string) :
  truthy (body req "anonymous") = true ->
  body req "title" = JStr title -> title <> "" ->
  body req "description" = JStr description -> description <> "" ->
  includes validCategories (body req "category") = true ->
  includes validPriorities (default (body req "priority") (JStr "medium")) = true ->
  string_or_absent (body req "contact_phone") ->
  string_or_absent (body req "contact_email") ->
  status (fst (POST_complaints d now req)) = 201
  /\ exists row,
       complaints (snd (POST_complaints d now req)) = (complaints d ++ [row])%list
       /\ Complaint.computer_number row = None
       /\ Complaint.anonymous row = 1.
Proof.
  intros Ha Htitle Hne Hdesc Hne' Hc Hp _ _.
  assert (Ht : truthy (body req "title") = true).
  { rewrite Htitle. destruct title; [contradiction | reflexivity]. }
  assert (Hd : truthy (body req "description") = true).
  { rewrite Hdesc. destruct description; [contradiction | reflexivity]. }
  clear Htitle Hdesc. unfold POST_complaints.
  assert (Hct : truthy (body req "category") = true).
  { destruct (body req "category") as [| |b|z|c]; try discriminate.
    cbn. destruct c; [discriminate | reflexivity]. }
  assert (Ha' : truthy (default (body req "anonymous") (JBool false)) = true).
  { destruct (body req "anonymous"); try discriminate; exact Ha. }
  rewrite Ha', Ht, Hd, Hct, Hc, Hp. cbn.
  split; [reflexivity|]. eexists. repeat split.
Qed.

(** ** The complaints router *)

(** X21. GET /complaints/categories never reaches the categories handler: the
    route /:id is registered before it and takes every one-segment path,
    so the request is handled as a complaint id, which "categories" is
    not: 400.  GET /complaints/admin/stats, of two segments, does reach
    its handler. *)
Theorem categories_route_is_shadowed :
  (forall (m : method) (path : list string) (bound : list (string * string)),
      dispatch complaints_router m path <> Some (Categories, bound))
  /\ dispatch complaints_router GET ["categories"]
     = Some (By_id, [("id", "categories")])
  /\ (forall (d : db) (now : Z) (req : request),
        params req = params_of [("id", "categories")] ->
        status (fst (GET_complaint d now req)) = 400
        /\ get "message" (json_body (fst (GET_complaint d now req)))
           = Some (jstr "Invalid complaint ID provided"))
  /\ dispatch complaints_router GET ["admin"; "stats"] = Some (Admin_stats, []).
Proof.
  split; [|split; [reflexivity | split; [|reflexivity]]].
  - intros m path bound. unfold complaints_router, dispatch.
    destruct m; cbn [method_eqb];
      destruct path as [|p [|q [|r rest]]]; cbn [match_path];
      try discriminate;
      try (destruct (String.eqb p "") eqn:Hp;
           [apply String.eqb_eq in Hp; subst p; cbn; discriminate|]);
      repeat match goal with
             | |- context [if ?c then _ else _] => destruct c
             end; discriminate.
  - intros d now req Hp. unfold GET_complaint. rewrite Hp. split; reflexivity.
Qed.

End Meetings_and_complaints.

Section Pages_and_retries.
Context {E : Externals} {Dr : Driver}.

(** ** Pages *)

Lemma limit_offset_length {A : Type} (l : Z) (offset : jsnum) (rows page : list A) :
  limit_offset (Int l) offset rows = Some page ->
  0 <= l /\ Z.of_nat (List.length page) <= l.
Proof.
  unfold limit_offset. rewrite as_integer_Int.
  destruct (as_integer offset) as [o|]; [|discriminate].
  destruct ((0 <=? l) && (0 <=? o) && (l <? 10 ^ 21) && (o <? 10 ^ 21))%bool
    eqn:Hc; [|discriminate].
  intros Hp. injection Hp as <-.
  rewrite !andb_true_iff in Hc. destruct Hc as [[[Hl _] _] _].
  apply Z.leb_le in Hl.
  split; [exact Hl|].
  pose proof (firstn_le_length (Z.to_nat l) (skipn (Z.to_nat o) rows)). lia.
Qed.

(** X22. A page never holds more rows than the limit: on each listing, when the
    limit parses to an integer and the answer carries rows, the limit is
    not negative and the rows are at most that many. *)
Theorem page_has_at_most_limit_rows
    (e : listing) (user : User.t) (d : db) (now : Z) (req : request)
    (l : Z) (rows : list json) :
  parseInt_or 10 (query req "limit") = Int l ->
  get "data" (json_body (fst (listing_handler e user d now req)))
  = Some (JArr rows) ->
  0 <= l /\ Z.of_nat (List.length rows) <= l.
Proof.
  intros Hlimit.
  destruct e; cbn [listing_handler];
    [unfold get_users | unfold GET_complaints | unfold get_meetings];
    rewrite Hlimit; open_listing; intros Hrows;
    cbn in Hrows; try discriminate;
    injection Hrows as <-; rewrite length_map;
    match goal with
    | Hp : limit_offset _ _ _ = Some _ |- _ =>
        exact (limit_offset_length _ _ _ _ Hp)
    end.
Qed.

(** X23. A limit of [0] is not refused.  With every parameter given at
    most once and the page an integer within 2^53, the listing answers
    200 with no rows, and the [total_pages] it computes is not a number
    of pages: Infinity when rows match, NaN when none does. *)
Theorem zero_limit_has_no_page_count
    (e : listing) (user : User.t) (d : db) (now : Z) (req : request) (pg : Z) :
  query req "limit" = Some (QStr "0") ->
  parseInt_or 1 (query req "page") = Int pg ->
  - 2 ^ 53 < pg < 2 ^ 53 ->
  (forall k, plain (query req k)) ->
  status (fst (listing_handler e user d now req)) = 200
  /\ get "data" (json_body (fst (listing_handler e user d now req)))
     = Some (JArr [])
  /\ exists total p,
       total_count e user d req = Some total
       /\ pagination_of (fst (listing_handler e user d now req)) = Some p
       /\ get "total_pages" p
          = Some (JNumber (if total =? 0 then NaN else PInf)).
Proof.
  intros Hzero Hpage _ Hplain.
  assert (Hlimit : parseInt_or 10 (query req "limit") = Int 0)
    by (rewrite Hzero; reflexivity).
  assert (Hlo : forall (A : Type) (rows : list A),
             limit_offset (Int 0) (jsmul (jssub (Int pg) (Int 1)) (Int 0)) rows
             = Some []).
  { intros A rows. unfold limit_offset.
    rewrite as_integer_Int, offset_integer.
    replace ((pg - 1) * 0) with 0 by lia. reflexivity. }
  assert (Hdiv : forall n : nat,
             Math_ceil (jsdiv (count (repeat tt n)) (Int 0))
             = if Z.of_nat n =? 0 then NaN else PInf).
  { intros n. unfold count. rewrite repeat_length.
    destruct n; [reflexivity|]. reflexivity. }
  assert (Hcount : forall (A : Type) (rows : list A),
             count rows = count (repeat tt (List.length rows))).
  { intros A rows. unfold count. rewrite repeat_length. reflexivity. }
  destruct (toUpperCase_plain "DESC" _ (Hplain "sort_order")) as [upper Hupper].
  destruct (meetings_where_plain meetings_joined_eq (User.computer_number user)
              _ (Hplain "status")) as [listed Hlisted].
  destruct (total_count_plain e user d req Hplain) as [total Htotal].
  destruct e; cbn [listing_handler total_count] in *;
    [unfold get_users | unfold GET_complaints | unfold get_meetings];
    try rewrite Hupper; try rewrite Hlisted; unfold rows_where in *;
    match type of Htotal with
    | option_map _ ?w = _ => destruct w; [|discriminate]
    end;
    rewrite Hlimit, Hpage; cbv beta iota zeta; rewrite Hlo;
    match goal with
    | |- context [count ?rows] => rewrite (Hcount _ rows), Hdiv
    end;
    (split; [reflexivity|]); (split; [reflexivity|]);
    eexists; eexists; (split; [reflexivity|]); (split; reflexivity).
Qed.

(** X24. With every query parameter given at most once, a positive limit
    and a page of at least one, limit and offset below 2^53, the listing
    answers 200 and carries a pagination object that names that page and
    that limit. *)
Theorem listing_succeeds
    (e : listing) (user : User.t) (d : db) (now : Z) (req : request)
    (l pg : Z) :
  parseInt_or 10 (query req "limit") = Int l -> 0 < l -> l < 2 ^ 53 ->
  parseInt_or 1 (query req "page") = Int pg -> 1 <= pg ->
  (pg - 1) * l < 2 ^ 53 ->
  (forall k, plain (query req k)) ->
  status (fst (listing_handler e user d now req)) = 200
  /\ exists p,
       pagination_of (fst (listing_handler e user d now req)) = Some p
       /\ get "current_page" p = Some (JNumber (Int pg))
       /\ get "limit" p = Some (JNumber (Int l)).
Proof.
  intros Hlimit Hl Hl' Hpage Hpg Ho Hplain.
  destruct (toUpperCase_plain "DESC" _ (Hplain "sort_order")) as [upper Hupper].
  destruct (meetings_where_plain meetings_joined_eq (User.computer_number user)
              _ (Hplain "status")) as [listed Hlisted].
  destruct (total_count_plain e user d req Hplain) as [total Htotal].
  destruct e; cbn [listing_handler total_count] in *;
    [unfold get_users | unfold GET_complaints | unfold get_meetings];
    try rewrite Hupper; try rewrite Hlisted; unfold rows_where in Htotal;
    match type of Htotal with
    | option_map _ ?w = _ => destruct w; [|discriminate]
    end;
    rewrite Hlimit, Hpage; cbv beta iota zeta;
    match goal with
    | |- context [limit_offset ?a ?b ?c] =>
        destruct (limit_offset_accepts l pg c Hl Hl' Hpg Ho) as [rows ->]
    end;
    (split; [reflexivity|]); eexists;
    (split; [reflexivity|]); (split; reflexivity).
Qed.

(** ** The connection test *)

Lemma testConnection_loop_returns (attempt : nat -> bool)
    (maxRetries retryDelay : Z) (fuel : nat) (retryCount : Z) :
  (Z.to_nat (maxRetries - retryCount) <= fuel)%nat ->
  fst (testConnection_loop attempt maxRetries retryDelay fuel retryCount)
  <> None.
Proof.
  revert retryCount. induction fuel as [|fuel IH]; intros retryCount Hfuel;
    cbn [testConnection_loop];
    destruct (retryCount <? maxRetries) eqn:Hlt; try discriminate.
  - apply Z.ltb_lt in Hlt. lia.
  - destruct (attempt (Z.to_nat retryCount)); [discriminate|].
    destruct (retryCount + 1 <? maxRetries) eqn:Hlt'; [|discriminate].
    apply Z.ltb_lt in Hlt, Hlt'.
    specialize (IH (retryCount + 1) ltac:(lia)).
    destruct (testConnection_loop attempt maxRetries retryDelay fuel
                (retryCount + 1)) as [r t].
    exact IH.
Qed.

(** X26. The loop of [testConnection] always ends with a return: the number of
    retries allowed is enough fuel for it. *)
Theorem testConnection_returns (attempt : nat -> bool)
    (maxRetries retryDelay : Z) :
  fst (testConnection attempt maxRetries retryDelay) <> None.
Proof.
  unfold testConnection. apply testConnection_loop_returns.
  rewrite Z.sub_0_r. apply Nat.le_refl.
Qed.

Lemma testConnection_loop_true (attempt : nat -> bool)
    (maxRetries retryDelay : Z) (k : Z) (fuel : nat) (retryCount : Z) :
  0 <= retryCount <= k -> k < maxRetries ->
  (Z.to_nat (maxRetries - retryCount) <= fuel)%nat ->
  attempt (Z.to_nat k) = true ->
  (forall i, retryCount <= i < k -> attempt (Z.to_nat i) = false) ->
  exists t,
    testConnection_loop attempt maxRetries retryDelay fuel retryCount
    = (Some Ret_true, t)
    /\ queries t = Z.to_nat (k - retryCount + 1)
    /\ sleeps t = Z.to_nat (k - retryCount).
Proof.
  revert retryCount. induction fuel as [|fuel IH];
    intros retryCount Hrc Hk Hfuel Hok Hbefore; [lia|].
  cbn [testConnection_loop].
  replace (retryCount <? maxRetries) with true by (symmetry; apply Z.ltb_lt; lia).
  destruct (Z.eq_dec retryCount k) as [-> | Hne].
  - rewrite Hok. eexists. split; [reflexivity|].
    replace (k - k + 1) with 1 by lia. replace (k - k) with 0 by lia.
    split; reflexivity.
  - rewrite (Hbefore retryCount ltac:(lia)).
    replace (retryCount + 1 <? maxRetries) with true
      by (symmetry; apply Z.ltb_lt; lia).
    destruct (IH (retryCount + 1) ltac:(lia) Hk ltac:(lia) Hok
                 ltac:(intros i Hi; apply Hbefore; lia)) as [t [Ht [Hq Hs]]].
    rewrite Ht. eexists. split; [reflexivity|].
    unfold queries, sleeps in *. cbn [filter List.length]. rewrite Hq, Hs.
    split; lia.
Qed.

Lemma testConnection_loop_false (attempt : nat -> bool)
    (maxRetries retryDelay : Z) (fuel : nat) (retryCount : Z) :
  0 <= retryCount < maxRetries ->
  (Z.to_nat (maxRetries - retryCount) <= fuel)%nat ->
  (forall i, retryCount <= i < maxRetries -> attempt (Z.to_nat i) = false) ->
  exists t,
    testConnection_loop attempt maxRetries retryDelay fuel retryCount
    = (Some Ret_false, t)
    /\ queries t = Z.to_nat (maxRetries - retryCount)
    /\ sleeps t = Z.to_nat (maxRetries - retryCount - 1).
Proof.
  revert retryCount. induction fuel as [|fuel IH];
    intros retryCount Hrc Hfuel Hall; [lia|].
  cbn [testConnection_loop].
  replace (retryCount <? maxRetries) with true by (symmetry; apply Z.ltb_lt; lia).
  rewrite (Hall retryCount ltac:(lia)).
  destruct (retryCount + 1 <? maxRetries) eqn:Hlt.
  - apply Z.ltb_lt in Hlt.
    destruct (IH (retryCount + 1) ltac:(lia) ltac:(lia)
                 ltac:(intros i Hi; apply Hall; lia)) as [t [Ht [Hq Hs]]].
    rewrite Ht. eexists. split; [reflexivity|].
    unfold queries, sleeps in *. cbn [filter List.length]. rewrite Hq, Hs.
    split; lia.
  - apply Z.ltb_ge in Hlt. eexists. split; [reflexivity|].
    replace (maxRetries - retryCount) with 1 by lia. split; reflexivity.
Qed.

(** X27. What [testConnection] returns and does.  With no retry allowed it
    returns undefined without a query.  Otherwise it returns true at the
    first attempt that succeeds, having queried once per attempt and slept
    once between two attempts; and when every attempt fails it returns
    false after exactly maxRetries queries and one wait fewer. *)
Theorem testConnection_outcome (attempt : nat -> bool)
    (maxRetries retryDelay : Z) :
  (maxRetries <= 0 ->
   testConnection attempt maxRetries retryDelay = (Some Ret_undefined, []))
  /\ (forall k,
        0 <= k < maxRetries ->
        attempt (Z.to_nat k) = true ->
        (forall i, 0 <= i < k -> attempt (Z.to_nat i) = false) ->
        exists t,
          testConnection attempt maxRetries retryDelay = (Some Ret_true, t)
          /\ queries t = Z.to_nat (k + 1) /\ sleeps t = Z.to_nat k)
  /\ (0 < maxRetries ->
      (forall i, 0 <= i < maxRetries -> attempt (Z.to_nat i) = false) ->
      exists t,
        testConnection attempt maxRetries retryDelay = (Some Ret_false, t)
        /\ queries t = Z.to_nat maxRetries
        /\ sleeps t = Z.to_nat (maxRetries - 1)).
Proof.
  unfold testConnection. repeat split.
  - intros Hmax. destruct (Z.to_nat maxRetries); cbn [testConnection_loop];
      replace (0 <? maxRetries) with false by (symmetry; apply Z.ltb_ge; lia);
      reflexivity.
  - intros k Hk Hok Hbefore.
    destruct (testConnection_loop_true attempt maxRetries retryDelay k
                (Z.to_nat maxRetries) 0 ltac:(lia) ltac:(lia)
                ltac:(rewrite Z.sub_0_r; apply Nat.le_refl) Hok Hbefore)
      as [t [Ht [Hq Hs]]].
    exists t. rewrite Z.sub_0_r in *. tauto.
  - intros Hmax Hall.
    destruct (testConnection_loop_false attempt maxRetries retryDelay
                (Z.to_nat maxRetries) 0 ltac:(lia)
                ltac:(rewrite Z.sub_0_r; apply Nat.le_refl) Hall)
      as [t [Ht [Hq Hs]]].
    exists t. rewrite Z.sub_0_r in *. tauto.
Qed.

End Pages_and_retries.

Section Secrets.
Context {E : Externals} {Dr : Driver} {H : Hashing}.

(** ** The password hash stays in the store *)

Lemma has_key_cons (k k' : string) (v : json) (fields : list (string * json)) :
  has_key k (JObj ((k', v) :: fields))
  = (String.eqb k k' || has_key k v || has_key k (JObj fields))%bool.
Proof. reflexivity. Qed.

Lemma has_key_nil (k : string) : has_key k (JObj []) = false.
Proof. reflexivity. Qed.

Lemma has_key_scalar (k : string) (v : jsval) : has_key k (JScalar v) = false.
Proof. reflexivity. Qed.

Lemma has_key_number (k : string) (n : jsnum) : has_key k (JNumber n) = false.
Proof. reflexivity. Qed.

Lemma has_key_rows {A : Type} (k : string) (f : A -> json) (rows : list A) :
  (forall x, has_key k (f x) = false) -> has_key k (JArr (map f rows)) = false.
Proof.
  intros Hf. induction rows as [|a rows IH]; [reflexivity|].
  cbn [map]. change (has_key k (JArr (f a :: map f rows)))
    with (has_key k (f a) || has_key k (JArr (map f rows)))%bool.
  rewrite Hf, IH. reflexivity.
Qed.

Lemma has_key_strings (k : string) (l : list string) :
  has_key k (JArr (map jstr l)) = false.
Proof. apply has_key_rows. reflexivity. Qed.

Lemma has_key_jopt (k : string) (o : option string) : has_key k (jopt o) = false.
Proof. destruct o; reflexivity. Qed.

(** What an object without the key holds has not the key either. *)
Lemma has_key_get (k field : string) (o v : json) :
  has_key k o = false -> get field o = Some v -> has_key k v = false.
Proof.
  destruct o as [x|n|l|fields]; try discriminate. cbn [get].
  induction fields as [|[k' v'] fields IH]; [discriminate|].
  rewrite has_key_cons. cbn [assoc]. intros Hk Hget.
  apply orb_false_iff in Hk. destruct Hk as [Hk Hrest].
  apply orb_false_iff in Hk. destruct Hk as [_ Hv'].
  destruct (String.eqb field k').
  - injection Hget as <-. exact Hv'.
  - exact (IH Hrest Hget).
Qed.

Lemma has_key_jtime (k : string) (o : option Z) : has_key k (jtime o) = false.
Proof. destruct o; reflexivity. Qed.

Lemma has_key_jfield (k : string) (f : User.t -> string) (o : option User.t) :
  has_key k (jfield f o) = false.
Proof. destruct o; reflexivity. Qed.

Lemma has_key_if (k : string) (c : bool) (a b : json) :
  has_key k (if c then a else b) = if c then has_key k a else has_key k b.
Proof. destruct c; reflexivity. Qed.

Create Rewrite HintDb no_key.
#[local] Hint Rewrite has_key_cons has_key_nil has_key_scalar has_key_number
  has_key_strings has_key_jopt has_key_jtime has_key_jfield
  has_key_if : no_key.

Ltac no_hash :=
  cbn [fst json_body res_status res_json];
  unfold res_status, res_json, user_json, complaint_json, complaint_list_json,
    meeting_json, meeting_list_json, jstr, jbool, jnull, jint;
  cbn [fst json_body];
  autorewrite with no_key;
  repeat match goal with
         | |- context [if ?c then false else false] => destruct c
         end;
  reflexivity.

Lemma no_hash_user (u : User.t) : has_key "password_hash" (user_json u) = false.
Proof. no_hash. Qed.

Lemma no_hash_complaint (c : Complaint.t) :
  has_key "password_hash" (complaint_json c) = false
  /\ has_key "password_hash" (complaint_list_json c) = false.
Proof. split; no_hash. Qed.

Lemma no_hash_meeting (r : joined) :
  has_key "password_hash" (meeting_json r) = false
  /\ has_key "password_hash" (meeting_list_json r) = false.
Proof. destruct r as [[m o] p]. split; no_hash. Qed.

#[local] Hint Rewrite no_hash_user : no_key.

Ltac rows_no_hash :=
  repeat match goal with
         | |- context [JArr (map user_json ?rows)] =>
             rewrite (has_key_rows "password_hash" user_json rows no_hash_user)
         | |- context [JArr (map complaint_list_json ?rows)] =>
             rewrite (has_key_rows "password_hash" complaint_list_json rows
                        (fun c => proj2 (no_hash_complaint c)))
         | |- context [JArr (map meeting_list_json ?rows)] =>
             rewrite (has_key_rows "password_hash" meeting_list_json rows
                        (fun r => proj2 (no_hash_meeting r)))
         end.

Ltac open_branches :=
  repeat match goal with
         | |- context [if ?c then (_, _) else _] => destruct c
         | |- context [match ?x with [] => _ | _ :: _ => _ end] => destruct x
         | |- context [match ?x with Some _ => _ | None => _ end] => destruct x
         | |- context [match ?x with Decoded _ => _ | Throws _ => _ end] =>
             destruct x
         | |- context [match ?x with JStr _ => _ | _ => _ end] => destruct x
         | |- context [let (_, _) := ?x in _] => destruct x
         end.

Lemma no_hash_middleware (d : db) (now : Z) (req : request) (r : response) :
  authenticate d now req = Respond r ->
  has_key "password_hash" (json_body r) = false.
Proof.
  unfold authenticate. intros Hx.
  destruct (bearer_token req) as [token|]; [|injection Hx as <-; reflexivity].
  destruct (String.eqb token ""); [injection Hx as <-; reflexivity|].
  destruct (jwt_verify token JWT_SECRET now) as [decoded|name].
  - destruct (user_by_number d (sql_text (claim "computer_number" decoded)));
      [injection Hx as <-; reflexivity | discriminate].
  - destruct (String.eqb name "JsonWebTokenError");
      [injection Hx as <-; reflexivity|].
    destruct (String.eqb name "TokenExpiredError");
      injection Hx as <-; reflexivity.
Qed.

Lemma no_hash_authenticated (handler : User.t -> route)
    (d : db) (now : Z) (req : request) :
  (forall u, has_key "password_hash" (json_body (fst (handler u d now req)))
             = false) ->
  has_key "password_hash" (json_body (fst (authenticated handler d now req)))
  = false.
Proof.
  intros Hh. unfold authenticated.
  destruct (authenticate d now req) eqn:Ha;
    [exact (no_hash_middleware _ _ _ _ Ha) | apply Hh].
Qed.

Lemma no_hash_authorized (roles : list string) (handler : User.t -> route)
    (d : db) (now : Z) (req : request) :
  (forall u, has_key "password_hash" (json_body (fst (handler u d now req)))
             = false) ->
  has_key "password_hash" (json_body (fst (authorized roles handler d now req)))
  = false.
Proof.
  intros Hh. unfold authorized.
  destruct (authenticate d now req) eqn:Ha;
    [exact (no_hash_middleware _ _ _ _ Ha)|].
  unfold authorize. destruct (negb _); [|apply Hh].
  no_hash.
Qed.

(** X28. The password hash is read by login and change-password and never
    sent.  No response of a route that sends back nothing of the request
    carries a password_hash key, at any depth; and the rows GET /users
    and GET /complaints list carry none either. *)
Theorem password_hash_is_never_sent :
  (forall (r : route) (d : db) (now : Z) (req : request),
      In r routes_without_echo ->
      has_key "password_hash" (json_body (fst (r d now req))) = false)
  /\ (forall (d : db) (now : Z) (req : request) (rows : json),
        get "data" (json_body (fst (GET_users d now req))) = Some rows ->
        has_key "password_hash" rows = false)
  /\ (forall (d : db) (now : Z) (req : request) (rows : json),
        get "data" (json_body (fst (GET_complaints d now req))) = Some rows ->
        has_key "password_hash" rows = false).
Proof.
  split; [|split].
  - intros r d now req Hr. cbn in Hr.
    repeat (destruct Hr as [<- | Hr]); try contradiction.
    + unfold auth_login. open_branches; no_hash.
    + unfold auth_get_profile. open_branches; no_hash.
    + unfold auth_put_profile. open_branches; no_hash.
    + unfold auth_change_password. open_branches; no_hash.
    + apply no_hash_authenticated. intros u. unfold get_user.
      open_branches; no_hash.
    + apply no_hash_authorized. intros u. unfold put_user_role.
      open_branches; no_hash.
    + apply no_hash_authorized. intros u. unfold delete_user_route.
      open_branches; no_hash.
    + apply no_hash_authenticated. intros u. unfold get_meetings.
      open_listing; cbn [fst json_body res_status res_json]; unfold res_json;
        cbn [json_body]; rewrite ?has_key_cons; rows_no_hash; no_hash.
    + apply no_hash_authenticated. intros u. unfold get_meeting.
      open_branches; no_hash.
    + apply no_hash_authenticated. intros u. unfold put_meeting.
      open_branches; no_hash.
    + apply no_hash_authenticated. intros u. unfold delete_meeting_route.
      open_branches; no_hash.
    + unfold GET_complaint. open_branches; no_hash.
    + unfold PUT_complaint. open_branches; no_hash.
  - intros d now req rows. unfold GET_users, authorized.
    destruct (authenticate d now req) as [r|user] eqn:Ha.
    { apply has_key_get. exact (no_hash_middleware _ _ _ _ Ha). }
    unfold authorize. destruct (negb _).
    { apply has_key_get. no_hash. }
    unfold get_users. open_listing; cbn; intros Hrows; try discriminate.
    injection Hrows as <-. apply has_key_rows. exact no_hash_user.
  - intros d now req rows. unfold GET_complaints.
    open_listing; cbn; intros Hrows; try discriminate.
    injection Hrows as <-. apply has_key_rows.
    exact (fun c => proj2 (no_hash_complaint c)).
Qed.

End Secrets.

(** * The further properties at work on the sample store *)

Section More_examples.
Import Sample.

Ltac sample_nodup := repeat constructor; cbn; intuition discriminate.

Lemma sample_users_ok : users_ok store.
Proof.
  split; [sample_nodup | split; [sample_nodup|]].
  repeat (apply Forall_cons; [split; [reflexivity | cbn; tauto]|]).
  apply Forall_nil.
Defined.

Lemma sample_meetings_ok : meetings_ok store.
Proof.
  split; [sample_nodup|].
  repeat (apply Forall_cons; [split; [cbn; lia | cbn; tauto]|]).
  apply Forall_nil.
Defined.

Lemma sample_complaints_ok : complaints_ok store.
Proof.
  split; [sample_nodup|].
  repeat (apply Forall_cons;
          [unfold complaint_ok;
           split; [cbn; lia|]; split; [cbn; tauto|]; split; [cbn; tauto|];
           split; [cbn; tauto|];
           first [ left; split; reflexivity
                 | right; split; [reflexivity|]; eexists; split; reflexivity ]
          |]).
  apply Forall_nil.
Defined.

Lemma optionalAuth_agrees_witness :
  optionalAuth store 1000 self_request = Some admin
  /\ authenticate store 1000 self_request = Next admin.
Proof.
  split; [|reflexivity].
  apply (optionalAuth_agrees (E := externals) store 1000 self_request admin).
  reflexivity.
Defined.

Lemma demotion_takes_effect_witness :
  status (fst (PUT_user_role store 1000 demote_request)) = 200
  /\ authenticate store 2000 lecturer_request = Next lecturer
  /\ status (fst (authorized ["admin"; "lecturer"] get_users store 2000
                    lecturer_request)) = 200
  /\ status (fst (authorized ["admin"] get_users
                    (snd (PUT_user_role store 1000 demote_request)) 2000
                    lecturer_request)) = 403.
Proof.
  assert (Hne : body demote_request "role" <> JStr "admin") by discriminate.
  destruct (demotion_takes_effect (E := externals) store 1000 2000
              demote_request lecturer_request admin lecturer get_users
              eq_refl eq_refl Hne eq_refl eq_refl) as [H403 _].
  split; [reflexivity|]. split; [reflexivity|]. split; [reflexivity|].
  exact H403.
Defined.

Lemma deleted_user_is_locked_out_witness :
  status (fst (DELETE_user store 1000 delete_request)) = 200
  /\ authenticate store 2000 outsider_request = Next outsider
  /\ exists r,
       authenticate (snd (DELETE_user store 1000 delete_request)) 2000
                    outsider_request = Respond r
       /\ status r = 401.
Proof.
  destruct (deleted_user_is_locked_out (E := externals) store 1000 2000
              delete_request outsider_request admin outsider
              eq_refl eq_refl eq_refl eq_refl) as [r [Hr [Hs _]]].
  split; [reflexivity|]. split; [reflexivity|]. exists r. split; assumption.
Defined.

Lemma profile_is_own_or_admin_witness :
  authenticate store 1000 other_profile_request = Next student
  /\ status (fst (GET_user store 1000 other_profile_request)) = 403
  /\ fst (GET_user store 1000 own_profile_request)
     = res_json [("success", jbool true); ("data", user_json student)].
Proof.
  assert (Hrole : User.role student <> "admin") by discriminate.
  assert (Hp : params other_profile_request "computer_number"
               <> User.computer_number student) by discriminate.
  destruct (profile_is_own_or_admin (E := externals) store 1000
              other_profile_request student eq_refl) as [Hother _].
  destruct (profile_is_own_or_admin (E := externals) store 1000
              own_profile_request student eq_refl) as [_ [Hown _]].
  split; [reflexivity|]. split; [exact (Hother Hrole Hp)|].
  exact (proj1 (Hown eq_refl)).
Defined.

Lemma users_table_stays_well_formed_witness :
  In auth_register all_routes
  /\ users_ok store
  /\ List.length (users (snd (auth_register store 1000 register_request))) = 5%nat
  /\ users_ok (snd (auth_register store 1000 register_request)).
Proof.
  assert (Hr : In (auth_register (H := hashing)) (all_routes (E := externals) (Dr := driver)))
    by (left; reflexivity).
  split; [exact Hr|]. split; [exact sample_users_ok|].
  split; [reflexivity|].
  exact (users_table_stays_well_formed (E := externals) (Dr := driver)
           (H := hashing) auth_register store 1000 register_request Hr
           (or_intror (or_intror (ex_intro _ "Esnart" eq_refl)))
           (or_intror (or_intror (ex_intro _ "Tembo" eq_refl)))
           (or_intror (or_intror (ex_intro _ "0970000005" eq_refl)))
           sample_users_ok).
Defined.

Lemma meetings_table_stays_well_formed_witness :
  In POST_meetings all_routes
  /\ meetings_ok store
  /\ List.length (meetings (snd (POST_meetings store 1000 book_request))) = 2%nat
  /\ meetings_ok (snd (POST_meetings store 1000 book_request)).
Proof.
  assert (Hr : In (POST_meetings (E := externals))
                  (all_routes (E := externals) (Dr := driver) (H := hashing)))
    by (cbn; tauto).
  split; [exact Hr|]. split; [exact sample_meetings_ok|].
  split; [reflexivity|].
  exact (meetings_table_stays_well_formed (E := externals) (H := hashing)
           POST_meetings store 1000 book_request Hr sample_meetings_ok).
Defined.

Lemma complaints_table_stays_well_formed_witness :
  In PUT_complaint all_routes
  /\ complaints_ok store
  /\ status (fst (PUT_complaint store 1000 resolve_request)) = 200
  /\ complaints_ok (snd (PUT_complaint store 1000 resolve_request)).
Proof.
  assert (Hr : In PUT_complaint (all_routes (E := externals) (Dr := driver) (H := hashing)))
    by (cbn; tauto).
  split; [exact Hr|]. split; [exact sample_complaints_ok|].
  split; [reflexivity|].
  exact (complaints_table_stays_well_formed (E := externals) (Dr := driver)
           (H := hashing) PUT_complaint store 1000 resolve_request Hr
           (or_introl eq_refl) (or_introl eq_refl) sample_complaints_ok).
Defined.

Lemma complaints_are_never_lost_witness :
  In PUT_complaint all_routes
  /\ In complaint1 (complaints store)
  /\ status (fst (PUT_complaint store 1000 anonymous_update_request)) = 200
  /\ exists c',
       In c' (complaints (snd (PUT_complaint store 1000 anonymous_update_request)))
       /\ Complaint.complaint_id c' = 1
       /\ Complaint.title c' = "Missing grade".
Proof.
  assert (Hr : In PUT_complaint (all_routes (E := externals) (Dr := driver) (H := hashing)))
    by (cbn; tauto).
  assert (Hin : In complaint1 (complaints store)) by (left; reflexivity).
  destruct (complaints_are_never_lost (E := externals) (Dr := driver)
              (H := hashing)
              PUT_complaint store 1000 anonymous_update_request complaint1 Hr
              (or_intror (or_intror (ex_intro _ "Not our problem" eq_refl)))
              (or_intror (or_intror (ex_intro _ "closed by a stranger" eq_refl)))
              Hin) as [c' [H1 [H2 [_ [H3 _]]]]].
  split; [exact Hr|]. split; [exact Hin|]. split; [reflexivity|].
  exists c'. repeat split; assumption.
Defined.

Lemma register_duplicate_conflict_witness :
  In student (users store)
  /\ sql_text (body register_taken_request "email") = Some (User.email student)
  /\ status (fst (auth_register store 1000 register_taken_request)) = 409
  /\ snd (auth_register store 1000 register_taken_request) = store.
Proof.
  assert (Hin : In student (users store)) by (cbn; tauto).
  destruct (register_duplicate_conflict (H := hashing) store 1000
              register_taken_request student
              eq_refl eq_refl eq_refl eq_refl eq_refl eq_refl eq_refl eq_refl
              eq_refl Hin (or_intror eq_refl)) as [H1 [_ H2]].
  repeat split; try assumption; reflexivity.
Defined.

Lemma sample_bcrypt :
  forall pw, bcrypt_compare pw (bcrypt_hash pw 12) = true.
Proof. intros pw. cbn. apply String.eqb_refl. Defined.

Lemma sample_sign :
  forall (now : Z) (claims : list (string * jsval)),
    jwt_sign claims JWT_SECRET expires_in now <> None.
Proof. intros now claims. cbn. discriminate. Defined.

Lemma register_then_login_witness :
  status (fst (auth_register store 1000 register_request)) = 201
  /\ status (fst (auth_login store 2000 new_user_login_request)) = 401
  /\ status (fst (auth_login (snd (auth_register store 1000 register_request))
                             2000 new_user_login_request)) = 200.
Proof.
  destruct (register_then_login (E := externals) (H := hashing) store 1000 2000
              register_request new_user_login_request
              eq_refl eq_refl eq_refl sample_bcrypt (sample_sign 2000))
    as [H200 _].
  split; [reflexivity|]. split; [reflexivity | exact H200].
Defined.

Lemma registration_grants_any_role_witness :
  status (fst (auth_register store 1000 register_admin_request)) = 201
  /\ authorization register_admin_request = None
  /\ status (fst (GET_users (snd (auth_register store 1000 register_admin_request))
                            2000 new_user_request)) = 200.
Proof.
  destruct (registration_grants_any_role (E := externals) (H := hashing)
              store 1000 2000 register_admin_request new_user_request
              (User.mk "2022000005" "admin" "Esnart" "Tembo" "esnart@unza.zm"
                       "0970000005" "$2b$esnartpw" 1000)
              get_users eq_refl eq_refl eq_refl eq_refl) as [_ Hrun].
  split; [reflexivity|]. split; [reflexivity|].
  unfold GET_users. rewrite Hrun. reflexivity.
Defined.

Lemma password_change_then_login_witness :
  status (fst (auth_change_password store 1000 change_password_request)) = 200
  /\ status (fst (auth_login
                    (snd (auth_change_password store 1000 change_password_request))
                    2000 (student_login_request "betterpw"))) = 200
  /\ status (fst (auth_login
                    (snd (auth_change_password store 1000 change_password_request))
                    2000 (student_login_request "studentpw"))) = 401.
Proof.
  assert (Hn : "2019123456" <> "") by discriminate.
  assert (Ho : "studentpw" <> "") by discriminate.
  destruct (password_change_then_login (E := externals) (H := hashing)
              store 1000 2000 change_password_request
              (student_login_request "betterpw")
              "t:2019123456" "2019123456" "betterpw"
              [("computer_number", JStr "2019123456")]
              eq_refl eq_refl eq_refl Hn eq_refl eq_refl eq_refl
              sample_bcrypt (sample_sign 2000)) as [Hnew _].
  destruct (password_change_then_login (E := externals) (H := hashing)
              store 1000 2000 change_password_request
              (student_login_request "studentpw")
              "t:2019123456" "2019123456" "betterpw"
              [("computer_number", JStr "2019123456")]
              eq_refl eq_refl eq_refl Hn eq_refl eq_refl eq_refl
              sample_bcrypt (sample_sign 2000)) as [_ Hold].
  split; [reflexivity|]. split; [exact (Hnew eq_refl)|].
  exact (Hold "studentpw" eq_refl Ho eq_refl).
Defined.

Lemma profile_email_conflict_witness :
  In lecturer (users store)
  /\ body take_email_request "email" = JStr (User.email lecturer)
  /\ status (fst (auth_put_profile store 1000 take_email_request)) = 409
  /\ snd (auth_put_profile store 1000 take_email_request) = store.
Proof.
  assert (Hin : In lecturer (users store)) by (cbn; tauto).
  assert (Ht : "t:2019123456" <> "") by discriminate.
  assert (Hcn : User.computer_number lecturer <> "2019123456") by discriminate.
  destruct (profile_email_conflict (E := externals) store 1000
              take_email_request "t:2019123456" "2019123456" "ben@unza.zm"
              [("computer_number", JStr "2019123456")] lecturer
              eq_refl Ht eq_refl eq_refl eq_refl eq_refl Hin eq_refl Hcn)
    as [H1 H2].
  repeat split; try assumption; reflexivity.
Defined.


Lemma participant_updates_but_cannot_delete_witness :
  authenticate store 1000 participant_request = Next lecturer
  /\ Meeting.participant_computer_number meeting1 = User.computer_number lecturer
  /\ status (fst (PUT_meeting store 1000 participant_request)) = 200
  /\ meeting_by_id (snd (PUT_meeting store 1000 participant_request)) (Int 1)
     = [set_meeting_status "confirmed" meeting1]
  /\ status (fst (DELETE_meeting store 1000 participant_request)) = 403.
Proof.
  assert (Hrole : User.role lecturer <> "admin") by discriminate.
  assert (Hkey : NoDup (map Meeting.meeting_id (meetings store)))
    by sample_nodup.
  assert (Hin : In meeting1 (meetings store)) by (left; reflexivity).
  assert (Horg : Meeting.organizer_computer_number meeting1
                 <> User.computer_number lecturer) by discriminate.
  assert (Hst : In "confirmed" meetingStatuses) by (cbn; tauto).
  destruct (participant_updates_but_cannot_delete (E := externals) store 1000
              participant_request lecturer meeting1 "confirmed"
              eq_refl Hrole Hkey Hin eq_refl eq_refl Horg eq_refl Hst)
    as [[H1 H2] [H3 _]].
  repeat split; try assumption; reflexivity.
Defined.

Lemma organizer_deletes_but_cannot_update_witness :
  authenticate store 1000 organizer_request = Next student
  /\ Meeting.organizer_computer_number meeting1 = User.computer_number student
  /\ status (fst (DELETE_meeting store 1000 organizer_request)) = 200
  /\ meetings (snd (DELETE_meeting store 1000 organizer_request)) = []
  /\ status (fst (PUT_meeting store 1000 organizer_request)) = 403.
Proof.
  assert (Hrole : User.role student <> "admin") by discriminate.
  assert (Hkey : NoDup (map Meeting.meeting_id (meetings store)))
    by sample_nodup.
  assert (Hin : In meeting1 (meetings store)) by (left; reflexivity).
  assert (Hpart : Meeting.participant_computer_number meeting1
                  <> User.computer_number student) by discriminate.
  destruct (organizer_deletes_but_cannot_update (E := externals) store 1000
              organizer_request student meeting1
              eq_refl Hrole Hkey Hin eq_refl eq_refl Hpart)
    as [[H1 _] Hput].
  destruct (Hput eq_refl) as [H2 _].
  repeat split; try assumption; reflexivity.
Defined.


Lemma resolving_stamps_the_row_witness :
  In complaint1 (complaints store)
  /\ Complaint.resolved_at complaint1 = None
  /\ status (fst (PUT_complaint store 1000 resolve_request)) = 200
  /\ exists c',
       complaint_by_id (snd (PUT_complaint store 1000 resolve_request)) (Int 1)
       = [c']
       /\ Complaint.status c' = "resolved"
       /\ Complaint.resolved_at c' = Some 1000.
Proof.
  assert (Hkey : NoDup (map Complaint.complaint_id (complaints store)))
    by sample_nodup.
  assert (Hin : In complaint1 (complaints store)) by (left; reflexivity).
  destruct (resolving_stamps_the_row store 1000 resolve_request complaint1
              Hkey Hin eq_refl eq_refl eq_refl
              (or_introl eq_refl) (or_introl eq_refl))
    as [H1 [[c' [H2 [H3 [H4 _]]]] _]].
  split; [exact Hin|]. split; [reflexivity|]. split; [exact H1|].
  exists c'. repeat split; assumption.
Defined.

Lemma truthy_anonymous_is_anonymous_witness :
  body form_request "anonymous" = JStr "false"
  /\ body form_request "computer_number" = JStr "2019123456"
  /\ status (fst (POST_complaints store 1000 form_request)) = 201
  /\ exists row,
       complaints (snd (POST_complaints store 1000 form_request))
       = (complaints store ++ [row])%list
       /\ Complaint.computer_number row = None
       /\ Complaint.anonymous row = 1.
Proof.
  destruct (truthy_anonymous_is_anonymous store 1000 form_request
              "Broken projector" "Lecture theatre 2"
              eq_refl eq_refl ltac:(discriminate)
              eq_refl ltac:(discriminate) eq_refl eq_refl
              (or_introl eq_refl) (or_introl eq_refl)) as [H1 H2].
  split; [reflexivity|]. split; [reflexivity|]. split; assumption.
Defined.

Lemma categories_route_is_shadowed_witness :
  params categories_request = params_of [("id", "categories")]
  /\ status (fst (GET_complaint store 1000 categories_request)) = 400.
Proof.
  destruct categories_route_is_shadowed as [_ [_ [Hget _]]].
  split; [reflexivity|].
  exact (proj1 (Hget store 1000 categories_request eq_refl)).
Defined.

Lemma page_has_at_most_limit_rows_witness :
  parseInt_or 10 (query list_request "limit") = Int 2
  /\ exists rows,
       get "data" (json_body (fst (GET_complaints store 1000 list_request)))
       = Some (JArr rows)
       /\ List.length rows = 1%nat
       /\ Z.of_nat (List.length rows) <= 2.
Proof.
  split; [reflexivity|]. eexists. split; [reflexivity|]. split; [reflexivity|].
  exact (proj2 (page_has_at_most_limit_rows (E := externals) Complaints student
                  store 1000 list_request 2 _ eq_refl eq_refl)).
Defined.

Lemma zero_limit_request_plain (k : string) : plain (query zero_limit_request k).
Proof.
  unfold plain, zero_limit_request, fields. cbn [query assoc].
  destruct (String.eqb k "limit"); [right; eexists; reflexivity|].
  destruct (String.eqb k "page"); [right; eexists; reflexivity|].
  left. reflexivity.
Qed.

Lemma zero_limit_has_no_page_count_witness :
  query zero_limit_request "limit" = Some (QStr "0")
  /\ parseInt_or 1 (query zero_limit_request "page") = Int 7
  /\ status (fst (GET_complaints store 1000 zero_limit_request)) = 200
  /\ exists p,
       pagination_of (fst (GET_complaints store 1000 zero_limit_request)) = Some p
       /\ get "total_pages" p = Some (JNumber PInf).
Proof.
  destruct (zero_limit_has_no_page_count (E := externals) (Dr := driver)
              Complaints student store 1000 zero_limit_request 7
              eq_refl eq_refl (conj eq_refl eq_refl) zero_limit_request_plain)
    as [H1 [_ [total [p [Ht [H2 H3]]]]]].
  split; [reflexivity|]. split; [reflexivity|]. split; [exact H1|].
  exists p. split; [exact H2|].
  injection Ht as <-. exact H3.
Defined.

Lemma listing_succeeds_witness :
  parseInt_or 10 (query list_request "limit") = Int 2
  /\ parseInt_or 1 (query list_request "page") = Int 2
  /\ status (fst (GET_complaints store 1000 list_request)) = 200
  /\ exists p,
       pagination_of (fst (GET_complaints store 1000 list_request)) = Some p
       /\ get "current_page" p = Some (JNumber (Int 2))
       /\ get "limit" p = Some (JNumber (Int 2)).
Proof.
  split; [reflexivity|]. split; [reflexivity|].
  exact (listing_succeeds (E := externals) (Dr := driver) Complaints student
           store 1000 list_request 2 2 eq_refl ltac:(lia) eq_refl eq_refl
           ltac:(lia) eq_refl list_request_plain).
Defined.

(** GET /complaints?sort_order=asc&sort_order=desc&limit=2: the parameter
    is an array, which has no [toUpperCase], and the answer is 500; so it
    is with a limit of 1e21. *)
Example repeated_sort_order_fails :
  status (fst (GET_complaints store 1000
                 (mkreq None no_params
                    (fields None
                       [("sort_order", Some (QArr [QStr "asc"; QStr "desc"]));
                        ("limit", Some (QStr "2"))])
                    no_body))) = 500
  /\ status (fst (GET_complaints store 1000
                    (mkreq None no_params
                       (fields None
                          [("limit", Some (QStr "1000000000000000000000"))])
                       no_body))) = 500.
Proof. split; reflexivity. Qed.

Lemma past_meeting_rejected_witness :
  Date_getTime (body past_meeting_request "scheduled_at") = Fin (inject_Z 900)
  /\ status (fst (post_meeting student store 1000 past_meeting_request)) = 400
  /\ snd (post_meeting student store 1000 past_meeting_request) = store.
Proof.
  split; [reflexivity|].
  apply (past_meeting_rejected (E := externals) student store 1000
           past_meeting_request (inject_Z 900) eq_refl).
  rewrite <- Zle_Qle. lia.
Defined.

Lemma testConnection_outcome_witness :
  testConnection second_attempt 3 2000
  = (Some Ret_true, [Query; Sleep 2000; Query])
  /\ (exists t,
        testConnection no_attempt 3 2000 = (Some Ret_false, t)
        /\ queries t = 3%nat /\ sleeps t = 2%nat)
  /\ testConnection no_attempt 0 2000 = (Some Ret_undefined, []).
Proof.
  destruct (testConnection_outcome no_attempt 3 2000) as [_ [_ Hfalse]].
  destruct (testConnection_outcome no_attempt 0 2000) as [Hundef _].
  split; [reflexivity|]. split.
  - apply Hfalse; [lia | reflexivity].
  - apply Hundef. lia.
Defined.

Lemma password_hash_is_never_sent_witness :
  status (fst (auth_login store 1000 login_request)) = 200
  /\ has_key "token" (json_body (fst (auth_login store 1000 login_request)))
     = true
  /\ has_key "password_hash"
       (json_body (fst (auth_login store 1000 login_request))) = false
  /\ exists rows,
       get "data" (json_body (fst (GET_users store 1000 admin_request)))
       = Some (JArr rows)
       /\ List.length rows = 4%nat
       /\ has_key "password_hash" (JArr rows) = false.
Proof.
  destruct (password_hash_is_never_sent (E := externals) (Dr := driver)
              (H := hashing)) as [Hroutes [Husers _]].
  split; [reflexivity|]. split; [reflexivity|]. split.
  - apply (Hroutes auth_login store 1000 login_request). cbn. tauto.
  - eexists. split; [reflexivity|]. split; [reflexivity|].
    apply (Husers store 1000 admin_request). reflexivity.
Defined.

End More_examples.
